(** * dockerdwrapperwithcompose: the dockerd supervisor

    A shallow embedding of [app/dockerdwrapperwithcompose.c].  The C file keeps
    its state in four globals ([exit_code], [dockerd_process_pid],
    [restart_dockerd] and the GLib main loop) and talks to the platform
    through libc, GLib and axparameter calls.  Here the globals are a record
    threaded through a small state-and-trace monad, every platform call that
    has an effect leaves an event in the trace, and every answer the platform
    gives is read from a [World] record. *)

From Stdlib Require Import ZArith List String Ascii Bool Lia.
Import ListNotations.

Local Open Scope string_scope.
Local Open Scope Z_scope.

(** ** Constants of the source file *)

Definition dockerd_path_on_sd_card : string :=
  "/var/spool/storage/SD_DISK/dockerd".

Definition ax_parameters : list string := ["IPCSocket"; "SDCardSupport"; "UseTLS"].

Definition tls_cert_path : string :=
  "/usr/local/packages/dockerdwrapperwithcompose/".

Definition tls_certs : list string := ["ca.pem"; "server-cert.pem"; "server-key.pem"].

(** Signal numbers of <signal.h> on Linux. *)
Definition SIGINT : Z := 2.
Definition SIGQUIT : Z := 3.
Definition SIGKILL : Z := 9.
Definition SIGTERM : Z := 15.

(** ** Data *)

(** [struct settings]; a NULL [data_root] is [None]. *)
Record settings : Type := mkSettings {
  data_root : option string;
  use_tls : bool;
  use_ipc_socket : bool
}.

(** The globals.  [loop_quit] is the main loop's "quit was requested" bit,
    the only part of [GMainLoop] the program relies on. *)
Record State : Type := mkState {
  exit_code : Z;
  dockerd_process_pid : Z;
  restart_dockerd : bool;
  loop_quit : bool
}.

Definition set_exit_code (v : Z) (s : State) : State :=
  mkState v (dockerd_process_pid s) (restart_dockerd s) (loop_quit s).
Definition set_pid (p : Z) (s : State) : State :=
  mkState (exit_code s) p (restart_dockerd s) (loop_quit s).
Definition set_restart (b : bool) (s : State) : State :=
  mkState (exit_code s) (dockerd_process_pid s) b (loop_quit s).
Definition set_loop_quit (b : bool) (s : State) : State :=
  mkState (exit_code s) (dockerd_process_pid s) (restart_dockerd s) b.

Inductive Priority : Type := LOG_ERR | LOG_WARNING | LOG_INFO.

(** Arguments of a log line.  [LPlatformError] stands for a text only the
    platform knows ([strerror(errno)], [error->message]). *)
Inductive LogArg : Type :=
| LStr (s : string)
| LInt (z : Z)
| LPlatformError.

(** What the program does to the outside, in order.  [EvUndefined] marks a
    store outside a buffer: from there on C gives the run no meaning, and the
    model gives it no further effect. *)
Inductive Event : Type :=
| EvSyslog (prio : Priority) (format : string) (args : list LogArg)
| EvSystem (command : string)
| EvSpawn (argv : list string)
| EvChildWatchAdd (pid : Z)
| EvSpawnClosePid (pid : Z)
| EvKill (pid : Z) (sig : Z)
| EvSleep (requested : Z) (waited : Z)
| EvRemove (path : string)
| EvMainLoopQuit
| EvExitCode (v : Z)
| EvRegisterCallback (path : string)
| EvUnregisterCallback (path : string)
| EvUndefined.

(** One line of /proc/mounts, as [struct mntent] (the fields the code reads). *)
Record mntent : Type := mkMntent {
  mnt_dir : string;
  mnt_type : string
}.

(** The platform's answers during one activation of the program (start-up,
    one callback, or shut-down).

    [sleep_interrupt] describes the one [sleep] of [stop_dockerd]: [Some t]
    says the SIGCHLD of the exiting child arrives [t] seconds into the sleep
    and ends it; [None] says it does not.  The globals are the same after
    the sleep as before: [dockerd_process_pid] is reset only by
    [dockerd_process_exited_callback], which the main loop dispatches, and
    the main loop dispatches nothing while [stop_dockerd] runs.  A signal
    that [handle_signals] is installed for is taken to arrive while the main
    loop waits (see [LoopEvent]), not inside this sleep. *)
Record World : Type := mkWorld {
  ax_parameter_new_ok : bool;
  ax_parameter_get : string -> option string;
  ax_parameter_register_callback : string -> bool;
  system : string -> Z;
  stat_dev : string -> option Z;
  proc_mounts : option (list mntent);
  access_F_OK : string -> bool;
  access_W_OK : string -> bool;
  g_spawn_async : list string -> option Z;
  waitpid_WNOHANG : Z -> Z;
  kill : Z -> Z -> bool;
  sleep_interrupt : option Z
}.


(** ** String helpers standing for the GLib calls on fixed buffers *)

(** [g_strlcpy(dst, src, size)] and [g_strlcat(dst, src, size)]: the result
    holds at most [size - 1] characters. *)
Definition g_strlcpy (src : string) (size : Z) : string :=
  substring 0 (Z.to_nat (size - 1)) src.

Definition g_strlcat (dst src : string) (size : Z) : string :=
  substring 0 (Z.to_nat (size - 1)) (dst ++ src).

Definition args_len : Z := 1024.
Definition msg_len : Z := 128.

(** [args_offset += g_snprintf(args + args_offset, args_len - args_offset, ...)]
    with [formatted] the expanded format.  [args_offset] is a 32-bit unsigned
    and the size a 64-bit unsigned; at most [size - 1] characters are stored
    and the return value is the length of the whole expansion; with size 0
    nothing is stored.  Once the offset has passed the end of the buffer the
    destination lies outside it and the size wraps round to nearly 2^64: C
    gives that store no meaning, and the result is [None]. *)
Definition g_snprintf_at (args : string) (args_offset : Z) (formatted : string)
  : option (string * Z) :=
  if args_offset <=? args_len then
    let size := (args_len - args_offset) mod 2 ^ 64 in
    let args' :=
      if size =? 0 then args
      else substring 0 (Z.to_nat args_offset) args
           ++ substring 0 (Z.to_nat (size - 1)) formatted in
    Some (args', (args_offset + Z.of_nat (String.length formatted)) mod 2 ^ 32)
  else None.

(** [g_strsplit(string, delimiter, 0)]: every occurrence of the delimiter ends
    a token, the remainder is the last token, and the empty string has no
    token at all.  [skip] counts the characters of a delimiter still to be
    passed over. *)
Fixpoint split_from (delimiter : string) (skip : nat) (cur : string) (s : string)
  : list string :=
  match s with
  | EmptyString => [cur]
  | String c s' =>
      match skip with
      | S k => split_from delimiter k cur s'
      | O =>
          if prefix delimiter s
          then cur :: split_from delimiter (String.length delimiter - 1) EmptyString s'
          else split_from delimiter 0 (cur ++ String c EmptyString) s'
      end
  end.

Definition g_strsplit (s delimiter : string) : list string :=
  match s with
  | EmptyString => []
  | _ => split_from delimiter 0 EmptyString s
  end.

(** [g_spawn_check_exit_status]: true exactly for a normal exit with code 0
    ([WIFEXITED(status) && WEXITSTATUS(status) == 0]). *)
Definition WIFEXITED (status : Z) : bool := Z.land status 127 =? 0.
Definition WEXITSTATUS (status : Z) : Z := Z.shiftr (Z.land status 65280) 8.
Definition g_spawn_check_exit_status (status : Z) : bool :=
  WIFEXITED status && (WEXITSTATUS status =? 0).

(** The argument string [start_dockerd] builds in [args], with the final
    offset; [None] when one of the stores lies outside the buffer. *)
Definition dockerd_args (st : settings) : option (string * Z) :=
  match g_snprintf_at EmptyString 0
          ("dockerd" ++ " " ++
           "--config-file /usr/local/packages/dockerdwrapperwithcompose/localdata/daemon.json")
  with
  | None => None
  | Some a0 =>
      match
        (if use_tls st then
           let ca_path := "/usr/local/packages/dockerdwrapperwithcompose/ca.pem" in
           let cert_path :=
             "/usr/local/packages/dockerdwrapperwithcompose/server-cert.pem" in
           let key_path :=
             "/usr/local/packages/dockerdwrapperwithcompose/server-key.pem" in
           g_snprintf_at (fst a0) (snd a0)
             (" " ++ "-H tcp://0.0.0.0:2376" ++ " " ++ "--tlsverify" ++ " " ++
              "--tlscacert" ++ " " ++ ca_path ++ " " ++ "--tlscert" ++ " "
              ++ cert_path ++ " " ++ "--tlskey" ++ " " ++ key_path)
         else
           g_snprintf_at (fst a0) (snd a0)
             (" " ++ "-H tcp://0.0.0.0:2375" ++ " " ++ "--tls=false"))
      with
      | None => None
      | Some a1 =>
          match
            match data_root st with
            | Some d => g_snprintf_at (fst a1) (snd a1) (" --data-root " ++ d)
            | None => Some a1
            end
          with
          | None => None
          | Some a2 =>
              if use_ipc_socket st
              then g_snprintf_at (fst a2) (snd a2) " -H unix:///var/run/docker.sock"
              else Some a2
          end
      end
  end.

(** The start-up line [start_dockerd] builds in [msg]. *)
Definition dockerd_msg (st : settings) : string :=
  let m0 := g_strlcpy "Starting dockerd" msg_len in
  let m1 := if use_tls st then g_strlcat m0 " in TLS mode" msg_len
            else g_strlcat m0 " in unsecured mode" msg_len in
  let data_root_msg :=
    " using " ++ match data_root st with Some d => d | None => "/var/lib/docker" end
    ++ " as storage" in
  let m2 := g_strlcat m1 data_root_msg msg_len in
  if use_ipc_socket st then g_strlcat m2 " with IPC socket." msg_len
  else g_strlcat m2 " without IPC socket." msg_len.

(** The vector handed to [g_spawn_async], when [args] could be built. *)
Definition dockerd_argv (st : settings) : option (list string) :=
  match dockerd_args st with
  | Some a => Some (g_strsplit (fst a) " ")
  | None => None
  end.

(** ** The state-and-trace monad *)

Definition M (A : Type) : Type := State -> A * State * list Event.

Definition ret {A : Type} (a : A) : M A := fun s => (a, s, []).

Definition bind {A B : Type} (m : M A) (f : A -> M B) : M B :=
  fun s =>
    let '(a, s1, t1) := m s in
    let '(b, s2, t2) := f a s1 in
    (b, s2, (t1 ++ t2)%list).

Definition get : M State := fun s => (s, s, []).
Definition modify (f : State -> State) : M unit := fun s => (tt, f s, []).
Definition emit (e : Event) : M unit := fun s => (tt, s, [e]).

Declare Scope m_scope.
Delimit Scope m_scope with M.
Notation "x <- c1 ;; c2" := (bind c1 (fun x => c2))
  (at level 61, c1 at next level, right associativity) : m_scope.
Notation "c1 ;; c2" := (bind c1 (fun _ => c2))
  (at level 61, right associativity) : m_scope.
Local Open Scope m_scope.

Definition result {A : Type} (r : A * State * list Event) : A := fst (fst r).
Definition final {A : Type} (r : A * State * list Event) : State := snd (fst r).
Definition trace {A : Type} (r : A * State * list Event) : list Event := snd r.

Definition when (b : bool) (m : M unit) : M unit := if b then m else ret tt.

Definition syslog (prio : Priority) (format : string) (args : list LogArg) : M unit :=
  emit (EvSyslog prio format args).

(** [exit_code = v;] *)
Definition assign_exit_code (v : Z) : M unit :=
  emit (EvExitCode v) ;; modify (set_exit_code v).

(** [g_main_loop_quit(loop);] *)
Definition g_main_loop_quit : M unit :=
  emit EvMainLoopQuit ;; modify (set_loop_quit true).

(** [handle_signals] *)
Definition handle_signals (signal_num : Z) : M unit :=
  if (signal_num =? SIGINT) || (signal_num =? SIGTERM) || (signal_num =? SIGQUIT)
  then g_main_loop_quit
  else ret tt.

Section Platform.

Variable w : World.

(** [kill(pid, sig) == 0] *)
Definition kill_ok (pid sig : Z) : M bool :=
  emit (EvKill pid sig) ;; ret (kill w pid sig).

(** [sleep(seconds)]: runs to the end unless a signal arrives earlier.  It
    writes no global. *)
Definition sleep (seconds : Z) : M unit :=
  match sleep_interrupt w with
  | Some t =>
      if (0 <=? t) && (t <? seconds) then emit (EvSleep seconds t)
      else emit (EvSleep seconds seconds)
  | None => emit (EvSleep seconds seconds)
  end.

(** [is_process_alive] *)
Definition is_process_alive (pid : Z) : M bool :=
  s <- get ;;
  let return_pid := waitpid_WNOHANG w pid in
  if return_pid =? -1 then ret false
  else if return_pid =? dockerd_process_pid s then ret false
  else ret true.

(** [get_parameter_value] *)
Definition get_parameter_value (parameter_name : string) : M (option string) :=
  if ax_parameter_new_ok w then
    match ax_parameter_get w parameter_name with
    | Some v => ret (Some v)
    | None =>
        syslog LOG_ERR "Failed to fetch parameter value of %s. Error: %s"
          [LStr parameter_name; LPlatformError] ;;
        ret None
    end
  else
    syslog LOG_ERR "Error when creating axparameter: %s" [LPlatformError] ;;
    ret None.

(** [is_parameter_yes] *)
Definition is_parameter_yes (name : string) : M bool :=
  value <- get_parameter_value name ;;
  ret match value with
      | Some v => (v =? "yes")%string
      | None => false
      end.

(** The [getmntent_r] loop of [get_filesystem_of_path]: the first mount whose
    directory can be stat'ed and lies on device [dev]. *)
Fixpoint find_mount (dev : Z) (mounts : list mntent) : option string :=
  match mounts with
  | [] => None
  | mnt :: rest =>
      match stat_dev w (mnt_dir mnt) with
      | None => find_mount dev rest
      | Some d => if d =? dev then Some (mnt_type mnt) else find_mount dev rest
      end
  end.

(** [get_filesystem_of_path] *)
Definition get_filesystem_of_path (path : string) : M (option string) :=
  match stat_dev w path with
  | None =>
      syslog LOG_ERR "Cannot store data on the SD card, no storage exists at %s"
        [LStr path] ;;
      ret None
  | Some dev =>
      match proc_mounts w with
      | None => ret None
      | Some mounts => ret (find_mount dev mounts)
      end
  end.

(** [setup_sdcard] *)
Definition setup_sdcard (data_root : string) : M bool :=
  let create_droot_command := "mkdir -p " ++ data_root in
  emit (EvSystem create_droot_command) ;;
  let res := system w create_droot_command in
  if negb (res =? 0) then
    syslog LOG_ERR "Failed to create data_root folder at: %s. Error code: %d"
      [LStr data_root; LInt res] ;;
    ret false
  else
    sd_file_system <- get_filesystem_of_path data_root ;;
    match sd_file_system with
    | None =>
        syslog LOG_ERR "Couldn't identify the file system of the SD card at %s"
          [LStr data_root] ;;
        ret false
    | Some fs =>
        if (fs =? "vfat")%string || (fs =? "exfat")%string then
          syslog LOG_ERR
            "The SD card at %s uses file system %s which does not support Unix file permissions. Please reformat to a file system that support Unix file permissions, such as ext4 or xfs."
            [LStr data_root; LStr fs] ;;
          ret false
        else if access_F_OK w data_root && negb (access_W_OK w data_root) then
          syslog LOG_ERR
            "The application user does not have write permissions to the SD card directory at %s. Please change the directory permissions or remove the directory."
            [LStr data_root] ;;
          ret false
        else ret true
    end.

(** [get_and_verify_sd_card_selection]: the result and the value left in
    [*data_root]. *)
Definition get_and_verify_sd_card_selection : M (bool * option string) :=
  yes <- is_parameter_yes "SDCardSupport" ;;
  if yes then
    let data_root := dockerd_path_on_sd_card ++ "/data" in
    ok <- setup_sdcard data_root ;;
    if negb ok then
      syslog LOG_ERR "Failed to setup SD card." [] ;;
      ret (false, Some data_root)
    else ret (true, Some data_root)
  else ret (true, None).

(** [get_and_verify_tls_selection]: the result and the value left in
    [*use_tls_ret], which is written on success only. *)
Definition get_and_verify_tls_selection (use_tls_ret : bool) : M (bool * bool) :=
  use_tls <- is_parameter_yes "UseTLS" ;;
  if use_tls then
    let ca_path := tls_cert_path ++ nth 0 tls_certs EmptyString in
    let cert_path := tls_cert_path ++ nth 1 tls_certs EmptyString in
    let key_path := tls_cert_path ++ nth 2 tls_certs EmptyString in
    let ca_exists := access_F_OK w ca_path in
    let cert_exists := access_F_OK w cert_path in
    let key_exists := access_F_OK w key_path in
    when (negb ca_exists || negb cert_exists || negb key_exists)
      (syslog LOG_ERR "One or more TLS certificates missing." []) ;;
    when (negb ca_exists)
      (syslog LOG_ERR "Cannot start using TLS, no CA certificate found at %s"
         [LStr ca_path]) ;;
    when (negb cert_exists)
      (syslog LOG_ERR "Cannot start using TLS, no server certificate found at %s"
         [LStr cert_path]) ;;
    when (negb key_exists)
      (syslog LOG_ERR "Cannot start using TLS, no server key found at %s"
         [LStr key_path]) ;;
    if negb ca_exists || negb cert_exists || negb key_exists
    then ret (false, use_tls_ret)
    else ret (true, use_tls)
  else ret (true, use_tls).

(** [get_ipc_socket_selection] *)
Definition get_ipc_socket_selection : M (bool * bool) :=
  yes <- is_parameter_yes "IPCSocket" ;;
  ret (true, yes).

(** [read_settings]: the result and the struct as it is left behind. *)
Definition read_settings (st : settings) : M (bool * settings) :=
  sd <- get_and_verify_sd_card_selection ;;
  let st1 := mkSettings (snd sd) (use_tls st) (use_ipc_socket st) in
  if negb (fst sd) then
    syslog LOG_ERR "Failed to setup sd_card" [] ;;
    ret (false, st1)
  else
    tls <- get_and_verify_tls_selection (use_tls st1) ;;
    let st2 := mkSettings (data_root st1) (snd tls) (use_ipc_socket st1) in
    if negb (fst tls) then
      syslog LOG_ERR "Failed to verify tls selection" [] ;;
      ret (false, st2)
    else
      ipc <- get_ipc_socket_selection ;;
      let st3 := mkSettings (data_root st2) (use_tls st2) (snd ipc) in
      if negb (fst ipc) then
        syslog LOG_ERR "Failed to get ipc socket selection" [] ;;
        ret (false, st3)
      else ret (true, st3).

(** [start_dockerd].  A failed [g_spawn_async] leaves [dockerd_process_pid]
    untouched.  Settings for which a store into [args] lies outside the
    buffer have no defined run; the model marks that and stops. *)
Definition start_dockerd (st : settings) : M bool :=
  match dockerd_argv st with
  | None => emit EvUndefined ;; ret false
  | Some args_split =>
      syslog LOG_INFO "%s" [LStr (dockerd_msg st)] ;;
      emit (EvSpawn args_split) ;;
      match g_spawn_async w args_split with
      | None =>
          syslog LOG_ERR "Starting dockerd failed: execv returned: %d, error: %s"
            [LInt 0; LPlatformError] ;;
          ret false
      | Some pid =>
          modify (set_pid pid) ;;
          emit (EvChildWatchAdd pid) ;;
          alive <- is_process_alive pid ;;
          if negb alive then
            syslog LOG_ERR
              "Starting dockerd failed: Process died unexpectedly during startup" [] ;;
            assign_exit_code (-1) ;;
            g_main_loop_quit ;;
            ret false
          else ret true
      end
  end.

(** [read_settings_and_start_dockerd] *)
Definition read_settings_and_start_dockerd : M bool :=
  r <- read_settings (mkSettings None false false) ;;
  if fst r then start_dockerd (snd r) else ret false.

(** [stop_dockerd] *)
Definition stop_dockerd : M bool :=
  s <- get ;;
  if dockerd_process_pid s =? -1 then ret true
  else
    sigterm_successfully_sent <- kill_ok (dockerd_process_pid s) SIGTERM ;;
    when (negb sigterm_successfully_sent)
      (syslog LOG_ERR "Failed to send SIGTERM to child. Error: %s" [LPlatformError]) ;;
    sleep 10 ;;
    s' <- get ;;
    if dockerd_process_pid s' =? -1 then ret true
    else
      killed <- kill_ok (dockerd_process_pid s') SIGKILL ;;
      when (negb killed)
        (syslog LOG_ERR "Failed to send SIGKILL to child. Error: %s" [LPlatformError]) ;;
      ret killed.

(** [dockerd_process_exited_callback] *)
Definition dockerd_process_exited_callback (pid status : Z) : M unit :=
  when (negb (g_spawn_check_exit_status status))
    (syslog LOG_ERR "Dockerd process exited with error: %d" [LInt status] ;;
     assign_exit_code (-1)) ;;
  modify (set_pid (-1)) ;;
  emit (EvSpawnClosePid pid) ;;
  emit (EvRemove "/var/run/docker.pid") ;;
  s <- get ;;
  if restart_dockerd s then
    modify (set_restart false) ;;
    ok <- read_settings_and_start_dockerd ;;
    when (negb ok) (assign_exit_code (-1) ;; g_main_loop_quit)
  else g_main_loop_quit.

(** [name += strlen("root.dockerdwrapperwithcompose.")]: the name without its
    first 31 characters.  C gives this a meaning only for names at least as
    long as the prefix. *)
Definition parameter_prefix : string := "root.dockerdwrapperwithcompose.".

Definition strip_prefix (name : string) : string :=
  substring (String.length parameter_prefix)
            (String.length name - String.length parameter_prefix) name.

(** The [for] loop of [parameter_changed_callback]. *)
Fixpoint mark_restart (parname value : string) (keys : list string) : M unit :=
  match keys with
  | [] => ret tt
  | k :: rest =>
      when (parname =? k)%string
        (syslog LOG_INFO "%s changed to: %s" [LStr k; LStr value] ;;
         modify (set_restart true)) ;;
      mark_restart parname value rest
  end.

(** [parameter_changed_callback] *)
Definition parameter_changed_callback (name value : string) : M unit :=
  let parname := strip_prefix name in
  mark_restart parname value ax_parameters ;;
  stopped <- stop_dockerd ;;
  when (negb stopped)
    (syslog LOG_ERR
       "Failed to stop dockerd process. Please restart the acap manually." [] ;;
     assign_exit_code (-1)).

(** The registration loop of [setup_axparameter]. *)
Fixpoint register_callbacks (keys : list string) : M bool :=
  match keys with
  | [] => ret true
  | k :: rest =>
      let parameter_path := "root.dockerdwrapperwithcompose" ++ "." ++ k in
      emit (EvRegisterCallback parameter_path) ;;
      if ax_parameter_register_callback w parameter_path
      then register_callbacks rest
      else
        syslog LOG_ERR "Could not register %s callback. Error: %s"
          [LStr k; LPlatformError] ;;
        ret false
  end.

(** [setup_axparameter]: true when a handle is returned. *)
Definition setup_axparameter : M bool :=
  if ax_parameter_new_ok w then register_callbacks ax_parameters
  else
    syslog LOG_ERR "Error when creating AXParameter: %s" [LPlatformError] ;;
    ret false.

(** The loop that unregisters the callbacks at the end of [main]. *)
Fixpoint unregister_callbacks (keys : list string) : M unit :=
  match keys with
  | [] => ret tt
  | k :: rest =>
      emit (EvUnregisterCallback ("root.dockerdwrapperwithcompose" ++ "." ++ k)) ;;
      unregister_callbacks rest
  end.

End Platform.

(** ** The main loop and [main] *)

(** The signals [init_signals] installs [handle_signals] for, with
    [sigaction]: SIGINT, SIGTERM and SIGQUIT, and no other. *)
Inductive HandledSignal : Type := OnSIGINT | OnSIGTERM | OnSIGQUIT.

Definition signal_number (h : HandledSignal) : Z :=
  match h with
  | OnSIGINT => SIGINT
  | OnSIGTERM => SIGTERM
  | OnSIGQUIT => SIGQUIT
  end.

(** What the main loop can be woken by, each with the platform's answers
    while the handler runs.  A signal here is one of the three that have a
    handler, arriving while the loop waits; any other signal takes its
    default action and is no event of this program. *)
Inductive LoopEvent : Type :=
| Signal (h : HandledSignal)
| ChildExited (w : World) (pid status : Z)
| ParameterChanged (w : World) (name value : string).

Definition dispatch (e : LoopEvent) : M unit :=
  match e with
  | Signal h => handle_signals (signal_number h)
  | ChildExited w pid status => dockerd_process_exited_callback w pid status
  | ParameterChanged w name value => parameter_changed_callback w name value
  end.

(** The dispatching of [g_main_loop_run] once it is running: events are served
    in order until a quit was requested.  [false] says the events ran out
    with the loop still waiting. *)
Fixpoint serve (events : list LoopEvent) : M bool :=
  s <- get ;;
  if loop_quit s then ret true
  else
    match events with
    | [] => ret false
    | e :: rest => dispatch e ;; serve rest
    end.

Definition g_main_loop_run (events : list LoopEvent) : M bool :=
  modify (set_loop_quit false) ;; serve events.

(** The part of [main] after the label [end]. *)
Definition main_end (w : World) (have_ax_parameter : bool) : M Z :=
  stopped <- stop_dockerd w ;;
  (if stopped
   then syslog LOG_INFO "Shutting down. dockerd shut down successfully." []
   else syslog LOG_WARNING "Shutting down. Failed to shut down dockerd." []) ;;
  when have_ax_parameter (unregister_callbacks ax_parameters) ;;
  s <- get ;;
  ret (exit_code s).

(** [main] from [openlog] on: [w0] answers during start-up, [wend] during
    shut-down.  [None] says [main] has not returned on these events. *)
Definition main_body (w0 : World) (events : list LoopEvent) (wend : World)
  : M (option Z) :=
  syslog LOG_INFO "Started logging." [] ;;
  have_ax_parameter <- setup_axparameter w0 ;;
  if negb have_ax_parameter then
    syslog LOG_ERR "Error in setup_axparameter" [] ;;
    assign_exit_code (-1) ;;
    code <- main_end wend false ;;
    ret (Some code)
  else
    started <- read_settings_and_start_dockerd w0 ;;
    if negb started then
      assign_exit_code (-1) ;;
      code <- main_end wend true ;;
      ret (Some code)
    else
      returned <- g_main_loop_run events ;;
      if returned then
        code <- main_end wend true ;;
        ret (Some code)
      else ret None.

(** [main]: [exit_code = 0;] and then the rest. *)
Definition main (w0 : World) (events : list LoopEvent) (wend : World)
  : M (option Z) :=
  assign_exit_code 0 ;; main_body w0 events wend.

(** The globals as the C file initialises them. *)
Definition initial_state : State := mkState 0 (-1) false false.

(** ** Reading runs *)

(** How long the [sleep] of [stop_dockerd] lasts in world [w]. *)
Definition wait_length (w : World) (seconds : Z) : Z :=
  match sleep_interrupt w with
  | Some t => if (0 <=? t) && (t <? seconds) then t else seconds
  | None => seconds
  end.

(** The log lines of [stop_dockerd], present when the send failed. *)
Definition sigterm_log (w : World) (pid : Z) : list Event :=
  if kill w pid SIGTERM then []
  else [EvSyslog LOG_ERR "Failed to send SIGTERM to child. Error: %s" [LPlatformError]].

Definition sigkill_log (w : World) (pid : Z) : list Event :=
  if kill w pid SIGKILL then []
  else [EvSyslog LOG_ERR "Failed to send SIGKILL to child. Error: %s" [LPlatformError]].

(** Kinds of events. *)
Definition is_spawn (e : Event) : bool :=
  match e with EvSpawn _ => true | _ => false end.

Definition is_exit_code (e : Event) : bool :=
  match e with EvExitCode _ => true | _ => false end.

Definition is_quit (e : Event) : bool :=
  match e with EvMainLoopQuit => true | _ => false end.

(** A relation between the state before, the events emitted and the state
    after that holds of the empty run and of two runs in a row holds of a
    whole computation once it holds of its primitive steps. *)
Class Closed (R : State -> list Event -> State -> Prop) : Prop := {
  closed_nil : forall s, R s [] s;
  closed_app : forall s t1 s1 t2 s2,
      R s t1 s1 -> R s1 t2 s2 -> R s (t1 ++ t2)%list s2
}.

(** [m] keeps [R] from every state. *)
Definition respects (R : State -> list Event -> State -> Prop) {A : Type}
  (m : M A) : Prop :=
  forall s, R s (trace (m s)) (final (m s)).

(** The resolver changes no global and only logs and runs [mkdir]. *)
Definition is_resolver_event (e : Event) : bool :=
  match e with
  | EvSyslog _ _ _ | EvSystem _ => true
  | _ => false
  end.

(** The state is as before and every event is a resolver event. *)
Definition resolver_rule (s : State) (t : list Event) (s' : State) : Prop :=
  s' = s /\ forallb is_resolver_event t = true.

(** Names for the log lines the statements below mention. *)
Definition spawn_failed_log : Event :=
  EvSyslog LOG_ERR "Starting dockerd failed: execv returned: %d, error: %s"
    [LInt 0; LPlatformError].

Definition died_log : Event :=
  EvSyslog LOG_ERR
    "Starting dockerd failed: Process died unexpectedly during startup" [].

(** What [start_dockerd] does from its log line on, once [args] is split
    into [argv]: by cases on the spawn and on the liveness probe. *)
Definition spawn_outcome (w : World) (msg : string) (argv : list string) (s : State)
  : bool * State * list Event :=
  let head := [EvSyslog LOG_INFO "%s" [LStr msg]; EvSpawn argv] in
  match g_spawn_async w argv with
  | None => (false, s, head ++ [spawn_failed_log])%list
  | Some pid =>
      let return_pid := waitpid_WNOHANG w pid in
      if (return_pid =? -1) || (return_pid =? pid)
      then (false, set_loop_quit true (set_exit_code (-1) (set_pid pid s)),
            head ++ [EvChildWatchAdd pid; died_log; EvExitCode (-1); EvMainLoopQuit])%list
      else (true, set_pid pid s, head ++ [EvChildWatchAdd pid])%list
  end.

Definition changed_log (value k : string) : Event :=
  EvSyslog LOG_INFO "%s changed to: %s" [LStr k; LStr value].

Definition stop_failed_log : Event :=
  EvSyslog LOG_ERR
    "Failed to stop dockerd process. Please restart the acap manually." [].

Definition exited_log (status : Z) : Event :=
  EvSyslog LOG_ERR "Dockerd process exited with error: %d" [LInt status].

(** The paths the resolver derives. *)
Definition sd_data_root : string := dockerd_path_on_sd_card ++ "/data".

Definition ca_path : string := tls_cert_path ++ nth 0 tls_certs EmptyString.
Definition cert_path : string := tls_cert_path ++ nth 1 tls_certs EmptyString.
Definition key_path : string := tls_cert_path ++ nth 2 tls_certs EmptyString.

Definition tls_missing_log : Event :=
  EvSyslog LOG_ERR "One or more TLS certificates missing." [].

Definition sd_failed_log : Event := EvSyslog LOG_ERR "Failed to setup sd_card" [].

Definition tls_failed_log : Event :=
  EvSyslog LOG_ERR "Failed to verify tls selection" [].

Definition unix_permissions_log (d fs : string) : Event :=
  EvSyslog LOG_ERR
    "The SD card at %s uses file system %s which does not support Unix file permissions. Please reformat to a file system that support Unix file permissions, such as ext4 or xfs."
    [LStr d; LStr fs].

(** Every exit code written during a run is -1, and the run ends with -1 when
    it wrote one and with the exit code it started from when it wrote none. *)
Definition exit_code_rule (s : State) (t : list Event) (s' : State) : Prop :=
  (forall v, In (EvExitCode v) t -> v = -1) /\
  exit_code s' = if existsb is_exit_code t then -1 else exit_code s.

(** ** Example worlds and states *)

(** A world in which nothing is configured, no file exists and every call
    fails; the examples below override single answers. *)
Definition barren : World :=
  mkWorld true (fun _ => None) (fun _ => true) (fun _ => 1) (fun _ => None) None
          (fun _ => false) (fun _ => false) (fun _ => None) (fun _ => -1)
          (fun _ _ => false) None.

(** [w] with another answer for the [sleep]. *)
Definition with_sleep (i : option Z) (w : World) : World :=
  mkWorld (ax_parameter_new_ok w) (ax_parameter_get w)
          (ax_parameter_register_callback w) (system w) (stat_dev w)
          (proc_mounts w) (access_F_OK w) (access_W_OK w) (g_spawn_async w)
          (waitpid_WNOHANG w) (kill w) i.

(** A supervisor with dockerd running as process 4711. *)
Definition running : State := mkState 0 4711 false false.

(** The name a change of UseTLS is notified under. *)
Definition use_tls_changed : string := "root.dockerdwrapperwithcompose.UseTLS".

(** TLS selected, CA and server certificate in place, server key missing. *)
Definition tls_without_key : World :=
  mkWorld true
    (fun k => if (k =? "UseTLS")%string then Some "yes" else Some "no")
    (fun _ => true) (fun _ => 0) (fun _ => None) None
    (fun p => negb (p =? "/usr/local/packages/dockerdwrapperwithcompose/server-key.pem")%string)
    (fun _ => true) (fun _ => Some 4712) (fun _ => 0) (fun _ _ => true) None.

(** SD card selected; the card is mounted at /var/spool/storage/SD_DISK as
    vfat, on device 179. *)
Definition vfat_card : World :=
  mkWorld true
    (fun k => if (k =? "SDCardSupport")%string then Some "yes" else Some "no")
    (fun _ => true) (fun _ => 0)
    (fun p => if (p =? "/")%string then Some 1 else Some 179)
    (Some [mkMntent "/" "ext4"; mkMntent "/var/spool/storage/SD_DISK" "vfat"])
    (fun _ => true) (fun _ => true) (fun _ => Some 4712) (fun _ => 0)
    (fun _ _ => true) None.

(** Everything selected and in place: SD card on ext4, all three
    certificates, IPC socket. *)
Definition all_selected : World :=
  mkWorld true (fun _ => Some "yes") (fun _ => true) (fun _ => 0)
    (fun p => if (p =? "/")%string then Some 1 else Some 179)
    (Some [mkMntent "/" "ext4"; mkMntent "/var/spool/storage/SD_DISK" "ext4"])
    (fun _ => true) (fun _ => true) (fun _ => Some 4712) (fun _ => 0)
    (fun _ _ => true) None.

(** Nothing selected; dockerd starts as process 4712, takes every signal and
    its exit ends the wait of a stop after two seconds. *)
Definition unsecured : World :=
  mkWorld true (fun _ => Some "no") (fun _ => true) (fun _ => 0) (fun _ => None)
    None (fun _ => true) (fun _ => true) (fun _ => Some 4712) (fun _ => 0)
    (fun _ _ => true) (Some 2).

(** The settings [read_settings] produces in [all_selected]. *)
Definition all_settings : settings :=
  mkSettings (Some "/var/spool/storage/SD_DISK/dockerd/data") true true.

(** ** Further vocabulary *)

(** No character of [s] is a space. *)
Fixpoint space_free (s : string) : bool :=
  match s with
  | EmptyString => true
  | String c s' => negb (Ascii.eqb c " ") && space_free s'
  end.

(** The vector [start_dockerd] is meant to hand over, part by part. *)
Definition argv_by_parts (st : settings) : list string :=
  (["dockerd"; "--config-file";
    "/usr/local/packages/dockerdwrapperwithcompose/localdata/daemon.json"]
   ++ (if use_tls st
       then ["-H"; "tcp://0.0.0.0:2376"; "--tlsverify";
             "--tlscacert"; "/usr/local/packages/dockerdwrapperwithcompose/ca.pem";
             "--tlscert";
             "/usr/local/packages/dockerdwrapperwithcompose/server-cert.pem";
             "--tlskey";
             "/usr/local/packages/dockerdwrapperwithcompose/server-key.pem"]
       else ["-H"; "tcp://0.0.0.0:2375"; "--tls=false"])
   ++ match data_root st with
      | Some d => ["--data-root"; d]
      | None => []
      end
   ++ (if use_ipc_socket st then ["-H"; "unix:///var/run/docker.sock"] else []))%list.

(** The stores of [start_dockerd] that come before the one for the IPC
    socket. *)
Definition args_before_ipc (st : settings) : option (string * Z) :=
  dockerd_args (mkSettings (data_root st) (use_tls st) false).

(** The length of the arguments joined by single spaces. *)
Definition joined_length (st : settings) : Z :=
  Z.of_nat (String.length (concat " " (argv_by_parts st))).

(** How many processes a run spawned. *)
Definition count_spawns (t : list Event) : nat := List.length (filter is_spawn t).

(** A notification whose name, without the prefix, is one of the watched
    keys. *)
Definition is_watched_change (e : LoopEvent) : bool :=
  match e with
  | ParameterChanged _ name _ =>
      existsb (String.eqb (strip_prefix name)) ax_parameters
  | _ => false
  end.

(** The path a key is registered under in [setup_axparameter]. *)
Definition parameter_path (k : string) : string :=
  "root.dockerdwrapperwithcompose" ++ "." ++ k.

(** The paths [ax_parameter_register_callback] and
    [ax_parameter_unregister_callback] were called with, in order. *)
Definition registered (t : list Event) : list string :=
  flat_map (fun e => match e with EvRegisterCallback p => [p] | _ => [] end) t.

Definition unregistered (t : list Event) : list string :=
  flat_map (fun e => match e with EvUnregisterCallback p => [p] | _ => [] end) t.

(** A run that registers and unregisters nothing. *)
Definition registration_rule (s : State) (t : list Event) (s' : State) : Prop :=
  registered t = [] /\ unregistered t = [].

(** A run that spawns nothing and leaves the restart flag alone. *)
Definition no_spawn_rule (s : State) (t : list Event) (s' : State) : Prop :=
  count_spawns t = 0%nat /\ restart_dockerd s' = restart_dockerd s.

(** The log lines of [main]. *)
Definition started_log : Event := EvSyslog LOG_INFO "Started logging." [].

Definition setup_failed_log : Event :=
  EvSyslog LOG_ERR "Error in setup_axparameter" [].

Definition shutdown_log (stopped : bool) : Event :=
  if stopped
  then EvSyslog LOG_INFO "Shutting down. dockerd shut down successfully." []
  else EvSyslog LOG_WARNING "Shutting down. Failed to shut down dockerd." [].

(** [setup_axparameter] changes no global and only logs and registers. *)
Definition is_setup_event (e : Event) : bool :=
  match e with
  | EvSyslog _ _ _ | EvRegisterCallback _ => true
  | _ => false
  end.

Definition setup_rule (s : State) (t : list Event) (s' : State) : Prop :=
  s' = s /\ forallb is_setup_event t = true.

(** One for a set restart flag, nothing otherwise. *)
Definition pending (s : State) : nat := if restart_dockerd s then 1%nat else 0%nat.

(** How many notifications for a watched key a list of events holds. *)
Definition watched_changes (events : list LoopEvent) : nat :=
  List.length (filter is_watched_change events).

(** A computation that neither reads nor writes the globals. *)
Definition state_blind {A : Type} (m : M A) : Prop :=
  forall s, m s = (result (m initial_state), s, trace (m initial_state)).

Definition is_kill (e : Event) : bool :=
  match e with EvKill _ _ => true | _ => false end.

Definition is_registration (e : Event) : bool :=
  match e with
  | EvRegisterCallback _ | EvUnregisterCallback _ => true
  | _ => false
  end.

(** The vectors a run handed to [g_spawn_async], in order. *)
Definition spawned (t : list Event) : list (list string) :=
  flat_map (fun e => match e with EvSpawn argv => [argv] | _ => [] end) t.

(** The three log lines that name a missing certificate. *)
Definition ca_missing_log : Event :=
  EvSyslog LOG_ERR "Cannot start using TLS, no CA certificate found at %s"
    [LStr "/usr/local/packages/dockerdwrapperwithcompose/ca.pem"].

Definition cert_missing_log : Event :=
  EvSyslog LOG_ERR "Cannot start using TLS, no server certificate found at %s"
    [LStr "/usr/local/packages/dockerdwrapperwithcompose/server-cert.pem"].

Definition key_missing_log : Event :=
  EvSyslog LOG_ERR "Cannot start using TLS, no server key found at %s"
    [LStr "/usr/local/packages/dockerdwrapperwithcompose/server-key.pem"].

(** Closing the notified pid and removing the lock file. *)
Definition is_cleanup (e : Event) : bool :=
  match e with
  | EvSpawnClosePid _ | EvRemove _ => true
  | _ => false
  end.

(** A run without any cleanup event. *)
Definition cleanup_rule (s : State) (t : list Event) (s' : State) : Prop :=
  existsb is_cleanup t = false.

(** A vector built, inside the buffer, from three yes-or-no selections. *)
Definition selected_settings (sd tls ipc : bool) : settings :=
  mkSettings (if sd then Some sd_data_root else None) tls ipc.

Definition known_vector (argv : list string) : Prop :=
  exists sd tls ipc,
    argv = argv_by_parts (selected_settings sd tls ipc) /\
    dockerd_argv (selected_settings sd tls ipc) = Some argv.

(** An event that is no store outside a buffer and, when a spawn, has a known
    vector. *)
Definition sound_event (e : Event) : Prop :=
  match e with
  | EvUndefined => False
  | EvSpawn argv => known_vector argv
  | _ => True
  end.

Definition sound_rule (s : State) (t : list Event) (s' : State) : Prop :=
  Forall sound_event t.

(** ** The monad's equations *)

Lemma result_bind {A B : Type} (m : M A) (f : A -> M B) (s : State) :
  result (bind m f s) = result (f (result (m s)) (final (m s))).
Proof.
  unfold bind. destruct (m s) as [[a s1] t1]. cbn [result final fst snd].
  destruct (f a s1) as [[b s2] t2]. reflexivity.
Qed.

Lemma final_bind {A B : Type} (m : M A) (f : A -> M B) (s : State) :
  final (bind m f s) = final (f (result (m s)) (final (m s))).
Proof.
  unfold bind. destruct (m s) as [[a s1] t1]. cbn [result final fst snd].
  destruct (f a s1) as [[b s2] t2]. reflexivity.
Qed.

Lemma trace_bind {A B : Type} (m : M A) (f : A -> M B) (s : State) :
  trace (bind m f s) = (trace (m s) ++ trace (f (result (m s)) (final (m s))))%list.
Proof.
  unfold bind. destruct (m s) as [[a s1] t1]. cbn [result final trace fst snd].
  destruct (f a s1) as [[b s2] t2]. reflexivity.
Qed.

Lemma run_eta {A : Type} (r : A * State * list Event) :
  r = (result r, final r, trace r).
Proof. destruct r as [[a s] t]; reflexivity. Qed.

Lemma existsb_false_not_In {A : Type} (p : A -> bool) (l : list A) :
  existsb p l = false -> forall x, In x l -> p x = false.
Proof.
  induction l as [|y l IH]; simpl; intros H x Hin; [contradiction|].
  apply orb_false_iff in H. destruct H as [Hy Hl].
  destruct Hin as [->|Hin]; auto.
Qed.

(** ** [stop_dockerd] *)

(** The whole behaviour of [stop_dockerd], by cases on the tracked pid.  The
    test after the [sleep] finds the pid it found before, so with a pid
    tracked the SIGKILL is always sent. *)
Lemma stop_dockerd_run (w : World) (s : State) :
  stop_dockerd w s =
  let pid := dockerd_process_pid s in
  if pid =? -1 then (true, s, [])
  else (kill w pid SIGKILL, s,
        (EvKill pid SIGTERM :: sigterm_log w pid
           ++ [EvSleep 10 (wait_length w 10); EvKill pid SIGKILL]
           ++ sigkill_log w pid)%list).
Proof.
  unfold stop_dockerd, wait_length, sigterm_log, sigkill_log, sleep,
    kill_ok, when, syslog, bind, get, emit, modify, ret.
  cbv zeta.
  destruct (dockerd_process_pid s =? -1) eqn:Hpid; [reflexivity|].
  destruct (kill w (dockerd_process_pid s) SIGTERM);
    destruct (sleep_interrupt w) as [t|];
    try destruct ((0 <=? t) && (t <? 10));
    cbn -[Z.eqb]; rewrite ?Hpid;
    destruct (kill w (dockerd_process_pid s) SIGKILL); reflexivity.
Qed.

(** C8.  With no pid tracked, [stop_dockerd] succeeds, changes nothing and
    calls nothing (so it sends no signal); a second call behaves the same, and
    both together behave as one. *)
Theorem stop_dockerd_nothing_to_stop :
  forall (w w' : World) (s : State),
    dockerd_process_pid s = -1 ->
    stop_dockerd w s = (true, s, []) /\
    stop_dockerd w' (final (stop_dockerd w s)) = (true, s, []) /\
    (stop_dockerd w ;; stop_dockerd w') s = stop_dockerd w s.
Proof.
  intros w w' s Hpid.
  assert (H : forall v, stop_dockerd v s = (true, s, [])).
  { intro v. rewrite stop_dockerd_run. cbv zeta. rewrite Hpid. reflexivity. }
  split; [apply H|]. split.
  - rewrite (H w). apply H.
  - unfold bind. rewrite (H w). cbn [fst snd]. rewrite (H w'). reflexivity.
Qed.

Lemma stop_dockerd_nothing_to_stop_witness :
  stop_dockerd barren initial_state = (true, initial_state, []) /\
  stop_dockerd barren (final (stop_dockerd barren initial_state))
    = (true, initial_state, []) /\
  (stop_dockerd barren ;; stop_dockerd barren) initial_state
    = stop_dockerd barren initial_state.
Proof.
  apply (stop_dockerd_nothing_to_stop barren barren initial_state).
  reflexivity.
Defined.

(** C7.  With a pid tracked, [stop_dockerd] first sends SIGTERM; when that send
    fails it is logged, and the result does not depend on it.  After the wait
    the pid is still tracked, SIGKILL is sent to it, and the result is
    whether that [kill] call succeeded.  The calls come in this order:
    SIGTERM, its log line if any, the sleep, SIGKILL, its log line if any. *)
Theorem stop_dockerd_escalates :
  forall (w : World) (s : State),
    dockerd_process_pid s <> -1 ->
    let pid := dockerd_process_pid s in
    let r := stop_dockerd w s in
    hd_error (trace r) = Some (EvKill pid SIGTERM) /\
    (kill w pid SIGTERM = false ->
     In (EvSyslog LOG_ERR "Failed to send SIGTERM to child. Error: %s"
           [LPlatformError]) (trace r)) /\
    result r = kill w pid SIGKILL /\
    dockerd_process_pid (final r) = pid /\
    In (EvKill pid SIGKILL) (trace r) /\
    trace r = (EvKill pid SIGTERM :: sigterm_log w pid
                 ++ [EvSleep 10 (wait_length w 10); EvKill pid SIGKILL]
                 ++ sigkill_log w pid)%list.
Proof.
  intros w s Hpid pid r. subst r pid.
  rewrite stop_dockerd_run. cbv zeta.
  apply Z.eqb_neq in Hpid. rewrite Hpid.
  cbn [result final trace fst snd hd_error].
  repeat split.
  - intro Hterm. unfold sigterm_log. rewrite Hterm. cbn. auto.
  - right. apply in_or_app. right. apply in_or_app. left. cbn. auto.
Qed.

Lemma stop_dockerd_escalates_witness :
  let r := stop_dockerd barren running in
  hd_error (trace r) = Some (EvKill 4711 SIGTERM) /\
  (kill barren 4711 SIGTERM = false ->
   In (EvSyslog LOG_ERR "Failed to send SIGTERM to child. Error: %s"
         [LPlatformError]) (trace r)) /\
  result r = kill barren 4711 SIGKILL /\
  dockerd_process_pid (final r) = 4711 /\
  In (EvKill 4711 SIGKILL) (trace r) /\
  trace r = (EvKill 4711 SIGTERM :: sigterm_log barren 4711
               ++ [EvSleep 10 (wait_length barren 10); EvKill 4711 SIGKILL]
               ++ sigkill_log barren 4711)%list.
Proof.
  apply (stop_dockerd_escalates barren running).
  vm_compute. lia.
Defined.

(** C2.  What [stop_dockerd] does where an early return is expected.  The
    comment above the [sleep] expects the child-exit callback to end the
    sleep, and the test after it to find the pid reset and return success.
    The callback cannot run before [stop_dockerd] returns, so even when the
    child's exit ends the sleep after [t] seconds, [t] below 10, the pid is
    still tracked after the wait and SIGKILL is sent to it; the result is
    that of the [kill] call. *)
Theorem stop_dockerd_kills_despite_child_exit :
  forall (w : World) (s : State) (t : Z),
    dockerd_process_pid s <> -1 ->
    sleep_interrupt w = Some t ->
    0 <= t < 10 ->
    let pid := dockerd_process_pid s in
    let r := stop_dockerd w s in
    In (EvSleep 10 t) (trace r) /\
    dockerd_process_pid (final r) = pid /\
    In (EvKill pid SIGKILL) (trace r) /\
    result r = kill w pid SIGKILL.
Proof.
  intros w s t Hpid Hs Ht pid r. subst r pid.
  rewrite stop_dockerd_run. cbv zeta.
  apply Z.eqb_neq in Hpid. rewrite Hpid.
  assert (Hb : (0 <=? t) && (t <? 10) = true).
  { apply andb_true_iff. split; [apply Z.leb_le|apply Z.ltb_lt]; lia. }
  unfold wait_length. rewrite Hs, Hb.
  cbn [result final trace fst snd].
  repeat split.
  - right. apply in_or_app. right. left. reflexivity.
  - right. apply in_or_app. right. right. left. reflexivity.
Qed.

Lemma stop_dockerd_kills_despite_child_exit_witness :
  let r := stop_dockerd unsecured running in
  In (EvSleep 10 2) (trace r) /\
  dockerd_process_pid (final r) = 4711 /\
  In (EvKill 4711 SIGKILL) (trace r) /\
  result r = kill unsecured 4711 SIGKILL.
Proof.
  apply (stop_dockerd_kills_despite_child_exit unsecured running 2).
  - vm_compute. lia.
  - reflexivity.
  - lia.
Defined.

(** ** Rules and the steps of a computation *)

Section Respects.

Context (R : State -> list Event -> State -> Prop) `{HR : !Closed R}.

Lemma respects_ret {A : Type} (a : A) : respects R (ret a).
Proof. intro s. apply closed_nil. Qed.

Lemma respects_get : respects R get.
Proof. intro s. apply closed_nil. Qed.

Lemma respects_bind {A B : Type} (m : M A) (f : A -> M B) :
  respects R m -> (forall a, respects R (f a)) -> respects R (bind m f).
Proof.
  intros Hm Hf s. rewrite trace_bind, final_bind.
  eapply closed_app; [apply Hm|apply Hf].
Qed.

Lemma respects_when (b : bool) (m : M unit) :
  respects R m -> respects R (when b m).
Proof. intro Hm. destruct b; [exact Hm|apply respects_ret]. Qed.

End Respects.

(** Splits a computation into its primitive steps; [base] settles those. *)
Ltac respects_with base :=
  repeat first
    [ solve [base]
    | apply respects_ret; exact _
    | apply respects_get; exact _
    | apply respects_bind; [exact _| |intro]
    | apply respects_when; [exact _|]
    | match goal with
      | |- respects _ (if ?b then _ else _) => destruct b
      | |- respects _ (match ?x with _ => _ end) => destruct x
      | |- respects _ (let _ := _ in _) => cbv zeta
      end ].

#[local] Instance resolver_rule_closed : Closed resolver_rule.
Proof.
  split.
  - intro s. split; reflexivity.
  - intros s t1 s1 t2 s2 [-> H1] [-> H2]. split; [reflexivity|].
    rewrite forallb_app, H1, H2. reflexivity.
Qed.

Ltac resolver_base := intro; split; reflexivity.

Lemma is_parameter_yes_resolver (w : World) (name : string) :
  respects resolver_rule (is_parameter_yes w name).
Proof.
  unfold is_parameter_yes, get_parameter_value, syslog.
  respects_with resolver_base.
Qed.

Lemma setup_sdcard_resolver (w : World) (d : string) :
  respects resolver_rule (setup_sdcard w d).
Proof.
  unfold setup_sdcard, get_filesystem_of_path, syslog.
  respects_with resolver_base.
Qed.

Lemma sd_card_selection_resolver (w : World) :
  respects resolver_rule (get_and_verify_sd_card_selection w).
Proof.
  unfold get_and_verify_sd_card_selection, syslog.
  respects_with ltac:(first [apply is_parameter_yes_resolver
                            |apply setup_sdcard_resolver|resolver_base]).
Qed.

Lemma tls_selection_resolver (w : World) (b : bool) :
  respects resolver_rule (get_and_verify_tls_selection w b).
Proof.
  unfold get_and_verify_tls_selection, syslog.
  respects_with ltac:(first [apply is_parameter_yes_resolver|resolver_base]).
Qed.

Lemma read_settings_resolver (w : World) (st : settings) :
  respects resolver_rule (read_settings w st).
Proof.
  unfold read_settings, get_ipc_socket_selection, syslog.
  respects_with ltac:(first [apply is_parameter_yes_resolver
                            |apply sd_card_selection_resolver
                            |apply tls_selection_resolver|resolver_base]).
Qed.

Lemma read_settings_final (w : World) (st : settings) (s : State) :
  final (read_settings w st s) = s.
Proof. apply (read_settings_resolver w st s). Qed.

Lemma resolver_event_not_spawn (t : list Event) :
  forallb is_resolver_event t = true -> existsb is_spawn t = false.
Proof.
  induction t as [|e t IH]; [reflexivity|]. cbn [forallb existsb].
  intro H. apply andb_true_iff in H. destruct H as [He Ht].
  rewrite (IH Ht). destruct e; try discriminate; reflexivity.
Qed.

(** ** The launcher *)

Lemma start_dockerd_run (w : World) (st : settings) (s : State) :
  start_dockerd w st s =
  match dockerd_argv st with
  | None => (false, s, [EvUndefined])
  | Some argv => spawn_outcome w (dockerd_msg st) argv s
  end.
Proof.
  unfold start_dockerd, spawn_outcome.
  destruct (dockerd_argv st) as [argv|]; [|reflexivity].
  unfold is_process_alive, assign_exit_code, g_main_loop_quit,
    syslog, bind, get, emit, modify, ret.
  cbn -[Z.eqb dockerd_msg].
  destruct (g_spawn_async w argv) as [pid|]; [|reflexivity].
  cbn -[Z.eqb dockerd_msg].
  destruct (waitpid_WNOHANG w pid =? -1); [reflexivity|].
  destruct (waitpid_WNOHANG w pid =? pid); reflexivity.
Qed.

(** Unfolds a launch into its cases. *)
Ltac launch_cases w st :=
  rewrite ?start_dockerd_run; unfold spawn_outcome; cbv zeta;
  destruct (dockerd_argv st) as [?argv|];
  [ match goal with
    | |- context [g_spawn_async w ?a] =>
        destruct (g_spawn_async w a) as [?pid|];
        [ match goal with
          | |- context [waitpid_WNOHANG w ?p =? -1] =>
              destruct ((waitpid_WNOHANG w p =? -1) || (waitpid_WNOHANG w p =? p))
          end | ]
    end | ].

(** A launch that succeeds requests no loop exit and records no exit code; no
    launch touches the restart flag. *)
Lemma start_dockerd_success (w : World) (st : settings) (s : State) :
  result (start_dockerd w st s) = true ->
  exit_code (final (start_dockerd w st s)) = exit_code s /\
  loop_quit (final (start_dockerd w st s)) = loop_quit s /\
  existsb is_quit (trace (start_dockerd w st s)) = false /\
  existsb is_exit_code (trace (start_dockerd w st s)) = false.
Proof.
  launch_cases w st; try discriminate.
  intros _. repeat split; reflexivity.
Qed.

Lemma start_dockerd_restart_flag (w : World) (st : settings) (s : State) :
  restart_dockerd (final (start_dockerd w st s)) = restart_dockerd s.
Proof. launch_cases w st; reflexivity. Qed.

(** [read_settings_and_start_dockerd] is the resolver followed, when it
    succeeds, by the launcher on the settings it produced. *)
Lemma read_settings_and_start_run (w : World) (s : State) :
  let r := read_settings w (mkSettings None false false) s in
  read_settings_and_start_dockerd w s =
  if fst (result r)
  then (result (start_dockerd w (snd (result r)) s),
        final (start_dockerd w (snd (result r)) s),
        (trace r ++ trace (start_dockerd w (snd (result r)) s))%list)
  else (false, s, trace r).
Proof.
  cbv zeta. unfold read_settings_and_start_dockerd.
  rewrite (run_eta (bind _ _ s)).
  rewrite result_bind, final_bind, trace_bind, read_settings_final.
  destruct (fst (result (read_settings w (mkSettings None false false) s))).
  - reflexivity.
  - cbn. rewrite app_nil_r. reflexivity.
Qed.

Lemma read_settings_and_start_restart_flag (w : World) (s : State) :
  restart_dockerd (final (read_settings_and_start_dockerd w s)) = restart_dockerd s.
Proof.
  pose proof (read_settings_and_start_run w s) as H. cbv zeta in H. rewrite H.
  destruct (fst (result (read_settings w (mkSettings None false false) s)));
    [apply start_dockerd_restart_flag|reflexivity].
Qed.

(** When the resolver fails, nothing is launched. *)
Lemma no_launch_when_resolver_fails (w : World) (s : State) :
  fst (result (read_settings w (mkSettings None false false) s)) = false ->
  result (read_settings_and_start_dockerd w s) = false /\
  final (read_settings_and_start_dockerd w s) = s /\
  existsb is_spawn (trace (read_settings_and_start_dockerd w s)) = false.
Proof.
  intro Hf. pose proof (read_settings_and_start_run w s) as H. cbv zeta in H.
  rewrite H, Hf. repeat split.
  apply resolver_event_not_spawn. apply (read_settings_resolver w _ s).
Qed.

(** ** The two callbacks *)

Lemma mark_restart_run (parname value : string) (keys : list string) (s : State) :
  mark_restart parname value keys s =
  (tt,
   if existsb (String.eqb parname) keys then set_restart true s else s,
   map (changed_log value) (filter (String.eqb parname) keys)).
Proof.
  revert s. induction keys as [|k keys IH]; intro s; [reflexivity|].
  cbn [mark_restart existsb filter].
  destruct (parname =? k)%string;
    unfold when, bind, syslog, emit, modify, ret;
    cbn -[mark_restart]; rewrite IH; cbn.
  - destruct (existsb (String.eqb parname) keys); reflexivity.
  - reflexivity.
Qed.

Lemma parameter_changed_run (w : World) (name value : string) (s : State) :
  parameter_changed_callback w name value s =
  let watched := existsb (String.eqb (strip_prefix name)) ax_parameters in
  let s1 := if watched then set_restart true s else s in
  let marks := map (changed_log value)
                   (filter (String.eqb (strip_prefix name)) ax_parameters) in
  let r := stop_dockerd w s1 in
  if result r
  then (tt, final r, (marks ++ trace r)%list)
  else (tt, set_exit_code (-1) (final r),
        (marks ++ trace r ++ [stop_failed_log; EvExitCode (-1)])%list).
Proof.
  cbv zeta. unfold parameter_changed_callback, bind.
  rewrite mark_restart_run. cbn [fst snd].
  destruct (stop_dockerd w _) as [[b s2] t2]. cbn [fst snd result final trace].
  destruct b; cbn; [rewrite app_nil_r|]; reflexivity.
Qed.

Lemma exited_callback_run (w : World) (pid status : Z) (s : State) :
  dockerd_process_exited_callback w pid status s =
  let abnormal := negb (g_spawn_check_exit_status status) in
  let pre := ((if abnormal then [exited_log status; EvExitCode (-1)] else [])
              ++ [EvSpawnClosePid pid; EvRemove "/var/run/docker.pid"])%list in
  let s1 := mkState (if abnormal then -1 else exit_code s) (-1)
                    (restart_dockerd s) (loop_quit s) in
  if restart_dockerd s then
    let a := read_settings_and_start_dockerd w (set_restart false s1) in
    if result a
    then (tt, final a, (pre ++ trace a)%list)
    else (tt, set_loop_quit true (set_exit_code (-1) (final a)),
          (pre ++ trace a ++ [EvExitCode (-1); EvMainLoopQuit])%list)
  else (tt, set_loop_quit true s1, (pre ++ [EvMainLoopQuit])%list).
Proof.
  cbv zeta.
  unfold dockerd_process_exited_callback, when, assign_exit_code,
    g_main_loop_quit, syslog, bind, emit, modify, get, ret.
  destruct (g_spawn_check_exit_status status);
    cbn -[read_settings_and_start_dockerd];
    destruct (restart_dockerd s) eqn:Hr;
    unfold set_loop_quit, set_restart, set_pid, set_exit_code;
    cbn -[read_settings_and_start_dockerd]; rewrite ?Hr; try reflexivity;
    set (a := read_settings_and_start_dockerd w _);
    destruct a as [[[|] s2] t2]; cbn; rewrite ?app_nil_r; reflexivity.
Qed.

Lemma not_In_of_existsb {A : Type} (p : A -> bool) (l : list A) (x : A) :
  existsb p l = false -> p x = true -> ~ In x l.
Proof.
  intros Hl Hx Hin. rewrite (existsb_false_not_In p l Hl x Hin) in Hx. discriminate.
Qed.

Lemma marks_not_quit (value : string) (keys : list string) :
  existsb is_quit (map (changed_log value) keys) = false.
Proof. induction keys as [|k keys IH]; [reflexivity|exact IH]. Qed.


(** [stop_dockerd] neither reads nor writes the restart flag. *)
Lemma stop_dockerd_restart_flag (w : World) (b : bool) (s : State) :
  stop_dockerd w (set_restart b s) =
  (result (stop_dockerd w s), set_restart b (final (stop_dockerd w s)),
   trace (stop_dockerd w s)).
Proof.
  rewrite !stop_dockerd_run. cbv zeta. cbn [set_restart dockerd_process_pid].
  destruct (dockerd_process_pid s =? -1); reflexivity.
Qed.

Lemma stop_dockerd_never_quits (w : World) (s : State) :
  existsb is_quit (trace (stop_dockerd w s)) = false /\
  loop_quit (final (stop_dockerd w s)) = loop_quit s /\
  restart_dockerd (final (stop_dockerd w s)) = restart_dockerd s /\
  exit_code (final (stop_dockerd w s)) = exit_code s.
Proof.
  rewrite stop_dockerd_run. cbv zeta. unfold sigterm_log, sigkill_log.
  destruct (dockerd_process_pid s =? -1); [repeat split|].
  destruct (kill w (dockerd_process_pid s) SIGTERM);
    destruct (kill w (dockerd_process_pid s) SIGKILL); repeat split.
Qed.

(** What a failing [stop_dockerd] looks like: a pid is tracked, it is still
    tracked after the wait, and the SIGKILL could not be sent. *)
Lemma stop_dockerd_failure (w : World) (s : State) :
  result (stop_dockerd w s) = false ->
  dockerd_process_pid s <> -1 /\
  kill w (dockerd_process_pid s) SIGKILL = false /\
  final (stop_dockerd w s) = s.
Proof.
  rewrite stop_dockerd_run. cbv zeta.
  destruct (dockerd_process_pid s =? -1) eqn:Hp; [discriminate|].
  cbn. intro Hk. apply Z.eqb_neq in Hp. auto.
Qed.

(** C1, as the code has it.  When [stop_dockerd] fails inside
    [parameter_changed_callback], the callback logs the failure and records
    the exit code -1; it does not ask the main loop to quit, and the pid stays
    tracked. *)
Theorem parameter_changed_stop_failure :
  forall (w : World) (name value : string) (s : State),
    result (stop_dockerd w s) = false ->
    let r := parameter_changed_callback w name value s in
    exit_code (final r) = -1 /\
    In (EvExitCode (-1)) (trace r) /\
    In stop_failed_log (trace r) /\
    ~ In EvMainLoopQuit (trace r) /\
    loop_quit (final r) = loop_quit s /\
    dockerd_process_pid (final r) = dockerd_process_pid s /\
    dockerd_process_pid s <> -1.
Proof.
  intros w name value s Hfail r. subst r.
  rewrite parameter_changed_run. cbv zeta.
  set (watched := existsb (String.eqb (strip_prefix name)) ax_parameters).
  set (marks := map _ _).
  assert (Hstop : exists b,
             stop_dockerd w (if watched then set_restart true s else s)
             = (false, set_restart b s, trace (stop_dockerd w s))
             /\ loop_quit (set_restart b s) = loop_quit s).
  { destruct (stop_dockerd_failure w s Hfail) as (_ & _ & Hfin).
    destruct watched.
    - exists true. rewrite stop_dockerd_restart_flag, Hfail, Hfin. split; reflexivity.
    - exists (restart_dockerd s). rewrite (run_eta (stop_dockerd w s)), Hfail, Hfin.
      destruct s; split; reflexivity. }
  destruct Hstop as (b & -> & Hq).
  cbn [result final trace fst snd].
  destruct (stop_dockerd_failure w s Hfail) as (Hpid & _ & _).
  destruct (stop_dockerd_never_quits w s) as (Hnq & _).
  repeat split; auto.
  - apply in_or_app. right. apply in_or_app. right. cbn. auto.
  - apply in_or_app. right. apply in_or_app. right. cbn. auto.
  - apply (not_In_of_existsb is_quit); [|reflexivity].
    rewrite !existsb_app. subst marks. rewrite marks_not_quit, Hnq. reflexivity.
Qed.

Lemma parameter_changed_stop_failure_witness :
  let r := parameter_changed_callback barren use_tls_changed "yes" running in
  exit_code (final r) = -1 /\
  In (EvExitCode (-1)) (trace r) /\
  In stop_failed_log (trace r) /\
  ~ In EvMainLoopQuit (trace r) /\
  loop_quit (final r) = loop_quit running /\
  dockerd_process_pid (final r) = dockerd_process_pid running /\
  dockerd_process_pid running <> -1.
Proof.
  apply (parameter_changed_stop_failure barren use_tls_changed "yes" running).
  reflexivity.
Defined.

(** C1, as the specification words it, fails: with dockerd running as
    process 4711 and every [kill] refused, [stop_dockerd] fails, and the
    callback for a change of UseTLS records -1 yet asks for no loop exit. *)
Lemma parameter_changed_stop_failure_does_not_quit :
  let r := parameter_changed_callback barren use_tls_changed "yes" running in
  result (stop_dockerd barren running) = false /\
  ~ (exit_code (final r) = -1 /\
     (In EvMainLoopQuit (trace r) \/ loop_quit (final r) = true)).
Proof.
  cbv zeta. split; [reflexivity|].
  intros [_ [Hin|Hq]].
  - vm_compute in Hin.
    repeat (destruct Hin as [Hin|Hin]; [discriminate Hin|]). exact Hin.
  - vm_compute in Hq. discriminate Hq.
Qed.



(** ** The resolver *)

Lemma is_parameter_yes_final (w : World) (name : string) (s : State) :
  final (is_parameter_yes w name s) = s.
Proof. apply (is_parameter_yes_resolver w name s). Qed.

Lemma setup_sdcard_final (w : World) (d : string) (s : State) :
  final (setup_sdcard w d s) = s.
Proof. apply (setup_sdcard_resolver w d s). Qed.

Lemma sd_card_selection_final (w : World) (s : State) :
  final (get_and_verify_sd_card_selection w s) = s.
Proof. apply (sd_card_selection_resolver w s). Qed.

Lemma tls_selection_final (w : World) (b : bool) (s : State) :
  final (get_and_verify_tls_selection w b s) = s.
Proof. apply (tls_selection_resolver w b s). Qed.

(** Unpacks a sub-computation of the resolver whose final state is known. *)
Ltac unpack m Hfinal :=
  let H := fresh "H" in
  pose proof Hfinal as H;
  destruct m as [[? ?] ?]; cbn [result final trace fst snd] in H |- *; subst.

Lemma sd_card_selection_run (w : World) (s : State) :
  get_and_verify_sd_card_selection w s =
  let yes := is_parameter_yes w "SDCardSupport" s in
  if result yes then
    let su := setup_sdcard w sd_data_root s in
    if result su
    then ((true, Some sd_data_root), s, (trace yes ++ trace su)%list)
    else ((false, Some sd_data_root), s,
          (trace yes ++ trace su
             ++ [EvSyslog LOG_ERR "Failed to setup SD card." []])%list)
  else ((true, None), s, trace yes).
Proof.
  cbv zeta. unfold get_and_verify_sd_card_selection, bind at 1.
  unpack (is_parameter_yes w "SDCardSupport" s)
         (is_parameter_yes_final w "SDCardSupport" s).
  destruct b; [|cbn; rewrite app_nil_r; reflexivity].
  fold sd_data_root. unfold bind at 1.
  unpack (setup_sdcard w sd_data_root s) (setup_sdcard_final w sd_data_root s).
  destruct b; cbn; rewrite ?app_nil_r; reflexivity.
Qed.

Lemma tls_selection_run (w : World) (b : bool) (s : State) :
  get_and_verify_tls_selection w b s =
  let yes := is_parameter_yes w "UseTLS" s in
  if result yes then
    let ca := access_F_OK w ca_path in
    let cert := access_F_OK w cert_path in
    let key := access_F_OK w key_path in
    if ca && cert && key
    then ((true, true), s, trace yes)
    else ((false, b), s,
          (trace yes ++ tls_missing_log
             :: (if ca then [] else
                   [EvSyslog LOG_ERR
                      "Cannot start using TLS, no CA certificate found at %s"
                      [LStr ca_path]])
             ++ (if cert then [] else
                   [EvSyslog LOG_ERR
                      "Cannot start using TLS, no server certificate found at %s"
                      [LStr cert_path]])
             ++ (if key then [] else
                   [EvSyslog LOG_ERR
                      "Cannot start using TLS, no server key found at %s"
                      [LStr key_path]]))%list)
  else ((true, false), s, trace yes).
Proof.
  cbv zeta. unfold get_and_verify_tls_selection, bind at 1.
  unpack (is_parameter_yes w "UseTLS" s) (is_parameter_yes_final w "UseTLS" s).
  destruct b0; [|cbn; rewrite app_nil_r; reflexivity].
  fold ca_path cert_path key_path.
  unfold when, syslog, bind, emit, ret.
  destruct (access_F_OK w ca_path), (access_F_OK w cert_path),
    (access_F_OK w key_path); cbn [negb orb andb app]; rewrite ?app_nil_r;
    reflexivity.
Qed.

Lemma read_settings_run (w : World) (st : settings) (s : State) :
  read_settings w st s =
  let sd := get_and_verify_sd_card_selection w s in
  if fst (result sd) then
    let tls := get_and_verify_tls_selection w (use_tls st) s in
    if fst (result tls) then
      let ipc := is_parameter_yes w "IPCSocket" s in
      ((true, mkSettings (snd (result sd)) (snd (result tls)) (result ipc)), s,
       (trace sd ++ trace tls ++ trace ipc)%list)
    else
      ((false, mkSettings (snd (result sd)) (snd (result tls)) (use_ipc_socket st)),
       s, (trace sd ++ trace tls ++ [tls_failed_log])%list)
  else
    ((false, mkSettings (snd (result sd)) (use_tls st) (use_ipc_socket st)), s,
     (trace sd ++ [sd_failed_log])%list).
Proof.
  cbv zeta. unfold read_settings, bind at 1.
  unpack (get_and_verify_sd_card_selection w s) (sd_card_selection_final w s).
  destruct p as [ok dr]. cbn [fst snd negb].
  destruct ok; [|reflexivity]. cbn [negb data_root use_tls use_ipc_socket].
  unfold bind at 1.
  unpack (get_and_verify_tls_selection w (use_tls st) s)
         (tls_selection_final w (use_tls st) s).
  destruct p as [ok tls]. cbn [fst snd negb].
  destruct ok; [|reflexivity]. cbn [negb data_root use_tls use_ipc_socket].
  unfold get_ipc_socket_selection, bind.
  unpack (is_parameter_yes w "IPCSocket" s) (is_parameter_yes_final w "IPCSocket" s).
  cbn. rewrite !app_nil_r. reflexivity.
Qed.

Lemma get_filesystem_final (w : World) (path : string) (s : State) :
  final (get_filesystem_of_path w path s) = s.
Proof.
  unfold get_filesystem_of_path, syslog, bind, emit, ret.
  destruct (stat_dev w path); [destruct (proc_mounts w)|]; reflexivity.
Qed.

(** [setup_sdcard] refuses a path whose mount is vfat or exfat, and says why
    once the directory could be created. *)
Lemma setup_sdcard_rejects (w : World) (d fs : string) (s : State) :
  result (get_filesystem_of_path w d s) = Some fs ->
  fs = "vfat" \/ fs = "exfat" ->
  result (setup_sdcard w d s) = false /\
  (system w ("mkdir -p " ++ d) = 0 ->
   In (unix_permissions_log d fs) (trace (setup_sdcard w d s))).
Proof.
  intros Hfs Hbad.
  unfold setup_sdcard. cbv zeta.
  rewrite result_bind, trace_bind.
  change (final (emit (EvSystem ("mkdir -p " ++ d)) s)) with s.
  destruct (system w ("mkdir -p " ++ d) =? 0) eqn:Hsys; cbn [negb].
  - rewrite result_bind, trace_bind, get_filesystem_final, Hfs.
    assert (Hb : (fs =? "vfat")%string || (fs =? "exfat")%string = true).
    { destruct Hbad as [->| ->]; reflexivity. }
    rewrite Hb. split; [reflexivity|].
    intros _. apply in_or_app. right. apply in_or_app. right.
    left. reflexivity.
  - split; [reflexivity|].
    intro H0. rewrite H0 in Hsys. discriminate.
Qed.

(** C5.  When UseTLS reads as yes and the CA certificate, the server
    certificate or the server key is missing at its install path, whatever
    holds of the other two, [read_settings] fails, and
    [read_settings_and_start_dockerd] fails without spawning anything and
    without changing the tracked pid. *)
Theorem tls_needs_all_three_certificates :
  forall (w : World) (s : State),
    result (is_parameter_yes w "UseTLS" s) = true ->
    access_F_OK w "/usr/local/packages/dockerdwrapperwithcompose/ca.pem" = false \/
    access_F_OK w "/usr/local/packages/dockerdwrapperwithcompose/server-cert.pem" = false \/
    access_F_OK w "/usr/local/packages/dockerdwrapperwithcompose/server-key.pem" = false ->
    fst (result (read_settings w (mkSettings None false false) s)) = false /\
    result (read_settings_and_start_dockerd w s) = false /\
    (forall argv, ~ In (EvSpawn argv) (trace (read_settings_and_start_dockerd w s))) /\
    final (read_settings_and_start_dockerd w s) = s.
Proof.
  intros w s Hyes Hmiss.
  assert (Hrs : fst (result (read_settings w (mkSettings None false false) s)) = false).
  { rewrite read_settings_run. cbv zeta.
    destruct (fst (result (get_and_verify_sd_card_selection w s))); [|reflexivity].
    rewrite tls_selection_run. cbv zeta. rewrite Hyes.
    change ca_path with "/usr/local/packages/dockerdwrapperwithcompose/ca.pem".
    change cert_path
      with "/usr/local/packages/dockerdwrapperwithcompose/server-cert.pem".
    change key_path
      with "/usr/local/packages/dockerdwrapperwithcompose/server-key.pem".
    destruct Hmiss as [->|[->| ->]]; rewrite ?andb_false_r; reflexivity. }
  split; [exact Hrs|].
  destruct (no_launch_when_resolver_fails w s Hrs) as (Hres & Hfin & Hsp).
  repeat split; auto.
  intro argv. apply (not_In_of_existsb is_spawn); [exact Hsp|reflexivity].
Qed.

Lemma tls_needs_all_three_certificates_witness :
  fst (result (read_settings tls_without_key (mkSettings None false false)
                 initial_state)) = false /\
  result (read_settings_and_start_dockerd tls_without_key initial_state) = false /\
  (forall argv,
      ~ In (EvSpawn argv)
          (trace (read_settings_and_start_dockerd tls_without_key initial_state))) /\
  final (read_settings_and_start_dockerd tls_without_key initial_state)
    = initial_state.
Proof.
  apply (tls_needs_all_three_certificates tls_without_key initial_state).
  - reflexivity.
  - right. right. reflexivity.
Defined.

(** C6.  When SDCardSupport reads as yes and the mount holding the data root
    on the SD card is vfat or exfat, [read_settings] fails and logs that the
    SD card could not be set up, the data root it leaves behind is the SD card
    path and not the default, and [read_settings_and_start_dockerd] fails
    without spawning anything.  Once the directory could be created the log
    also names the file system. *)
Theorem sd_card_rejects_vfat :
  forall (w : World) (s : State) (fs : string),
    result (is_parameter_yes w "SDCardSupport" s) = true ->
    result (get_filesystem_of_path w "/var/spool/storage/SD_DISK/dockerd/data" s)
      = Some fs ->
    fs = "vfat" \/ fs = "exfat" ->
    let r := read_settings w (mkSettings None false false) s in
    fst (result r) = false /\
    In sd_failed_log (trace r) /\
    data_root (snd (result r)) = Some "/var/spool/storage/SD_DISK/dockerd/data" /\
    (system w "mkdir -p /var/spool/storage/SD_DISK/dockerd/data" = 0 ->
     In (unix_permissions_log "/var/spool/storage/SD_DISK/dockerd/data" fs) (trace r)) /\
    result (read_settings_and_start_dockerd w s) = false /\
    (forall argv, ~ In (EvSpawn argv) (trace (read_settings_and_start_dockerd w s))).
Proof.
  intros w s fs Hyes Hfs Hbad r.
  change "/var/spool/storage/SD_DISK/dockerd/data" with sd_data_root in *.
  destruct (setup_sdcard_rejects w sd_data_root fs s Hfs Hbad) as (Hsu & Hlog).
  assert (Hr : r = ((false, mkSettings (Some sd_data_root) false false), s,
                    (trace (get_and_verify_sd_card_selection w s)
                       ++ [sd_failed_log])%list)).
  { subst r. rewrite read_settings_run. cbv zeta.
    rewrite sd_card_selection_run. cbv zeta. rewrite Hyes, Hsu. reflexivity. }
  assert (Hfail : fst (result r) = false) by (rewrite Hr; reflexivity).
  destruct (no_launch_when_resolver_fails w s Hfail) as (Hres & _ & Hsp).
  rewrite Hr. cbn [result final trace fst snd data_root].
  repeat split; auto.
  - apply in_or_app. right. left. reflexivity.
  - intro H0. apply in_or_app. left.
    rewrite sd_card_selection_run. cbv zeta. rewrite Hyes, Hsu. cbn [trace snd].
    apply in_or_app. right. apply in_or_app. left. apply Hlog.
    exact H0.
  - intro argv. apply (not_In_of_existsb is_spawn); [exact Hsp|reflexivity].
Qed.

Lemma sd_card_rejects_vfat_witness :
  let r := read_settings vfat_card (mkSettings None false false) initial_state in
  fst (result r) = false /\
  In sd_failed_log (trace r) /\
  data_root (snd (result r)) = Some "/var/spool/storage/SD_DISK/dockerd/data" /\
  (system vfat_card "mkdir -p /var/spool/storage/SD_DISK/dockerd/data" = 0 ->
   In (unix_permissions_log "/var/spool/storage/SD_DISK/dockerd/data" "vfat")
      (trace r)) /\
  result (read_settings_and_start_dockerd vfat_card initial_state) = false /\
  (forall argv,
      ~ In (EvSpawn argv)
          (trace (read_settings_and_start_dockerd vfat_card initial_state))).
Proof.
  apply (sd_card_rejects_vfat vfat_card initial_state "vfat").
  - reflexivity.
  - reflexivity.
  - left. reflexivity.
Defined.

(** What a successful [read_settings] can leave in [data_root]. *)
Lemma validated_data_root (w : World) (s : State) (st : settings) :
  result (read_settings w (mkSettings None false false) s) = (true, st) ->
  data_root st = None \/ data_root st = Some "/var/spool/storage/SD_DISK/dockerd/data".
Proof.
  rewrite read_settings_run. cbv zeta.
  rewrite sd_card_selection_run. cbv zeta.
  destruct (result (is_parameter_yes w "SDCardSupport" s)).
  - destruct (result (setup_sdcard w sd_data_root s)); cbn [result fst snd].
    + destruct (fst (result (get_and_verify_tls_selection w _ s)));
        cbn [result fst]; intro H; inversion H; right; reflexivity.
    + discriminate.
  - cbn [result fst snd].
    destruct (fst (result (get_and_verify_tls_selection w _ s)));
      cbn [result fst]; intro H; inversion H; left; reflexivity.
Qed.

(** The settings [read_settings] validates give a vector, part by part. *)
Lemma validated_argv (w : World) (s : State) (st : settings) :
  result (read_settings w (mkSettings None false false) s) = (true, st) ->
  dockerd_argv st = Some (argv_by_parts st).
Proof.
  intro Hv. pose proof (validated_data_root w s st Hv) as Hd.
  destruct st as [dr tls ipc]. cbn [data_root] in Hd.
  destruct Hd as [-> | ->]; destruct tls, ipc; vm_compute; reflexivity.
Qed.

(** A launch, by cases: the settings are read; when they validate, the spawn
    and the probe decide the rest. *)
Lemma launch_run (w : World) (s : State) :
  read_settings_and_start_dockerd w s =
  let rs := read_settings w (mkSettings None false false) s in
  if fst (result rs)
  then
    let o := spawn_outcome w (dockerd_msg (snd (result rs)))
               (argv_by_parts (snd (result rs))) s in
    (result o, final o, (trace rs ++ trace o)%list)
  else (false, s, trace rs).
Proof.
  pose proof (read_settings_and_start_run w s) as H. cbv zeta in *. rewrite H.
  destruct (result (read_settings w (mkSettings None false false) s))
    as [ok st] eqn:Hrs.
  cbn [fst snd]. destruct ok; [|reflexivity].
  rewrite start_dockerd_run, (validated_argv w s st Hrs). reflexivity.
Qed.

(** C3.  For settings that [read_settings] has validated, the vector handed to
    [g_spawn_async] is: the command and the config-file flag; then the TLS
    block on port 2376 when [use_tls] holds and the plain block on port 2375
    otherwise; then [--data-root] with the path exactly when [data_root] is
    set; then the unix-socket bind exactly when [use_ipc_socket] holds.  The
    string built in [args] fits its buffer, and [start_dockerd] spawns that
    vector and nothing else. *)
Theorem dockerd_argv_of_validated_settings :
  forall (w : World) (s : State) (st : settings),
    result (read_settings w (mkSettings None false false) s) = (true, st) ->
    let argv :=
      (["dockerd"; "--config-file";
        "/usr/local/packages/dockerdwrapperwithcompose/localdata/daemon.json"]
       ++ (if use_tls st
           then ["-H"; "tcp://0.0.0.0:2376"; "--tlsverify";
                 "--tlscacert"; "/usr/local/packages/dockerdwrapperwithcompose/ca.pem";
                 "--tlscert";
                 "/usr/local/packages/dockerdwrapperwithcompose/server-cert.pem";
                 "--tlskey";
                 "/usr/local/packages/dockerdwrapperwithcompose/server-key.pem"]
           else ["-H"; "tcp://0.0.0.0:2375"; "--tls=false"])
       ++ match data_root st with
          | Some d => ["--data-root"; d]
          | None => []
          end
       ++ (if use_ipc_socket st then ["-H"; "unix:///var/run/docker.sock"] else []))%list
    in
    dockerd_argv st = Some argv
    /\ (exists args,
          dockerd_args st = Some (args, Z.of_nat (String.length args))
          /\ Z.of_nat (String.length args) < args_len)
    /\ forall (w' : World) (s' : State),
         exists rest,
           trace (start_dockerd w' st s')
           = (EvSyslog LOG_INFO "%s" [LStr (dockerd_msg st)]
                :: EvSpawn argv :: rest)%list
           /\ existsb is_spawn rest = false.
Proof.
  intros w s st Hv.
  pose proof (validated_data_root w s st Hv) as Hd.
  destruct st as [dr tls ipc]. cbn [data_root use_tls use_ipc_socket] in *.
  cbv zeta.
  pose proof (validated_argv w s _ Hv) as Hargv.
  split; [|split].
  - exact Hargv.
  - destruct Hd as [-> | ->]; destruct tls, ipc;
      match goal with
      | |- exists args, ?d = _ /\ _ =>
          let v := eval vm_compute in d in
          match v with
          | Some (?a, _) => exists a; split; vm_compute; reflexivity
          end
      end.
  - intros w' s'. rewrite start_dockerd_run, Hargv. unfold spawn_outcome.
    destruct (g_spawn_async w' _) as [pid|].
    + destruct ((waitpid_WNOHANG w' pid =? -1) || (waitpid_WNOHANG w' pid =? pid));
        eexists; split; reflexivity.
    + eexists; split; reflexivity.
Qed.

Lemma dockerd_argv_of_validated_settings_witness :
  let argv :=
    ["dockerd"; "--config-file";
     "/usr/local/packages/dockerdwrapperwithcompose/localdata/daemon.json";
     "-H"; "tcp://0.0.0.0:2376"; "--tlsverify";
     "--tlscacert"; "/usr/local/packages/dockerdwrapperwithcompose/ca.pem";
     "--tlscert"; "/usr/local/packages/dockerdwrapperwithcompose/server-cert.pem";
     "--tlskey"; "/usr/local/packages/dockerdwrapperwithcompose/server-key.pem";
     "--data-root"; "/var/spool/storage/SD_DISK/dockerd/data";
     "-H"; "unix:///var/run/docker.sock"] in
  dockerd_argv all_settings = Some argv
  /\ (exists args,
        dockerd_args all_settings = Some (args, Z.of_nat (String.length args))
        /\ Z.of_nat (String.length args) < args_len)
  /\ forall (w' : World) (s' : State),
       exists rest,
         trace (start_dockerd w' all_settings s')
         = (EvSyslog LOG_INFO "%s" [LStr (dockerd_msg all_settings)]
              :: EvSpawn argv :: rest)%list
         /\ existsb is_spawn rest = false.
Proof.
  apply (dockerd_argv_of_validated_settings all_selected initial_state all_settings).
  reflexivity.
Defined.

(** ** The child-exit callback *)

Lemma resolver_events_lack (p : Event -> bool) (t : list Event) :
  (forall e, is_resolver_event e = true -> p e = false) ->
  forallb is_resolver_event t = true -> existsb p t = false.
Proof.
  intro Hp. induction t as [|e t IH]; [reflexivity|]. cbn [forallb existsb].
  intro H. apply andb_true_iff in H. destruct H as [He Ht].
  rewrite (IH Ht), (Hp e He). reflexivity.
Qed.

(** A successful resolve-and-launch records no exit code and requests no loop
    exit. *)
Lemma read_settings_and_start_success (w : World) (s : State) :
  result (read_settings_and_start_dockerd w s) = true ->
  exit_code (final (read_settings_and_start_dockerd w s)) = exit_code s /\
  loop_quit (final (read_settings_and_start_dockerd w s)) = loop_quit s /\
  existsb is_quit (trace (read_settings_and_start_dockerd w s)) = false.
Proof.
  pose proof (read_settings_and_start_run w s) as H. cbv zeta in H. rewrite H.
  destruct (fst (result (read_settings w (mkSettings None false false) s)));
    [|discriminate].
  cbn [result final trace fst snd]. intro Hs.
  destruct (start_dockerd_success w _ s Hs) as (He & Hq & Hnq & _).
  repeat split; auto.
  rewrite existsb_app, Hnq, orb_false_r.
  apply resolver_events_lack; [|apply (read_settings_resolver w _ s)].
  intros e He'. destruct e; try discriminate; reflexivity.
Qed.

Lemma spawned_app (t1 t2 : list Event) :
  spawned (t1 ++ t2) = (spawned t1 ++ spawned t2)%list.
Proof. apply flat_map_app. Qed.

Lemma resolver_events_spawn_nothing (t : list Event) :
  forallb is_resolver_event t = true -> spawned t = [].
Proof.
  induction t as [|e t IH]; [reflexivity|]. cbn [forallb]. intro H.
  apply andb_true_iff in H. destruct H as [He Ht].
  unfold spawned in *. cbn [flat_map]. rewrite (IH Ht).
  destruct e; try discriminate He; reflexivity.
Qed.

(** The two branches of [dockerd_process_exited_callback], around the
    launch. *)
Lemma child_exit_branches :
  forall (w : World) (pid status : Z) (s : State),
    let r := dockerd_process_exited_callback w pid status s in
    let cleared :=
      mkState (if g_spawn_check_exit_status status then exit_code s else -1)
              (-1) false (loop_quit s) in
    (g_spawn_check_exit_status status = false ->
     exit_code (final r) = -1 /\ In (EvExitCode (-1)) (trace r)) /\
    (restart_dockerd s = false ->
     final r = set_loop_quit true cleared /\
     In EvMainLoopQuit (trace r) /\
     existsb is_spawn (trace r) = false) /\
    (restart_dockerd s = true ->
     let a := read_settings_and_start_dockerd w cleared in
     restart_dockerd (final r) = false /\
     (exists pre post,
         trace r = (pre ++ trace a ++ post)%list /\
         existsb is_spawn pre = false /\ existsb is_spawn post = false) /\
     (result a = true -> final r = final a /\ ~ In EvMainLoopQuit (trace r)) /\
     (result a = false ->
      exit_code (final r) = -1 /\ loop_quit (final r) = true /\
      In (EvExitCode (-1)) (trace r) /\ In EvMainLoopQuit (trace r))).
Proof.
  intros w pid status s r cleared. subst r.
  rewrite exited_callback_run. cbv zeta.
  destruct (restart_dockerd s) eqn:Hr.
  - (* a restart is pending *)
    assert (Hc : set_restart false
                   (mkState (if negb (g_spawn_check_exit_status status)
                             then -1 else exit_code s) (-1) true (loop_quit s))
                 = cleared).
    { subst cleared. destruct (g_spawn_check_exit_status status); reflexivity. }
    rewrite Hc. set (a := read_settings_and_start_dockerd w cleared).
    pose proof (read_settings_and_start_restart_flag w cleared) as Hflag.
    fold a in Hflag. cbn [restart_dockerd cleared] in Hflag.
    destruct (result a) eqn:Ha; cbn [final trace fst snd].
    + destruct (read_settings_and_start_success w cleared Ha) as (He & Hq & Hnq).
      fold a in He, Hq, Hnq.
      split; [|split; [discriminate|]].
      * intro Hab. rewrite Hab. cbn [negb app]. split; [|right; left; reflexivity].
        rewrite He. subst cleared. rewrite Hab. reflexivity.
      * intros _. split; [exact Hflag|]. split; [|split; [|discriminate]].
        -- eexists. exists []. rewrite app_nil_r. split; [reflexivity|].
           split; [|reflexivity].
           destruct (g_spawn_check_exit_status status); reflexivity.
        -- intros _. split; [reflexivity|].
           apply (not_In_of_existsb is_quit); [|reflexivity].
           rewrite existsb_app, Hnq, orb_false_r.
           destruct (g_spawn_check_exit_status status); reflexivity.
    + split; [|split; [discriminate|]].
      * intros _. split; [reflexivity|].
        apply in_or_app. right. apply in_or_app. right. left. reflexivity.
      * intros _. split; [exact Hflag|]. split; [|split; [discriminate|]].
        -- eexists. eexists. split; [reflexivity|]. split; [|reflexivity].
           destruct (g_spawn_check_exit_status status); reflexivity.
        -- intros _. repeat split.
           ++ apply in_or_app. right. apply in_or_app. right. left. reflexivity.
           ++ apply in_or_app. right. apply in_or_app. right. right. left.
              reflexivity.
  - (* no restart is pending *)
    cbn [final trace fst snd]. split; [|split; [|discriminate]].
    + intro Hab. rewrite Hab. cbn [negb app]. split; [reflexivity|].
      right. left. reflexivity.
    + intros _. split; [|split].
      * subst cleared. destruct (g_spawn_check_exit_status status); reflexivity.
      * apply in_or_app. right. left. reflexivity.
      * destruct (g_spawn_check_exit_status status); reflexivity.
Qed.

(** Membership in a trace given as appended and consed pieces. *)
Ltac find_in :=
  first [ left; reflexivity
        | right; find_in
        | apply in_or_app; first [ left; find_in | right; find_in ] ].

(** What the relaunch inside the callback does, from the state with the pid
    and the flag cleared. *)
Lemma child_exit_relaunch :
  forall (w : World) (pid status : Z) (s : State),
    restart_dockerd s = true ->
    let r := dockerd_process_exited_callback w pid status s in
    let cleared :=
      mkState (if g_spawn_check_exit_status status then exit_code s else -1)
              (-1) false (loop_quit s) in
    let a := read_settings_and_start_dockerd w cleared in
    let rs := read_settings w (mkSettings None false false) cleared in
    (result a = false ->
     final r = set_loop_quit true (set_exit_code (-1) (final a))) /\
    (fst (result rs) = false ->
     result a = false /\ final a = cleared /\ spawned (trace r) = []) /\
    (fst (result rs) = true ->
     let argv := argv_by_parts (snd (result rs)) in
     dockerd_argv (snd (result rs)) = Some argv /\
     spawned (trace r) = [argv] /\
     (g_spawn_async w argv = None -> result a = false /\ final a = cleared) /\
     (forall p, g_spawn_async w argv = Some p ->
                dockerd_process_pid (final r) = p /\
                In (EvChildWatchAdd p) (trace r) /\
                (result a = true <->
                 waitpid_WNOHANG w p <> -1 /\ waitpid_WNOHANG w p <> p) /\
                (result a = true -> final a = set_pid p cleared))).
Proof.
  intros w pid status s Hr r cleared a rs. subst r.
  rewrite exited_callback_run. cbv zeta. rewrite Hr.
  assert (Hc : set_restart false
                 (mkState (if negb (g_spawn_check_exit_status status)
                           then -1 else exit_code s) (-1) true (loop_quit s))
               = cleared).
  { subst cleared. destruct (g_spawn_check_exit_status status); reflexivity. }
  rewrite Hc. fold a.
  assert (Hpre : spawned
                   ((if negb (g_spawn_check_exit_status status)
                     then [exited_log status; EvExitCode (-1)] else [])
                      ++ [EvSpawnClosePid pid; EvRemove "/var/run/docker.pid"])
                 = []).
  { destruct (g_spawn_check_exit_status status); reflexivity. }
  destruct (read_settings_resolver w (mkSettings None false false) cleared)
    as [_ Hev]. fold rs in Hev.
  pose proof (resolver_events_spawn_nothing _ Hev) as Hrs.
  assert (Ha : a = read_settings_and_start_dockerd w cleared) by reflexivity.
  rewrite launch_run in Ha. cbv zeta in Ha. fold rs in Ha.
  split; [|split].
  - intro Hf. rewrite Hf. reflexivity.
  - intro Hn. rewrite Hn in Ha. rewrite Ha. cbn [result final trace fst snd].
    split; [reflexivity|]. split; [reflexivity|].
    rewrite spawned_app, Hpre, ?spawned_app, Hrs. reflexivity.
  - intro Hy. rewrite Hy in Ha. cbv zeta.
    split.
    { apply (validated_argv w cleared). subst rs.
      destruct (result (read_settings w _ cleared)) as [ok st].
      cbn [fst snd] in *. rewrite Hy. reflexivity. }
    unfold spawn_outcome in Ha.
    destruct (g_spawn_async w (argv_by_parts (snd (result rs)))) as [p|].
    + destruct (waitpid_WNOHANG w p =? -1) eqn:H1;
        [|destruct (waitpid_WNOHANG w p =? p) eqn:H2];
        cbn [orb] in Ha; rewrite Ha; cbn [result final trace fst snd];
        (split; [rewrite spawned_app, Hpre, ?spawned_app, Hrs; reflexivity|]);
        (split; [discriminate|]);
        intros q Hq; inversion Hq; subst q;
        (split; [reflexivity|]);
        (split; [find_in|]).
      * split; [|discriminate]. split; [discriminate|].
        intros [Hn _]. apply Z.eqb_eq in H1. contradiction.
      * split; [|discriminate]. split; [discriminate|].
        intros [_ Hn]. apply Z.eqb_eq in H2. contradiction.
      * split; [|reflexivity]. split; [|reflexivity].
        intros _. apply Z.eqb_neq in H1, H2. auto.
    + rewrite Ha; cbn [result final trace fst snd].
      split; [rewrite spawned_app, Hpre, ?spawned_app, Hrs; reflexivity|].
      split; [intros _; split; reflexivity|discriminate].
Qed.

(** C4.  [dockerd_process_exited_callback] on any notification: an exit
    status other than a normal exit with code 0 records -1, whichever branch
    follows.  With the restart flag unset the callback ends with the pid
    cleared and the loop asked to quit, and spawns nothing.  With the flag
    set it clears the flag and runs [read_settings_and_start_dockerd] from a
    state whose pid is cleared; when that succeeds the callback ends in the
    state the launch left and asks for no loop exit, and when it fails the
    callback records -1 and asks the loop to quit, from the state the launch
    left.  The launch reads the settings; when they do not validate nothing
    is spawned and the pid stays cleared; when they do, the vector built
    from them is spawned, once: a refused spawn leaves the pid cleared, and
    a spawned child is tracked and watched, the launch succeeding exactly
    when the liveness probe answers neither -1 nor the child's pid. *)
Theorem child_exit_handling :
  forall (w : World) (pid status : Z) (s : State),
    let r := dockerd_process_exited_callback w pid status s in
    let cleared :=
      mkState (if g_spawn_check_exit_status status then exit_code s else -1)
              (-1) false (loop_quit s) in
    (g_spawn_check_exit_status status = false ->
     exit_code (final r) = -1 /\ In (EvExitCode (-1)) (trace r)) /\
    (restart_dockerd s = false ->
     final r = set_loop_quit true cleared /\
     In EvMainLoopQuit (trace r) /\
     existsb is_spawn (trace r) = false) /\
    (restart_dockerd s = true ->
     let a := read_settings_and_start_dockerd w cleared in
     let rs := read_settings w (mkSettings None false false) cleared in
     restart_dockerd (final r) = false /\
     (exists pre post,
         trace r = (pre ++ trace a ++ post)%list /\
         existsb is_spawn pre = false /\ existsb is_spawn post = false) /\
     (result a = true -> final r = final a /\ ~ In EvMainLoopQuit (trace r)) /\
     (result a = false ->
      exit_code (final r) = -1 /\ loop_quit (final r) = true /\
      In (EvExitCode (-1)) (trace r) /\ In EvMainLoopQuit (trace r) /\
      final r = set_loop_quit true (set_exit_code (-1) (final a))) /\
     (fst (result rs) = false ->
      result a = false /\ final a = cleared /\
      dockerd_process_pid (final r) = -1 /\ spawned (trace r) = []) /\
     (fst (result rs) = true ->
      let argv := argv_by_parts (snd (result rs)) in
      dockerd_argv (snd (result rs)) = Some argv /\
      spawned (trace r) = [argv] /\
      (g_spawn_async w argv = None ->
       result a = false /\ final a = cleared /\
       dockerd_process_pid (final r) = -1) /\
      (forall p, g_spawn_async w argv = Some p ->
                 dockerd_process_pid (final r) = p /\
                 In (EvChildWatchAdd p) (trace r) /\
                 (result a = true <->
                  waitpid_WNOHANG w p <> -1 /\ waitpid_WNOHANG w p <> p) /\
                 (result a = true -> final a = set_pid p cleared)))).
Proof.
  intros w pid status s r cleared.
  destruct (child_exit_branches w pid status s) as (Hstatus & Hstop & Hrestart).
  fold r cleared in Hstatus, Hstop, Hrestart.
  split; [exact Hstatus|]. split; [exact Hstop|].
  intros Hr a rs.
  destruct (Hrestart Hr) as (Hflag & Htrace & Hok & Hfail).
  fold a in Htrace, Hok, Hfail.
  destruct (child_exit_relaunch w pid status s Hr) as (Hfin & Hno & Hyes).
  fold r cleared a rs in Hfin, Hno, Hyes.
  split; [exact Hflag|]. split; [exact Htrace|]. split; [exact Hok|].
  split; [|split].
  - intro Ha. destruct (Hfail Ha) as (H1 & H2 & H3 & H4).
    repeat split; auto.
  - intro Hn. destruct (Hno Hn) as (Ha & Hfa & Hsp).
    split; [exact Ha|]. split; [exact Hfa|]. split; [|exact Hsp].
    rewrite (Hfin Ha), Hfa. reflexivity.
  - intro Hy. destruct (Hyes Hy) as (Hargv & Hsp & Hnone & Hsome).
    split; [exact Hargv|]. split; [exact Hsp|]. split; [|exact Hsome].
    intro Hn. destruct (Hnone Hn) as (Ha & Hfa).
    split; [exact Ha|]. split; [exact Hfa|].
    rewrite (Hfin Ha), Hfa. reflexivity.
Qed.

(** A pending restart whose relaunch is refused because a certificate is
    missing: the pid ends cleared, -1 is recorded and the loop is asked to
    quit. *)
Example run_relaunch_refused :
  let r := dockerd_process_exited_callback tls_without_key 4711 0
             (set_restart true running) in
  final r = mkState (-1) (-1) false true /\
  spawned (trace r) = [] /\
  In tls_missing_log (trace r).
Proof. vm_compute. repeat split. auto 20. Qed.

(** ** The exit code *)

#[local] Instance exit_code_rule_closed : Closed exit_code_rule.
Proof.
  split.
  - intro s. split; [intros v []|reflexivity].
  - intros s t1 s1 t2 s2 [H1 E1] [H2 E2]. split.
    + intros v Hin. apply in_app_or in Hin. destruct Hin; auto.
    + rewrite existsb_app, E2, E1.
      destruct (existsb is_exit_code t1), (existsb is_exit_code t2); reflexivity.
Qed.

Lemma assign_failure_rule : respects exit_code_rule (assign_exit_code (-1)).
Proof.
  intro s. split; [|reflexivity].
  intros v [H|[]]. inversion H. reflexivity.
Qed.

(** Settles the primitive steps that do not write the exit code. *)
Ltac exit_code_base :=
  first
    [ apply assign_failure_rule
    | intro; split;
      [ let H := fresh in intros ? H; cbn in H;
        repeat (destruct H as [H|H]; [discriminate H|]); contradiction
      | reflexivity ] ].

Lemma stop_dockerd_exit_code (w : World) : respects exit_code_rule (stop_dockerd w).
Proof.
  unfold stop_dockerd, sleep, kill_ok, syslog.
  respects_with exit_code_base.
Qed.

Lemma read_settings_exit_code (w : World) (st : settings) :
  respects exit_code_rule (read_settings w st).
Proof.
  intro s. pose proof (read_settings_resolver w st s) as [Hs Ht].
  rewrite Hs. split.
  - intros v Hin. rewrite forallb_forall in Ht. apply Ht in Hin. discriminate.
  - rewrite (resolver_events_lack is_exit_code _
               (fun e He => ltac:(destruct e; try discriminate; reflexivity)) Ht).
    reflexivity.
Qed.

Lemma start_dockerd_exit_code (w : World) (st : settings) :
  respects exit_code_rule (start_dockerd w st).
Proof.
  unfold start_dockerd, is_process_alive, g_main_loop_quit, syslog.
  respects_with exit_code_base.
Qed.

Lemma read_settings_and_start_exit_code (w : World) :
  respects exit_code_rule (read_settings_and_start_dockerd w).
Proof.
  unfold read_settings_and_start_dockerd.
  respects_with ltac:(first [apply read_settings_exit_code
                            |apply start_dockerd_exit_code|exit_code_base]).
Qed.

Lemma exited_callback_exit_code (w : World) (pid status : Z) :
  respects exit_code_rule (dockerd_process_exited_callback w pid status).
Proof.
  unfold dockerd_process_exited_callback, g_main_loop_quit, syslog.
  respects_with ltac:(first [apply read_settings_and_start_exit_code
                            |exit_code_base]).
Qed.

Lemma mark_restart_exit_code (parname value : string) (keys : list string) :
  respects exit_code_rule (mark_restart parname value keys).
Proof.
  induction keys as [|k keys IH]; cbn [mark_restart]; unfold syslog;
    respects_with ltac:(first [apply IH|exit_code_base]).
Qed.

Lemma parameter_changed_exit_code (w : World) (name value : string) :
  respects exit_code_rule (parameter_changed_callback w name value).
Proof.
  unfold parameter_changed_callback, syslog.
  respects_with ltac:(first [apply mark_restart_exit_code
                            |apply stop_dockerd_exit_code|exit_code_base]).
Qed.

Lemma handle_signals_exit_code (n : Z) : respects exit_code_rule (handle_signals n).
Proof.
  unfold handle_signals, g_main_loop_quit.
  respects_with exit_code_base.
Qed.

Lemma dispatch_exit_code (e : LoopEvent) : respects exit_code_rule (dispatch e).
Proof.
  destruct e; cbn [dispatch].
  - apply handle_signals_exit_code.
  - apply exited_callback_exit_code.
  - apply parameter_changed_exit_code.
Qed.

Lemma serve_exit_code (events : list LoopEvent) : respects exit_code_rule (serve events).
Proof.
  induction events as [|e events IH]; cbn [serve];
    respects_with ltac:(first [apply IH|apply dispatch_exit_code|exit_code_base]).
Qed.

Lemma register_callbacks_exit_code (w : World) (keys : list string) :
  respects exit_code_rule (register_callbacks w keys).
Proof.
  induction keys as [|k keys IH]; cbn [register_callbacks]; unfold syslog;
    respects_with ltac:(first [apply IH|exit_code_base]).
Qed.

Lemma unregister_callbacks_exit_code (keys : list string) :
  respects exit_code_rule (unregister_callbacks keys).
Proof.
  induction keys as [|k keys IH]; cbn [unregister_callbacks];
    respects_with ltac:(first [apply IH|exit_code_base]).
Qed.

Lemma main_end_exit_code (w : World) (b : bool) :
  respects exit_code_rule (main_end w b).
Proof.
  unfold main_end, syslog.
  respects_with ltac:(first [apply stop_dockerd_exit_code
                            |apply unregister_callbacks_exit_code
                            |exit_code_base]).
Qed.

Lemma main_body_exit_code (w0 : World) (events : list LoopEvent) (wend : World) :
  respects exit_code_rule (main_body w0 events wend).
Proof.
  unfold main_body, setup_axparameter, g_main_loop_run, syslog.
  respects_with ltac:(first [apply register_callbacks_exit_code
                            |apply read_settings_and_start_exit_code
                            |apply serve_exit_code
                            |apply main_end_exit_code
                            |exit_code_base]).
Qed.

Ltac binds := repeat (rewrite result_bind || rewrite final_bind).

Lemma main_end_returns_exit_code (w : World) (b : bool) (s : State) :
  result (main_end w b s) = exit_code (final (main_end w b s)).
Proof. unfold main_end. binds. reflexivity. Qed.

Lemma main_body_returns_exit_code
  (w0 : World) (events : list LoopEvent) (wend : World) (s : State) (code : Z) :
  result (main_body w0 events wend s) = Some code ->
  code = exit_code (final (main_body w0 events wend s)).
Proof.
  unfold main_body. binds.
  destruct (result (setup_axparameter w0 _)); cbn [negb]; binds.
  - destruct (result (read_settings_and_start_dockerd w0 _)); cbn [negb]; binds.
    + destruct (result (g_main_loop_run events _)); [|discriminate]. binds.
      rewrite main_end_returns_exit_code.
      intro H. inversion H. reflexivity.
    + rewrite main_end_returns_exit_code.
      intro H. inversion H. reflexivity.
  - rewrite main_end_returns_exit_code.
    intro H. inversion H. reflexivity.
Qed.

Lemma rule_keeps_failure {A : Type} (m : M A) (s : State) :
  respects exit_code_rule m -> exit_code s = -1 -> exit_code (final (m s)) = -1.
Proof.
  intros Hm Hs. destruct (Hm s) as [_ E]. rewrite E, Hs.
  destruct (existsb is_exit_code (trace (m s))); reflexivity.
Qed.

(** C10.  [main] starts by writing 0 into the exit code; every later write, by
    whichever path, writes -1; [main] returns 0 or -1, and it returns a
    non-zero code exactly when such a write happened.  Once the exit code is
    -1, no callback, no signal, no launch and no stop changes it. *)
Theorem exit_code_only_records_failure :
  forall (w0 : World) (events : list LoopEvent) (wend : World) (s : State),
    let r := main w0 events wend s in
    (exists later,
        trace r = EvExitCode 0 :: later /\
        (forall v, In (EvExitCode v) later -> v = -1) /\
        (forall code, result r = Some code ->
                      (code = 0 \/ code = -1) /\
                      (code <> 0 <-> In (EvExitCode (-1)) later))) /\
    (forall e s1, exit_code s1 = -1 -> exit_code (final (dispatch e s1)) = -1) /\
    (forall w s1, exit_code s1 = -1 ->
                  exit_code (final (read_settings_and_start_dockerd w s1)) = -1) /\
    (forall w s1, exit_code s1 = -1 -> exit_code (final (stop_dockerd w s1)) = -1).
Proof.
  intros w0 events wend s r. split; [|split; [|split]].
  - subst r. unfold main.
    rewrite trace_bind, result_bind.
    change (trace (assign_exit_code 0 s)) with [EvExitCode 0].
    change (final (assign_exit_code 0 s)) with (set_exit_code 0 s).
    set (s0 := set_exit_code 0 s).
    set (b := main_body w0 events wend s0).
    destruct (main_body_exit_code w0 events wend s0) as [Hall Hend].
    fold b in Hall, Hend. change (exit_code s0) with 0 in Hend.
    exists (trace b). split; [reflexivity|]. split; [exact Hall|].
    intros code Hcode.
    apply main_body_returns_exit_code in Hcode. fold b in Hcode.
    rewrite Hcode, Hend.
    destruct (existsb is_exit_code (trace b)) eqn:Hex.
    + split; [right; reflexivity|]. split; [|discriminate].
      intros _. apply existsb_exists in Hex. destruct Hex as (e & Hin & He).
      destruct e; try discriminate He.
      rewrite <- (Hall v Hin). exact Hin.
    + split; [left; reflexivity|]. split; [intro H; contradiction H; reflexivity|].
      intro Hin. pose proof (existsb_false_not_In _ _ Hex _ Hin) as Hf.
      discriminate Hf.
  - intros e s1. apply rule_keeps_failure, dispatch_exit_code.
  - intros w s1. apply rule_keeps_failure, read_settings_and_start_exit_code.
  - intros w s1. apply rule_keeps_failure, stop_dockerd_exit_code.
Qed.


(** ** Whole runs *)

(** Start-up with nothing selected, then SIGTERM: dockerd is spawned once on
    port 2375; at shutdown it is sent SIGTERM and, although its exit ends the
    wait after two seconds, SIGKILL as well; [main] returns 0. *)
Example run_start_then_sigterm :
  let r := main unsecured [Signal OnSIGTERM] unsecured initial_state in
  result r = Some 0 /\
  filter is_spawn (trace r)
  = [EvSpawn ["dockerd"; "--config-file";
              "/usr/local/packages/dockerdwrapperwithcompose/localdata/daemon.json";
              "-H"; "tcp://0.0.0.0:2375"; "--tls=false"]] /\
  filter (fun e => match e with EvKill _ _ | EvSleep _ _ => true | _ => false end)
         (trace r)
  = [EvKill 4712 SIGTERM; EvSleep 10 2; EvKill 4712 SIGKILL].
Proof. vm_compute. repeat split. Qed.

(** A change of UseTLS, the exit of the stopped dockerd, then SIGTERM: two
    spawns, the second with the TLS block on port 2376. *)
Example run_use_tls_toggled :
  let r := main unsecured
             [ParameterChanged unsecured use_tls_changed "yes";
              ChildExited all_selected 4712 0;
              Signal OnSIGTERM]
             unsecured initial_state in
  result r = Some 0 /\
  filter is_spawn (trace r)
  = [EvSpawn (argv_by_parts (mkSettings None false false));
     EvSpawn (argv_by_parts all_settings)].
Proof. vm_compute. repeat split. Qed.

(** dockerd exits with code 1 while no restart is pending: the loop ends,
    nothing is spawned again and [main] returns -1. *)
Example run_dockerd_crashes :
  let r := main unsecured [ChildExited unsecured 4712 256] unsecured initial_state in
  result r = Some (-1) /\
  List.length (filter is_spawn (trace r)) = 1%nat.
Proof. vm_compute. repeat split. Qed.

(** With no event at all the loop keeps waiting and [main] does not return. *)
Example run_keeps_waiting :
  result (main unsecured [] unsecured initial_state) = None.
Proof. vm_compute. reflexivity. Qed.


(** * Further properties of the code *)

(** ** Strings *)

Lemma append_nil_r (s : string) : (s ++ EmptyString)%string = s.
Proof. induction s as [|c s IH]; cbn; [reflexivity|rewrite IH; reflexivity]. Qed.

Lemma append_assoc (a b c : string) : ((a ++ b) ++ c)%string = (a ++ b ++ c)%string.
Proof. induction a as [|x a IH]; cbn; [reflexivity|rewrite IH; reflexivity]. Qed.

Lemma length_append (a b : string) :
  String.length (a ++ b) = (String.length a + String.length b)%nat.
Proof. induction a as [|x a IH]; cbn; [reflexivity|rewrite IH; reflexivity]. Qed.

Lemma substring_0_length (n : nat) (s : string) :
  (String.length (substring 0 n s) <= n)%nat.
Proof.
  revert s. induction n as [|n IH]; intro s; destruct s as [|c s]; cbn; try lia.
  specialize (IH s). lia.
Qed.

Lemma substring_0_all (n : nat) (s : string) :
  (String.length s <= n)%nat -> substring 0 n s = s.
Proof.
  revert s. induction n as [|n IH]; intro s; destruct s as [|c s]; cbn;
    intro H; try reflexivity; try lia.
  rewrite IH; [reflexivity|lia].
Qed.

Lemma space_free_append (a b : string) :
  space_free (a ++ b) = space_free a && space_free b.
Proof.
  induction a as [|c a IH]; cbn; [reflexivity|].
  rewrite IH, andb_assoc. reflexivity.
Qed.

Lemma prefix_nil (s : string) : prefix EmptyString s = true.
Proof. destruct s; reflexivity. Qed.

(** ** Splitting at spaces *)

Lemma split_from_space (cur s : string) :
  split_from " " 0 cur (String " " s) = cur :: split_from " " 0 EmptyString s.
Proof. cbn. rewrite prefix_nil. reflexivity. Qed.

Lemma split_from_other (c : ascii) (cur s : string) :
  Ascii.eqb c " " = false ->
  split_from " " 0 cur (String c s) = split_from " " 0 (cur ++ String c EmptyString) s.
Proof.
  intro Hc. cbn [split_from prefix].
  destruct (ascii_dec " " c) as [E|E]; [|reflexivity].
  subst c. discriminate Hc.
Qed.

Lemma split_from_not_nil (cur s : string) : split_from " " 0 cur s <> [].
Proof.
  revert cur. induction s as [|c s IH]; intro cur; [discriminate|].
  destruct (Ascii.eqb c " ") eqn:Hc.
  - apply Ascii.eqb_eq in Hc. subst c. rewrite split_from_space. discriminate.
  - rewrite (split_from_other c cur s Hc). apply IH.
Qed.

(** Joining the tokens with single spaces gives the string back. *)
Lemma concat_split_from (cur s : string) :
  concat " " (split_from " " 0 cur s) = (cur ++ s)%string.
Proof.
  revert cur. induction s as [|c s IH]; intro cur.
  - cbn. rewrite append_nil_r. reflexivity.
  - destruct (Ascii.eqb c " ") eqn:Hc.
    + apply Ascii.eqb_eq in Hc. subst c. rewrite split_from_space.
      pose proof (split_from_not_nil EmptyString s) as Hn.
      specialize (IH EmptyString).
      destruct (split_from " " 0 EmptyString s) as [|t ts]; [contradiction|].
      change (concat " " (cur :: t :: ts))
        with (cur ++ " " ++ concat " " (t :: ts))%string.
      rewrite IH. reflexivity.
    + rewrite (split_from_other c cur s Hc), IH, append_assoc. reflexivity.
Qed.

Lemma split_from_space_free (cur s : string) :
  space_free cur = true ->
  forallb space_free (split_from " " 0 cur s) = true.
Proof.
  revert cur. induction s as [|c s IH]; intros cur Hcur.
  - cbn. rewrite Hcur. reflexivity.
  - destruct (Ascii.eqb c " ") eqn:Hc.
    + apply Ascii.eqb_eq in Hc. subst c. rewrite split_from_space.
      cbn [forallb]. rewrite Hcur, IH; reflexivity.
    + rewrite (split_from_other c cur s Hc). apply IH.
      rewrite space_free_append, Hcur. cbn. rewrite Hc. reflexivity.
Qed.

(** A token without a space is passed over as a whole. *)
Lemma split_from_token (t cur rest : string) :
  space_free t = true ->
  split_from " " 0 cur (t ++ rest) = split_from " " 0 (cur ++ t) rest.
Proof.
  revert cur. induction t as [|c t IH]; intros cur Ht.
  - cbn. rewrite append_nil_r. reflexivity.
  - cbn [space_free] in Ht. apply andb_true_iff in Ht. destruct Ht as [Hc Ht].
    apply negb_true_iff in Hc.
    change (String c t ++ rest)%string with (String c (t ++ rest)).
    rewrite (split_from_other c cur _ Hc), (IH _ Ht), append_assoc. reflexivity.
Qed.

(** Splitting what was joined from tokens without spaces gives the tokens. *)
Lemma split_from_concat (t : string) (ts : list string) (cur : string) :
  forallb space_free (t :: ts) = true ->
  split_from " " 0 cur (concat " " (t :: ts)) = ((cur ++ t)%string :: ts).
Proof.
  revert t cur. induction ts as [|t2 ts IH]; intros t cur Hsf.
  - cbn [concat]. cbn [forallb] in Hsf. rewrite andb_true_r in Hsf.
    rewrite <- (append_nil_r t) at 1.
    rewrite (split_from_token t cur EmptyString Hsf). reflexivity.
  - cbn [forallb] in Hsf. apply andb_true_iff in Hsf. destruct Hsf as [Ht Hts].
    change (concat " " (t :: t2 :: ts))
      with (t ++ String " " (concat " " (t2 :: ts)))%string.
    rewrite (split_from_token t cur _ Ht), split_from_space, (IH t2 EmptyString Hts).
    reflexivity.
Qed.

Lemma g_strsplit_concat (ts : list string) :
  forallb space_free ts = true ->
  concat " " ts <> EmptyString ->
  g_strsplit (concat " " ts) " " = ts.
Proof.
  intros Hsf Hne. destruct ts as [|t ts]; [contradiction Hne; reflexivity|].
  unfold g_strsplit.
  pose proof (split_from_concat t ts EmptyString Hsf) as H.
  destruct (concat " " (t :: ts)); [contradiction Hne; reflexivity|exact H].
Qed.

(** ** The argument buffer *)

(** A store that fits appends the whole expansion. *)
Lemma snprintf_fits (args : string) (off : Z) (f : string) :
  off = Z.of_nat (String.length args) ->
  off + Z.of_nat (String.length f) < args_len ->
  g_snprintf_at args off f
  = Some ((args ++ f)%string, off + Z.of_nat (String.length f)).
Proof.
  intros Hoff Hfit. unfold g_snprintf_at, args_len in *.
  assert (Hle : (off <=? 1024) = true) by (apply Z.leb_le; lia).
  rewrite Hle.
  rewrite (Z.mod_small (1024 - off)) by lia.
  assert (Hnz : (1024 - off =? 0) = false) by (apply Z.eqb_neq; lia).
  rewrite Hnz.
  rewrite (Z.mod_small (off + _)) by lia.
  rewrite (substring_0_all (Z.to_nat off) args) by lia.
  rewrite (substring_0_all _ f) by lia.
  reflexivity.
Qed.

(** A store is inside the buffer exactly when the offset has not passed its
    end. *)
Lemma snprintf_defined (args : string) (off : Z) (f : string) :
  g_snprintf_at args off f = None <-> args_len < off.
Proof.
  unfold g_snprintf_at. destruct (off <=? args_len) eqn:H.
  - apply Z.leb_le in H. split; [discriminate|lia].
  - apply Z.leb_gt in H. split; [intros _; exact H|reflexivity].
Qed.

(** No store makes the string longer than the buffer allows. *)
Lemma snprintf_bound (args : string) (off : Z) (f : string) (a : string * Z) :
  (String.length args <= 1023)%nat ->
  0 <= off ->
  g_snprintf_at args off f = Some a ->
  (String.length (fst a) <= 1023)%nat /\ 0 <= snd a < 2 ^ 32.
Proof.
  intros Hargs Hoff. unfold g_snprintf_at, args_len.
  destruct (off <=? 1024) eqn:Hle; [|discriminate].
  apply Z.leb_le in Hle. intro H. inversion H. cbn [fst snd].
  split; [|apply Z.mod_pos_bound; lia].
  rewrite (Z.mod_small (1024 - off)) by lia.
  destruct (1024 - off =? 0) eqn:Hz; [exact Hargs|].
  apply Z.eqb_neq in Hz.
  rewrite length_append.
  pose proof (substring_0_length (Z.to_nat off) args).
  pose proof (substring_0_length (Z.to_nat (1024 - off - 1)) f).
  lia.
Qed.

(** The offset after a store is the offset before it plus the length of the
    whole expansion. *)
Lemma snprintf_offset (args : string) (off : Z) (f : string) (a : string * Z) :
  g_snprintf_at args off f = Some a ->
  snd a = (off + Z.of_nat (String.length f)) mod 2 ^ 32.
Proof.
  unfold g_snprintf_at. destruct (off <=? args_len); [|discriminate].
  intro H. inversion H. reflexivity.
Qed.

Lemma dockerd_args_ipc (st : settings) :
  dockerd_args st =
  if use_ipc_socket st
  then match args_before_ipc st with
       | Some a2 => g_snprintf_at (fst a2) (snd a2) " -H unix:///var/run/docker.sock"
       | None => None
       end
  else args_before_ipc st.
Proof.
  destruct st as [dr tls ipc]. unfold args_before_ipc, dockerd_args.
  cbn [data_root use_tls use_ipc_socket]. cbv zeta.
  destruct (g_snprintf_at EmptyString 0 _) as [a0|]; [|destruct ipc; reflexivity].
  destruct (if tls then _ else _) as [a1|]; [|destruct ipc; reflexivity].
  destruct dr as [d|].
  - destruct (g_snprintf_at (fst a1) (snd a1) _) as [a2|]; destruct ipc; reflexivity.
  - destruct ipc; reflexivity.
Qed.

(** The stores before the one for the IPC socket all start inside the buffer,
    and leave the offset at the length of the whole expansion. *)
Lemma args_before_ipc_defined (st : settings) :
  match data_root st with
  | Some d => Z.of_nat (String.length d) < 2 ^ 31
  | None => True
  end ->
  exists args,
    args_before_ipc st
    = Some (args, joined_length (mkSettings (data_root st) (use_tls st) false)).
Proof.
  destruct st as [[d|] tls ipc]; unfold args_before_ipc;
    cbn [data_root use_tls use_ipc_socket]; intro Hd.
  - unfold dockerd_args. cbn [data_root use_tls use_ipc_socket]. cbv zeta.
    rewrite (snprintf_fits EmptyString) by (vm_compute; reflexivity).
    cbn [fst snd].
    destruct tls.
    + rewrite (snprintf_fits (append _ _)) by (vm_compute; reflexivity).
      cbn [fst snd].
      destruct (g_snprintf_at _ _ (" --data-root " ++ d)) as [[args off]|] eqn:E.
      * apply snprintf_offset in E. cbn [snd] in E. exists args. f_equal. f_equal.
        rewrite E. unfold joined_length, argv_by_parts.
        cbn [data_root use_tls use_ipc_socket app concat].
        rewrite !length_append. cbn [String.length].
        rewrite Z.mod_small; lia.
      * apply snprintf_defined in E. vm_compute in E. discriminate E.
    + rewrite (snprintf_fits (append _ _)) by (vm_compute; reflexivity).
      cbn [fst snd].
      destruct (g_snprintf_at _ _ (" --data-root " ++ d)) as [[args off]|] eqn:E.
      * apply snprintf_offset in E. cbn [snd] in E. exists args. f_equal. f_equal.
        rewrite E. unfold joined_length, argv_by_parts.
        cbn [data_root use_tls use_ipc_socket app concat].
        rewrite !length_append. cbn [String.length].
        rewrite Z.mod_small; lia.
      * apply snprintf_defined in E. vm_compute in E. discriminate E.
  - destruct tls; eexists; vm_compute; reflexivity.
Qed.

Lemma dockerd_args_bound (st : settings) (a : string * Z) :
  dockerd_args st = Some a ->
  (String.length (fst a) <= 1023)%nat /\ 0 <= snd a < 2 ^ 32.
Proof.
  unfold dockerd_args. cbv zeta.
  destruct (g_snprintf_at EmptyString 0 _) as [a0|] eqn:E0; [|discriminate].
  apply snprintf_bound in E0; [|cbn; lia|lia].
  destruct (if use_tls st then _ else _) as [a1|] eqn:E1; [|discriminate].
  assert (H1 : (String.length (fst a1) <= 1023)%nat /\ 0 <= snd a1 < 2 ^ 32).
  { destruct (use_tls st); apply snprintf_bound in E1; (exact E1 || lia). }
  destruct (match data_root st with Some d => _ | None => Some a1 end)
    as [a2|] eqn:E2; [|discriminate].
  assert (H2 : (String.length (fst a2) <= 1023)%nat /\ 0 <= snd a2 < 2 ^ 32).
  { destruct (data_root st).
    - apply snprintf_bound in E2; (exact E2 || lia).
    - inversion E2. subst a2. exact H1. }
  destruct (use_ipc_socket st).
  - intro E3. apply snprintf_bound in E3; (exact E3 || lia).
  - intro E3. inversion E3. subst a. exact H2.
Qed.

(** When the data root leaves room, the string in [args] is the parts joined
    by single spaces. *)
Lemma dockerd_args_joined (st : settings) :
  match data_root st with
  | Some d => (String.length d <= 600)%nat
  | None => True
  end ->
  option_map fst (dockerd_args st) = Some (concat " " (argv_by_parts st)).
Proof.
  destruct st as [[d|] tls ipc]; cbn [data_root]; intro Hlen.
  - unfold dockerd_args, argv_by_parts.
    cbn [use_tls data_root use_ipc_socket]. cbv zeta.
    rewrite (snprintf_fits EmptyString) by (vm_compute; reflexivity).
    cbn [fst snd].
    destruct tls, ipc;
      repeat (rewrite (snprintf_fits (append _ _))
                by (unfold args_len; rewrite ?length_append;
                    cbn [String.length]; lia);
              cbn [fst snd]);
      reflexivity.
  - destruct tls, ipc; vm_compute; reflexivity.
Qed.

(** X1.  The start-up line stays within its 128-byte buffer for any settings.
    Whenever every store into [args] starts inside the buffer, the string
    built there stays within its 1024 bytes (terminator included) and the
    offset stays a 32-bit unsigned.  Without the IPC socket every store
    starts inside the buffer, however long the data root; so it does with the
    IPC socket and no data root.  With the IPC socket and a data root, the
    last store lies outside the buffer exactly when the arguments before it,
    joined by single spaces, are longer than 1024 characters; a data root of
    900 characters is enough.  The settings [read_settings] validates never
    lead there. *)
Theorem start_dockerd_buffers_hold :
  forall st : settings,
    (String.length (dockerd_msg st) <= 127)%nat /\
    (forall args off,
        dockerd_args st = Some (args, off) ->
        (String.length args <= 1023)%nat /\ 0 <= off < 2 ^ 32) /\
    (match data_root st with
     | Some d => Z.of_nat (String.length d) < 2 ^ 31
     | None => True
     end ->
     (dockerd_args st = None <->
      use_ipc_socket st = true /\
      args_len < joined_length (mkSettings (data_root st) (use_tls st) false))) /\
    (data_root st = None -> dockerd_args st <> None) /\
    (forall d,
        data_root st = Some d -> String.length d = 900%nat ->
        use_ipc_socket st = true ->
        dockerd_args st = None) /\
    (dockerd_args st = None ->
     forall w s, In EvUndefined (trace (start_dockerd w st s))) /\
    (forall w s,
        result (read_settings w (mkSettings None false false) s) = (true, st) ->
        dockerd_args st <> None /\
        ~ In EvUndefined (trace (read_settings_and_start_dockerd w s))).
Proof.
  intro st.
  assert (Hiff :
    match data_root st with
    | Some d => Z.of_nat (String.length d) < 2 ^ 31
    | None => True
    end ->
    (dockerd_args st = None <->
     use_ipc_socket st = true /\
     args_len < joined_length (mkSettings (data_root st) (use_tls st) false))).
  { intro Hd. destruct (args_before_ipc_defined st Hd) as [args Ha].
    rewrite dockerd_args_ipc, Ha. cbn [fst snd].
    destruct (use_ipc_socket st).
    - rewrite snprintf_defined. split; [intro H; split; [reflexivity|exact H]|].
      intros [_ H]. exact H.
    - split; [discriminate|]. intros [H _]. discriminate H. }
  assert (Hnone : data_root st = None -> dockerd_args st <> None).
  { intros Hn Habs. destruct st as [dr tls ipc]. cbn [data_root] in Hn. subst dr.
    destruct tls, ipc; vm_compute in Habs; discriminate Habs. }
  split; [|split; [|split; [exact Hiff|split; [exact Hnone|split; [|split]]]]].
  - unfold dockerd_msg, g_strlcat, msg_len. cbv zeta.
    destruct (use_ipc_socket st); apply (substring_0_length (Z.to_nat (128 - 1))).
  - intros args off H. apply (dockerd_args_bound st (args, off) H).
  - intros d Hd Hlen Hipc.
    apply Hiff.
    + rewrite Hd, Hlen. vm_compute. reflexivity.
    + split; [exact Hipc|].
      rewrite Hd. unfold joined_length, argv_by_parts.
      cbn [data_root use_tls use_ipc_socket].
      destruct (use_tls st); cbn [app concat];
        rewrite !length_append; cbn [String.length];
        rewrite ?length_append, Hlen; cbn [String.length];
        unfold args_len; lia.
  - intros Hno w s. rewrite start_dockerd_run. unfold dockerd_argv. rewrite Hno.
    left. reflexivity.
  - intros w s Hv.
    pose proof (validated_argv w s st Hv) as Hargv.
    split.
    + intro Habs. unfold dockerd_argv in Hargv. rewrite Habs in Hargv.
      discriminate Hargv.
    + pose proof (read_settings_and_start_run w s) as H. cbv zeta in H.
      rewrite H, Hv. cbn [fst snd result trace].
      rewrite start_dockerd_run, Hargv.
      intro Hin. apply in_app_or in Hin. destruct Hin as [Hin|Hin].
      * destruct (read_settings_resolver w (mkSettings None false false) s)
          as [_ Hres].
        rewrite forallb_forall in Hres. specialize (Hres _ Hin).
        discriminate Hres.
      * unfold spawn_outcome in Hin.
        destruct (g_spawn_async w _) as [pid|];
          [destruct ((waitpid_WNOHANG w pid =? -1)
                     || (waitpid_WNOHANG w pid =? pid))|];
          cbn in Hin; intuition discriminate.
Qed.

(** ** The vector *)

(** A space ends the token before it, whatever follows. *)
Lemma split_from_app (a b cur : string) :
  split_from " " 0 cur (a ++ String " " b)
  = (split_from " " 0 cur a ++ split_from " " 0 EmptyString b)%list.
Proof.
  revert cur. induction a as [|c a IH]; intro cur.
  - change (EmptyString ++ String " " b)%string with (String " " b).
    rewrite split_from_space. reflexivity.
  - change (String c a ++ String " " b)%string with (String c (a ++ String " " b)).
    destruct (Ascii.eqb c " ") eqn:Hc.
    + apply Ascii.eqb_eq in Hc. subst c. rewrite !split_from_space, IH.
      reflexivity.
    + rewrite !(split_from_other c) by exact Hc. apply IH.
Qed.

Lemma concat_app_cons (t : string) (pre : list string) (x : string)
      (post : list string) :
  concat " " ((t :: pre) ++ x :: post)
  = (concat " " (t :: pre) ++ " " ++ concat " " (x :: post))%string.
Proof.
  revert t. induction pre as [|p pre IH]; intro t.
  - reflexivity.
  - change (concat " " ((t :: p :: pre) ++ x :: post))
      with (t ++ " " ++ concat " " ((p :: pre) ++ x :: post))%string.
    change (concat " " (t :: p :: pre))
      with (t ++ " " ++ concat " " (p :: pre))%string.
    rewrite IH, !append_assoc. reflexivity.
Qed.

(** Splitting a joined list of which one element may contain spaces: that
    element is cut at its spaces and the others come back whole. *)
Lemma g_strsplit_around (t : string) (pre : list string) (d : string)
      (post : list string) :
  forallb space_free (t :: pre) = true ->
  forallb space_free post = true ->
  g_strsplit (concat " " ((t :: pre) ++ d :: post)) " "
  = ((t :: pre) ++ split_from " " 0 EmptyString d ++ post)%list.
Proof.
  intros Hpre Hpost. rewrite concat_app_cons.
  assert (Hs : forall a b, g_strsplit (a ++ String " " b) " "
                           = split_from " " 0 EmptyString (a ++ String " " b)).
  { intros a b. destruct a; reflexivity. }
  change (" " ++ concat " " (d :: post))%string
    with (String " " (concat " " (d :: post))).
  rewrite Hs, split_from_app, (split_from_concat t pre EmptyString Hpre).
  f_equal.
  destruct post as [|p post].
  - cbn [concat]. rewrite app_nil_r. reflexivity.
  - change (concat " " (d :: p :: post))
      with (d ++ String " " (concat " " (p :: post)))%string.
    rewrite split_from_app, (split_from_concat p post EmptyString Hpost).
    reflexivity.
Qed.

Lemma space_free_not_In (d : string) (l : list string) :
  forallb space_free l = true -> space_free d = false -> ~ In d l.
Proof.
  intros Hl Hd Hin. rewrite forallb_forall in Hl. rewrite (Hl d Hin) in Hd.
  discriminate Hd.
Qed.

Ltac split_around d tls ipc :=
  exact (g_strsplit_around
           "dockerd"
           (tl (argv_by_parts (mkSettings None tls false) ++ ["--data-root"]))%list
           d
           (if ipc then ["-H"; "unix:///var/run/docker.sock"] else [])
           eq_refl eq_refl).

(** X2.  A data root that leaves room in [args] reaches dockerd cut at its
    spaces: the vector handed to [g_spawn_async] is the command, the
    config-file flag, the TLS or plain block, [--data-root], then the pieces
    of the data root between its spaces, one argument each, then the
    unix-socket bind when selected.  No argument contains a space, so a data
    root with a space is not among the arguments and the vector is not the
    one with the data root as a single argument. *)
Theorem dockerd_argv_splits_at_every_space :
  forall (d : string) (tls ipc : bool),
    (String.length d <= 600)%nat ->
    exists pieces argv,
      concat " " pieces = d /\
      pieces <> [] /\
      forallb space_free pieces = true /\
      dockerd_argv (mkSettings (Some d) tls ipc) = Some argv /\
      argv = (argv_by_parts (mkSettings None tls false)
                ++ ["--data-root"] ++ pieces
                ++ (if ipc then ["-H"; "unix:///var/run/docker.sock"] else []))%list /\
      forallb space_free argv = true /\
      (space_free d = false ->
       ~ In d argv /\ argv <> argv_by_parts (mkSettings (Some d) tls ipc)).
Proof.
  intros d tls ipc Hlen.
  set (pieces := split_from " " 0 EmptyString d).
  assert (Hcat : concat " " pieces = d) by apply (concat_split_from EmptyString).
  assert (Hsf : forallb space_free pieces = true)
    by (apply split_from_space_free; reflexivity).
  set (argv := (argv_by_parts (mkSettings None tls false)
                  ++ ["--data-root"] ++ pieces
                  ++ (if ipc then ["-H"; "unix:///var/run/docker.sock"] else []))%list).
  assert (Hall : forallb space_free argv = true).
  { subst argv. rewrite !forallb_app, Hsf. destruct tls, ipc; reflexivity. }
  exists pieces, argv.
  split; [exact Hcat|]. split; [apply split_from_not_nil|]. split; [exact Hsf|].
  split; [|split; [reflexivity|split; [exact Hall|]]].
  - pose proof (dockerd_args_joined (mkSettings (Some d) tls ipc) Hlen) as Hj.
    unfold dockerd_argv.
    destruct (dockerd_args (mkSettings (Some d) tls ipc)) as [a|];
      [|discriminate Hj].
    cbn [option_map] in Hj. injection Hj as Ha. rewrite Ha. f_equal.
    subst argv pieces.
    destruct tls, ipc;
      [ split_around d true true | split_around d true false
      | split_around d false true | split_around d false false ].
  - intro Hd. split; [apply space_free_not_In; assumption|].
    intro Heq. apply (space_free_not_In d argv Hall Hd).
    rewrite Heq. unfold argv_by_parts. cbn [data_root use_tls use_ipc_socket].
    apply in_or_app. right. apply in_or_app. right. apply in_or_app. left.
    right. left. reflexivity.
Qed.

Lemma dockerd_argv_splits_at_every_space_witness :
  exists pieces argv,
    concat " " pieces = "/mnt/my disk/docker" /\
    pieces <> [] /\
    forallb space_free pieces = true /\
    dockerd_argv (mkSettings (Some "/mnt/my disk/docker") false true) = Some argv /\
    argv = (argv_by_parts (mkSettings None false false)
              ++ ["--data-root"] ++ pieces
              ++ ["-H"; "unix:///var/run/docker.sock"])%list /\
    forallb space_free argv = true /\
    (space_free "/mnt/my disk/docker" = false ->
     ~ In "/mnt/my disk/docker" argv /\
     argv <> argv_by_parts (mkSettings (Some "/mnt/my disk/docker") false true)).
Proof.
  apply (dockerd_argv_splits_at_every_space "/mnt/my disk/docker" false true).
  vm_compute. lia.
Defined.

(** X3.  For any settings whose data root, if set, has no space and at most
    600 characters, validated or not, the vector handed to [g_spawn_async] is
    the command, the config-file flag, the TLS or plain block, [--data-root]
    with the path when set, and the unix-socket bind when selected. *)
Theorem dockerd_argv_by_parts :
  forall st : settings,
    match data_root st with
    | Some d => space_free d = true /\ (String.length d <= 600)%nat
    | None => True
    end ->
    dockerd_argv st = Some (argv_by_parts st).
Proof.
  intros st Hd. unfold dockerd_argv.
  assert (Hj : option_map fst (dockerd_args st) = Some (concat " " (argv_by_parts st))).
  { apply dockerd_args_joined. destruct (data_root st); [apply Hd|exact I]. }
  destruct (dockerd_args st) as [a|]; [|discriminate Hj].
  cbn [option_map] in Hj.
  assert (Ha : fst a = concat " " (argv_by_parts st)) by congruence.
  rewrite Ha. f_equal.
  apply g_strsplit_concat.
  - destruct st as [[d|] tls ipc]; cbn [data_root] in Hd;
      unfold argv_by_parts; cbn [use_tls data_root use_ipc_socket].
    + destruct Hd as [Hsf _].
      destruct tls, ipc; cbn; rewrite Hsf; reflexivity.
    + destruct tls, ipc; reflexivity.
  - destruct st as [dr tls ipc]. unfold argv_by_parts. discriminate.
Qed.

Lemma dockerd_argv_by_parts_witness :
  dockerd_argv (mkSettings (Some "/mnt/flash/docker") false true)
  = Some (argv_by_parts (mkSettings (Some "/mnt/flash/docker") false true)).
Proof.
  apply (dockerd_argv_by_parts (mkSettings (Some "/mnt/flash/docker") false true)).
  split; [reflexivity|vm_compute; lia].
Defined.

(** ** Reading parameters and the file system *)

Lemma is_parameter_yes_result (w : World) (name : string) (s : State) :
  result (is_parameter_yes w name s) =
  ax_parameter_new_ok w &&
  match ax_parameter_get w name with
  | Some v => (v =? "yes")%string
  | None => false
  end.
Proof.
  unfold is_parameter_yes, get_parameter_value, syslog, bind, emit, ret.
  destruct (ax_parameter_new_ok w); [|reflexivity].
  destruct (ax_parameter_get w name); reflexivity.
Qed.

(** X4.  A parameter reads as yes exactly when the parameter handle could be
    created and the stored value is the string yes; a value that is missing
    or is any other string reads as no, and reading never changes a global. *)
Theorem parameter_is_yes_only_for_yes :
  forall (w : World) (name : string) (s : State),
    (result (is_parameter_yes w name s) = true <->
     ax_parameter_new_ok w = true /\ ax_parameter_get w name = Some "yes") /\
    (forall v, ax_parameter_get w name = Some v -> v <> "yes" ->
               result (is_parameter_yes w name s) = false) /\
    (ax_parameter_get w name = None ->
     result (is_parameter_yes w name s) = false) /\
    final (is_parameter_yes w name s) = s.
Proof.
  intros w name s. rewrite is_parameter_yes_result.
  split; [|split; [|split]].
  - split.
    + intro H. apply andb_true_iff in H. destruct H as [Hn Hv].
      split; [exact Hn|].
      destruct (ax_parameter_get w name) as [v|]; [|discriminate].
      apply String.eqb_eq in Hv. rewrite Hv. reflexivity.
    + intros [-> ->]. reflexivity.
  - intros v -> Hv. apply String.eqb_neq in Hv. rewrite Hv.
    apply andb_false_r.
  - intros ->. apply andb_false_r.
  - apply is_parameter_yes_final.
Qed.

(** The mount [find_mount] picks is the first one on the device. *)
Lemma find_mount_first (w : World) (dev : Z) (mounts : list mntent) (fs : string) :
  find_mount w dev mounts = Some fs <->
  exists pre mnt post,
    mounts = (pre ++ mnt :: post)%list /\
    stat_dev w (mnt_dir mnt) = Some dev /\
    mnt_type mnt = fs /\
    forall m, In m pre -> stat_dev w (mnt_dir m) <> Some dev.
Proof.
  induction mounts as [|m mounts IH]; cbn [find_mount].
  - split; [discriminate|].
    intros (pre & mnt & post & H & _). destruct pre; discriminate H.
  - destruct (stat_dev w (mnt_dir m)) as [d|] eqn:Hm.
    + destruct (d =? dev) eqn:Hd.
      * apply Z.eqb_eq in Hd. subst d. split.
        -- intro H. inversion H. exists [], m, mounts.
           repeat split; auto; intros x [].
        -- intros (pre & mnt & post & Hl & Hs & Ht & Hpre).
           destruct pre as [|p pre]; cbn in Hl; inversion Hl; subst.
           ++ reflexivity.
           ++ exfalso. apply (Hpre p); [left; reflexivity|exact Hm].
      * apply Z.eqb_neq in Hd. rewrite IH. split.
        -- intros (pre & mnt & post & Hl & Hs & Ht & Hpre).
           exists (m :: pre), mnt, post. subst mounts. repeat split; auto.
           intros x [<-|Hx]; [rewrite Hm; congruence|apply Hpre, Hx].
        -- intros (pre & mnt & post & Hl & Hs & Ht & Hpre).
           destruct pre as [|p pre]; cbn in Hl; inversion Hl; subst.
           ++ rewrite Hm in Hs. congruence.
           ++ exists pre, mnt, post. repeat split; auto.
              intros x Hx. apply Hpre. right. exact Hx.
    + rewrite IH. split.
      * intros (pre & mnt & post & Hl & Hs & Ht & Hpre).
        exists (m :: pre), mnt, post. subst mounts. repeat split; auto.
        intros x [<-|Hx]; [rewrite Hm; discriminate|apply Hpre, Hx].
      * intros (pre & mnt & post & Hl & Hs & Ht & Hpre).
        destruct pre as [|p pre]; cbn in Hl; inversion Hl; subst.
        -- rewrite Hm in Hs. discriminate.
        -- exists pre, mnt, post. repeat split; auto.
           intros x Hx. apply Hpre. right. exact Hx.
Qed.

Lemma get_filesystem_result (w : World) (path : string) (s : State) :
  result (get_filesystem_of_path w path s) =
  match stat_dev w path, proc_mounts w with
  | Some dev, Some mounts => find_mount w dev mounts
  | _, _ => None
  end.
Proof.
  unfold get_filesystem_of_path, syslog, bind, emit, ret.
  destruct (stat_dev w path); [destruct (proc_mounts w)|]; reflexivity.
Qed.

(** X5.  [get_filesystem_of_path] answers with a file system type exactly
    when the path can be stat'ed, the mount table can be read, and some
    mount directory lies on the path's device; the answer is the type of the
    first such line of the table, lines whose directory cannot be stat'ed
    being passed over. *)
Theorem filesystem_is_that_of_first_mount_on_device :
  forall (w : World) (path : string) (s : State) (fs : string),
    result (get_filesystem_of_path w path s) = Some fs <->
    exists dev mounts pre mnt post,
      stat_dev w path = Some dev /\
      proc_mounts w = Some mounts /\
      mounts = (pre ++ mnt :: post)%list /\
      stat_dev w (mnt_dir mnt) = Some dev /\
      mnt_type mnt = fs /\
      forall m, In m pre -> stat_dev w (mnt_dir m) <> Some dev.
Proof.
  intros w path s fs. rewrite get_filesystem_result. split.
  - destruct (stat_dev w path) as [dev|]; [|discriminate].
    destruct (proc_mounts w) as [mounts|]; [|discriminate].
    intro H. apply find_mount_first in H.
    destruct H as (pre & mnt & post & H).
    exists dev, mounts, pre, mnt, post. tauto.
  - intros (dev & mounts & pre & mnt & post & -> & -> & H).
    apply find_mount_first. exists pre, mnt, post. exact H.
Qed.

Lemma setup_sdcard_result (w : World) (d : string) (s : State) :
  result (setup_sdcard w d s) =
  (system w ("mkdir -p " ++ d) =? 0) &&
  match result (get_filesystem_of_path w d s) with
  | Some fs =>
      negb ((fs =? "vfat")%string || (fs =? "exfat")%string) &&
      negb (access_F_OK w d && negb (access_W_OK w d))
  | None => false
  end.
Proof.
  unfold setup_sdcard. cbv zeta.
  rewrite result_bind.
  change (final (emit (EvSystem ("mkdir -p " ++ d)) s)) with s.
  destruct (system w ("mkdir -p " ++ d) =? 0); cbn [negb andb]; [|reflexivity].
  rewrite result_bind, get_filesystem_final.
  destruct (result (get_filesystem_of_path w d s)) as [fs|]; [|reflexivity].
  destruct ((fs =? "vfat")%string || (fs =? "exfat")%string); [reflexivity|].
  destruct (access_F_OK w d && negb (access_W_OK w d)); reflexivity.
Qed.

(** X6.  [setup_sdcard] succeeds exactly when [mkdir -p] returned 0, the file
    system of the data root could be identified and is neither vfat nor
    exfat, and the data root, if it exists, is writable. *)
Theorem setup_sdcard_succeeds_iff :
  forall (w : World) (d : string) (s : State),
    result (setup_sdcard w d s) = true <->
    system w ("mkdir -p " ++ d) = 0 /\
    (exists fs, result (get_filesystem_of_path w d s) = Some fs /\
                fs <> "vfat" /\ fs <> "exfat") /\
    (access_F_OK w d = true -> access_W_OK w d = true).
Proof.
  intros w d s. rewrite setup_sdcard_result. split.
  - intro H. apply andb_true_iff in H. destruct H as [Hsys H].
    apply Z.eqb_eq in Hsys. split; [exact Hsys|].
    destruct (result (get_filesystem_of_path w d s)) as [fs|]; [|discriminate].
    apply andb_true_iff in H. destruct H as [Hfs Hacc].
    apply negb_true_iff, orb_false_iff in Hfs. destruct Hfs as [Hv He].
    apply String.eqb_neq in Hv, He. split.
    + exists fs. auto.
    + intro Hf. rewrite Hf in Hacc. cbn in Hacc.
      destruct (access_W_OK w d); [reflexivity|discriminate].
  - intros (Hsys & (fs & Hfs & Hv & He) & Hacc).
    rewrite Hsys, Hfs. apply String.eqb_neq in Hv, He. rewrite Hv, He.
    cbn. destruct (access_F_OK w d); [|reflexivity].
    rewrite Hacc; reflexivity.
Qed.

(** ** The resolver as a whole *)

Ltac resolver_cases w s :=
  rewrite read_settings_run; cbv zeta;
  rewrite sd_card_selection_run, tls_selection_run; cbv zeta;
  destruct (result (is_parameter_yes w "SDCardSupport" s));
  destruct (result (is_parameter_yes w "UseTLS" s));
  destruct (result (setup_sdcard w sd_data_root s));
  destruct (access_F_OK w ca_path), (access_F_OK w cert_path),
    (access_F_OK w key_path);
  cbn [result fst snd andb orb negb].

Lemma read_settings_verdict (w : World) (st0 : settings) (s : State) :
  fst (result (read_settings w st0 s)) =
  (negb (result (is_parameter_yes w "SDCardSupport" s))
   || result (setup_sdcard w sd_data_root s))
  && (negb (result (is_parameter_yes w "UseTLS" s))
      || (access_F_OK w ca_path && access_F_OK w cert_path
          && access_F_OK w key_path)).
Proof. resolver_cases w s; reflexivity. Qed.

Lemma read_settings_snapshot (w : World) (st0 : settings) (s : State) :
  fst (result (read_settings w st0 s)) = true ->
  snd (result (read_settings w st0 s)) =
  mkSettings (if result (is_parameter_yes w "SDCardSupport" s)
              then Some sd_data_root else None)
             (result (is_parameter_yes w "UseTLS" s))
             (result (is_parameter_yes w "IPCSocket" s)).
Proof. resolver_cases w s; intro H; try discriminate H; reflexivity. Qed.

(** X7.  [read_settings] succeeds exactly when the SD card, if selected, could
    be set up and the three certificates, if TLS is selected, all exist.  The
    settings of a success hold the SD card data root exactly when the SD card
    is selected, hold the TLS and IPC selections as read, and no global has
    changed. *)
Theorem read_settings_succeeds_iff :
  forall (w : World) (st0 : settings) (s : State),
    let r := read_settings w st0 s in
    let sd := result (is_parameter_yes w "SDCardSupport" s) in
    let tls := result (is_parameter_yes w "UseTLS" s) in
    let ipc := result (is_parameter_yes w "IPCSocket" s) in
    (fst (result r) = true <->
     (sd = true ->
      result (setup_sdcard w "/var/spool/storage/SD_DISK/dockerd/data" s) = true) /\
     (tls = true ->
      access_F_OK w "/usr/local/packages/dockerdwrapperwithcompose/ca.pem" = true /\
      access_F_OK w "/usr/local/packages/dockerdwrapperwithcompose/server-cert.pem" = true /\
      access_F_OK w "/usr/local/packages/dockerdwrapperwithcompose/server-key.pem" = true)) /\
    (fst (result r) = true ->
     snd (result r) =
     mkSettings (if sd then Some "/var/spool/storage/SD_DISK/dockerd/data" else None)
                tls ipc) /\
    final r = s.
Proof.
  intros w st0 s r sd tls ipc.
  split; [|split; [apply read_settings_snapshot|apply read_settings_final]].
  subst r. rewrite read_settings_verdict. fold sd tls.
  change sd_data_root with "/var/spool/storage/SD_DISK/dockerd/data".
  change ca_path with "/usr/local/packages/dockerdwrapperwithcompose/ca.pem".
  change cert_path
    with "/usr/local/packages/dockerdwrapperwithcompose/server-cert.pem".
  change key_path
    with "/usr/local/packages/dockerdwrapperwithcompose/server-key.pem".
  rewrite andb_true_iff, !orb_true_iff, !andb_true_iff, !negb_true_iff.
  split.
  - intros [Hsd Htls]. split.
    + intro H. destruct Hsd as [Hsd|Hsd]; [congruence|exact Hsd].
    + intro H. destruct Htls as [Htls|Htls]; [congruence|tauto].
  - intros [Hsd Htls]. split.
    + destruct sd; [right; apply Hsd; reflexivity|left; reflexivity].
    + destruct tls; [right|left; reflexivity].
      destruct (Htls eq_refl) as (? & ? & ?). auto.
Qed.

(** ** The launcher, case by case *)

(** X8.  Once the vector is built, [start_dockerd] succeeds exactly when the
    spawn succeeded and the liveness probe on the new pid returned neither -1
    nor that pid; it then tracks the new pid and watches it.  A failed spawn
    records nothing: no exit code, no loop exit, and the tracked pid is as
    before.  A child found dead by the probe records -1 and asks the loop to
    quit, and its pid stays tracked.  In each case exactly one spawn is
    attempted, with that vector. *)
Theorem start_dockerd_outcomes :
  forall (w : World) (st : settings) (s : State) (argv : list string),
    dockerd_argv st = Some argv ->
    let r := start_dockerd w st s in
    (result r = true <->
     exists pid, g_spawn_async w argv = Some pid /\
                 waitpid_WNOHANG w pid <> -1 /\ waitpid_WNOHANG w pid <> pid) /\
    (forall pid, g_spawn_async w argv = Some pid ->
                 dockerd_process_pid (final r) = pid /\
                 In (EvChildWatchAdd pid) (trace r) /\
                 (result r = true -> final r = set_pid pid s) /\
                 (result r = false ->
                  exit_code (final r) = -1 /\ loop_quit (final r) = true /\
                  In EvMainLoopQuit (trace r))) /\
    (g_spawn_async w argv = None ->
     result r = false /\ final r = s /\
     existsb is_quit (trace r) = false /\ existsb is_exit_code (trace r) = false) /\
    count_spawns (trace r) = 1%nat /\
    spawned (trace r) = [argv].
Proof.
  intros w st s argv Hargv r. subst r. rewrite start_dockerd_run, Hargv.
  unfold spawn_outcome.
  destruct (g_spawn_async w argv) as [pid|].
  - destruct (waitpid_WNOHANG w pid =? -1) eqn:H1;
      [|destruct (waitpid_WNOHANG w pid =? pid) eqn:H2];
      cbn [orb result final trace fst snd];
      (split; [|split; [|split; [discriminate|split; reflexivity]]]).
    + split; [discriminate|].
      intros (p & Hp & Hn & _). inversion Hp; subst p.
      apply Z.eqb_eq in H1. contradiction.
    + intros p Hp. inversion Hp; subst p.
      repeat split; try discriminate; cbn; auto 8.
    + split; [discriminate|].
      intros (p & Hp & _ & Hn). inversion Hp; subst p.
      apply Z.eqb_eq in H2. contradiction.
    + intros p Hp. inversion Hp; subst p.
      repeat split; try discriminate; cbn; auto 8.
    + split; [|reflexivity]. intros _. exists pid.
      apply Z.eqb_neq in H1, H2. auto.
    + intros p Hp. inversion Hp; subst p.
      repeat split; try discriminate; cbn; auto 8.
  - cbn [result final trace fst snd].
    split; [|split; [discriminate|split; [|split; reflexivity]]].
    + split; [discriminate|]. intros (p & Hp & _). discriminate Hp.
    + intros _. repeat split.
Qed.

Lemma start_dockerd_outcomes_witness :
  let argv := ["dockerd"; "--config-file";
               "/usr/local/packages/dockerdwrapperwithcompose/localdata/daemon.json";
               "-H"; "tcp://0.0.0.0:2375"; "--tls=false"] in
  let r := start_dockerd unsecured (mkSettings None false false) initial_state in
  (result r = true <->
   exists pid, g_spawn_async unsecured argv = Some pid /\
               waitpid_WNOHANG unsecured pid <> -1 /\
               waitpid_WNOHANG unsecured pid <> pid) /\
  (forall pid, g_spawn_async unsecured argv = Some pid ->
               dockerd_process_pid (final r) = pid /\
               In (EvChildWatchAdd pid) (trace r) /\
               (result r = true -> final r = set_pid pid initial_state) /\
               (result r = false ->
                exit_code (final r) = -1 /\ loop_quit (final r) = true /\
                In EvMainLoopQuit (trace r))) /\
  (g_spawn_async unsecured argv = None ->
   result r = false /\ final r = initial_state /\
   existsb is_quit (trace r) = false /\ existsb is_exit_code (trace r) = false) /\
  count_spawns (trace r) = 1%nat /\
  spawned (trace r) = [argv].
Proof.
  apply (start_dockerd_outcomes unsecured (mkSettings None false false)
           initial_state).
  reflexivity.
Defined.

(** ** The exit status *)

Lemma checked_below (P : Z -> bool) (n : nat) :
  forallb P (map Z.of_nat (seq 0 n)) = true ->
  forall z, 0 <= z < Z.of_nat n -> P z = true.
Proof.
  intros H z Hz. rewrite forallb_forall in H. apply H.
  apply in_map_iff. exists (Z.to_nat z). split; [lia|].
  apply in_seq. lia.
Qed.

(** X9.  With no restart pending, the child-exit callback leaves the exit
    code as it was exactly for a normal exit with code 0: an exit with a code
    from 1 to 255, and a death by any signal from 1 to 126, with or without a
    core dump, each set it to -1. *)
Theorem child_exit_status_decides_exit_code :
  forall (w : World) (pid : Z) (s : State),
    restart_dockerd s = false ->
    (forall code, 0 <= code <= 255 ->
       exit_code (final (dockerd_process_exited_callback w pid (code * 256) s))
       = if code =? 0 then exit_code s else -1) /\
    (forall sig core, 1 <= sig <= 126 -> core = 0 \/ core = 128 ->
       exit_code (final (dockerd_process_exited_callback w pid (sig + core) s)) = -1).
Proof.
  intros w pid s Hr. split.
  - intros code Hc. rewrite exited_callback_run. cbv zeta. rewrite Hr.
    cbn [final fst snd set_loop_quit exit_code].
    assert (H : g_spawn_check_exit_status (code * 256) = (code =? 0)).
    { apply Bool.eqb_prop.
      apply (checked_below
               (fun c => Bool.eqb (g_spawn_check_exit_status (c * 256)) (c =? 0))
               256); [vm_compute; reflexivity|lia]. }
    rewrite H. destruct (code =? 0); reflexivity.
  - intros sig core Hs Hc. rewrite exited_callback_run. cbv zeta. rewrite Hr.
    cbn [final fst snd set_loop_quit exit_code].
    assert (H : g_spawn_check_exit_status (sig + core) = false).
    { destruct Hc as [-> | ->].
      - apply negb_true_iff.
        pose proof (checked_below
                      (fun c => negb (g_spawn_check_exit_status (c + 1 + 0)))
                      126 eq_refl (sig - 1) ltac:(lia)) as Hs'.
        cbv beta in Hs'.
        replace (sig - 1 + 1 + 0) with (sig + 0) in Hs' by lia. exact Hs'.
      - apply negb_true_iff.
        pose proof (checked_below
                      (fun c => negb (g_spawn_check_exit_status (c + 1 + 128)))
                      126 eq_refl (sig - 1) ltac:(lia)) as Hs'.
        cbv beta in Hs'.
        replace (sig - 1 + 1 + 128) with (sig + 128) in Hs' by lia. exact Hs'. }
    rewrite H. reflexivity.
Qed.

Lemma child_exit_status_decides_exit_code_witness :
  (forall code, 0 <= code <= 255 ->
     exit_code (final (dockerd_process_exited_callback barren 4711 (code * 256) running))
     = if code =? 0 then exit_code running else -1) /\
  (forall sig core, 1 <= sig <= 126 -> core = 0 \/ core = 128 ->
     exit_code (final (dockerd_process_exited_callback barren 4711 (sig + core) running))
     = -1).
Proof.
  apply (child_exit_status_decides_exit_code barren 4711 running).
  reflexivity.
Defined.

(** ** Runs that spawn nothing *)

Lemma count_spawns_app (t1 t2 : list Event) :
  count_spawns (t1 ++ t2) = (count_spawns t1 + count_spawns t2)%nat.
Proof. unfold count_spawns. rewrite filter_app, length_app. reflexivity. Qed.

Lemma count_spawns_zero (t : list Event) :
  existsb is_spawn t = false -> count_spawns t = 0%nat.
Proof.
  unfold count_spawns. induction t as [|e t IH]; [reflexivity|].
  cbn [existsb filter]. intro H. apply orb_false_iff in H. destruct H as [He Ht].
  rewrite He. apply IH, Ht.
Qed.

#[local] Instance no_spawn_rule_closed : Closed no_spawn_rule.
Proof.
  split.
  - intro s. split; reflexivity.
  - intros s t1 s1 t2 s2 [H1 F1] [H2 F2]. split.
    + rewrite count_spawns_app, H1, H2. reflexivity.
    + rewrite F2, F1. reflexivity.
Qed.

Ltac no_spawn_base := intro; split; reflexivity.

Lemma stop_dockerd_no_spawn (w : World) : respects no_spawn_rule (stop_dockerd w).
Proof.
  unfold stop_dockerd, sleep, kill_ok, syslog.
  respects_with no_spawn_base.
Qed.

Lemma read_settings_no_spawn (w : World) (st : settings) :
  respects no_spawn_rule (read_settings w st).
Proof.
  intro s. destruct (read_settings_resolver w st s) as [Hs Ht]. rewrite Hs.
  split; [|reflexivity].
  apply count_spawns_zero, resolver_event_not_spawn, Ht.
Qed.

Lemma handle_signals_no_spawn (n : Z) : respects no_spawn_rule (handle_signals n).
Proof.
  unfold handle_signals, g_main_loop_quit.
  respects_with no_spawn_base.
Qed.

Lemma register_callbacks_no_spawn (w : World) (keys : list string) :
  respects no_spawn_rule (register_callbacks w keys).
Proof.
  induction keys as [|k keys IH]; cbn [register_callbacks]; unfold syslog;
    respects_with ltac:(first [apply IH|no_spawn_base]).
Qed.

Lemma setup_axparameter_no_spawn (w : World) :
  respects no_spawn_rule (setup_axparameter w).
Proof.
  unfold setup_axparameter, syslog.
  respects_with ltac:(first [apply register_callbacks_no_spawn|no_spawn_base]).
Qed.

Lemma unregister_callbacks_no_spawn (keys : list string) :
  respects no_spawn_rule (unregister_callbacks keys).
Proof.
  induction keys as [|k keys IH]; cbn [unregister_callbacks];
    respects_with ltac:(first [apply IH|no_spawn_base]).
Qed.

Lemma main_end_no_spawn (w : World) (b : bool) :
  respects no_spawn_rule (main_end w b).
Proof.
  unfold main_end, syslog.
  respects_with ltac:(first [apply stop_dockerd_no_spawn
                            |apply unregister_callbacks_no_spawn
                            |no_spawn_base]).
Qed.

Lemma marks_no_spawn (value : string) (keys : list string) :
  count_spawns (map (changed_log value) keys) = 0%nat.
Proof. induction keys as [|k keys IH]; [reflexivity|exact IH]. Qed.

(** A notification spawns nothing; it sets the restart flag for a watched
    key and leaves it alone otherwise. *)
Lemma parameter_changed_marks (w : World) (name value : string) (s : State) :
  count_spawns (trace (parameter_changed_callback w name value s)) = 0%nat /\
  restart_dockerd (final (parameter_changed_callback w name value s))
  = restart_dockerd s || existsb (String.eqb (strip_prefix name)) ax_parameters.
Proof.
  rewrite parameter_changed_run. cbv zeta.
  set (watched := existsb (String.eqb (strip_prefix name)) ax_parameters).
  set (s1 := if watched then set_restart true s else s).
  destruct (stop_dockerd_no_spawn w s1) as [Hn Hf].
  assert (Hs1 : restart_dockerd s1 = restart_dockerd s || watched).
  { subst s1. destruct watched; cbn; [rewrite orb_true_r|rewrite orb_false_r];
      reflexivity. }
  destruct (result (stop_dockerd w s1)); cbn [final trace fst snd];
    rewrite ?count_spawns_app, marks_no_spawn, Hn; cbn [set_exit_code restart_dockerd];
    rewrite Hf, Hs1; split; reflexivity.
Qed.

(** ** Names of parameters *)

Lemma substring_skip (p k : string) (m : nat) :
  substring (String.length p) m (p ++ k) = substring 0 m k.
Proof. induction p as [|c p IH]; cbn; [reflexivity|exact IH]. Qed.

Lemma strip_prefix_path (k : string) : strip_prefix (parameter_path k) = k.
Proof.
  unfold strip_prefix.
  change (parameter_path k) with (parameter_prefix ++ k)%string.
  rewrite substring_skip, length_append.
  apply substring_0_all. lia.
Qed.

Lemma register_callbacks_registered (w : World) (keys : list string) (s : State) :
  result (register_callbacks w keys s) = true ->
  registered (trace (register_callbacks w keys s)) = map parameter_path keys.
Proof.
  revert s. induction keys as [|k keys IH]; intro s; [reflexivity|].
  cbn [register_callbacks]. cbv zeta. fold (parameter_path k).
  rewrite result_bind, trace_bind.
  change (final (emit (EvRegisterCallback (parameter_path k)) s)) with s.
  change (trace (emit (EvRegisterCallback (parameter_path k)) s))
    with [EvRegisterCallback (parameter_path k)].
  destruct (ax_parameter_register_callback w (parameter_path k)).
  - intro H. cbn [app registered flat_map map]. f_equal. apply IH, H.
  - discriminate.
Qed.

(** X10.  Removing the prefix from the path a key is registered under gives
    the key back.  So for each of the three keys, the callback invoked with
    the path [setup_axparameter] registered logs the change, sets the restart
    flag whatever it was, and spawns nothing itself. *)
Theorem registered_path_marks_restart :
  forall (w : World) (k value : string) (s : State),
    In k ax_parameters ->
    let r := parameter_changed_callback w (parameter_path k) value s in
    strip_prefix (parameter_path k) = k /\
    (forall w' s', result (setup_axparameter w' s') = true ->
                   In (parameter_path k) (registered (trace (setup_axparameter w' s')))) /\
    restart_dockerd (final r) = true /\
    In (changed_log value k) (trace r) /\
    count_spawns (trace r) = 0%nat.
Proof.
  intros w k value s Hk r.
  assert (Hw : existsb (String.eqb k) ax_parameters = true).
  { apply existsb_exists. exists k. split; [exact Hk|apply String.eqb_refl]. }
  split; [apply strip_prefix_path|]. split; [|split; [|split]].
  - intros w' s'. unfold setup_axparameter.
    destruct (ax_parameter_new_ok w'); [|discriminate].
    intro H. rewrite (register_callbacks_registered w' _ s' H).
    apply in_map, Hk.
  - subst r. destruct (parameter_changed_marks w (parameter_path k) value s) as [_ H].
    rewrite H, strip_prefix_path, Hw. apply orb_true_r.
  - subst r. rewrite parameter_changed_run. cbv zeta. rewrite strip_prefix_path.
    assert (Hin : In (changed_log value k)
                     (map (changed_log value) (filter (String.eqb k) ax_parameters))).
    { apply in_map, filter_In. split; [exact Hk|apply String.eqb_refl]. }
    destruct (result (stop_dockerd w _)); cbn [trace snd];
      apply in_or_app; left; exact Hin.
  - apply parameter_changed_marks.
Qed.

Lemma registered_path_marks_restart_witness :
  let r := parameter_changed_callback barren (parameter_path "SDCardSupport")
             "yes" running in
  strip_prefix (parameter_path "SDCardSupport") = "SDCardSupport" /\
  (forall w' s', result (setup_axparameter w' s') = true ->
                 In (parameter_path "SDCardSupport")
                    (registered (trace (setup_axparameter w' s')))) /\
  restart_dockerd (final r) = true /\
  In (changed_log "yes" "SDCardSupport") (trace r) /\
  count_spawns (trace r) = 0%nat.
Proof.
  apply (registered_path_marks_restart barren "SDCardSupport" "yes" running).
  right. left. reflexivity.
Defined.

(** ** What a stop can do *)

Lemma wait_length_bound (w : World) : 0 <= wait_length w 10 <= 10.
Proof.
  unfold wait_length. destruct (sleep_interrupt w) as [t|]; [|lia].
  destruct ((0 <=? t) && (t <? 10)) eqn:H; [|lia].
  apply andb_true_iff in H. destruct H as [H1 H2].
  apply Z.leb_le in H1. apply Z.ltb_lt in H2. lia.
Qed.

(** X11.  Whatever the platform answers, [stop_dockerd] sleeps at most once,
    for at most the 10 seconds it asks for; it signals no pid but the one
    tracked when it was called, and only with SIGTERM and SIGKILL; it never
    writes the exit code, the restart flag or the loop's quit bit; and the
    pid it leaves is the one it found or none: it leaves every global as it
    found it. *)
Theorem stop_dockerd_is_bounded :
  forall (w : World) (s : State),
    let r := stop_dockerd w s in
    (forall requested waited,
        In (EvSleep requested waited) (trace r) ->
        requested = 10 /\ 0 <= waited <= 10) /\
    (List.length (filter (fun e => match e with EvSleep _ _ => true | _ => false end)
                         (trace r)) <= 1)%nat /\
    (forall pid sig,
        In (EvKill pid sig) (trace r) ->
        pid = dockerd_process_pid s /\ pid <> -1 /\ (sig = SIGTERM \/ sig = SIGKILL)) /\
    (dockerd_process_pid (final r) = dockerd_process_pid s \/
     dockerd_process_pid (final r) = -1) /\
    exit_code (final r) = exit_code s /\
    restart_dockerd (final r) = restart_dockerd s /\
    loop_quit (final r) = loop_quit s /\
    final r = s.
Proof.
  intros w s r. subst r. rewrite stop_dockerd_run. cbv zeta.
  pose proof (wait_length_bound w) as Hw.
  destruct (dockerd_process_pid s =? -1) eqn:Hpid.
  - cbn. repeat split; try contradiction; auto; lia.
  - apply Z.eqb_neq in Hpid. unfold sigterm_log, sigkill_log.
    destruct (kill w (dockerd_process_pid s) SIGTERM);
      destruct (kill w (dockerd_process_pid s) SIGKILL);
      cbn [app trace final fst snd filter List.length set_pid dockerd_process_pid
             exit_code restart_dockerd loop_quit];
      (split; [|split; [|split; [|split; [|split; [|split; [|split]]]]]]);
      try reflexivity; try lia; auto;
      try (intros rq wt H; repeat (destruct H as [H|H]; try discriminate H);
           [inversion H; subst; split; [reflexivity|exact Hw]|contradiction]);
      try (intros p sg H; repeat (destruct H as [H|H]; try discriminate H);
           try contradiction; inversion H; subst; auto).
Qed.


(** ** [main], step by step *)

Lemma main_body_run (w0 : World) (events : list LoopEvent) (wend : World) (s : State) :
  main_body w0 events wend s =
  let su := setup_axparameter w0 s in
  if result su then
    let st := read_settings_and_start_dockerd w0 (final su) in
    if result st then
      let lp := g_main_loop_run events (final st) in
      if result lp then
        let e := main_end wend true (final lp) in
        (Some (result e), final e,
         (started_log :: trace su ++ trace st ++ trace lp ++ trace e)%list)
      else (None, final lp, (started_log :: trace su ++ trace st ++ trace lp)%list)
    else
      let e := main_end wend true (set_exit_code (-1) (final st)) in
      (Some (result e), final e,
       (started_log :: trace su ++ trace st ++ EvExitCode (-1) :: trace e)%list)
  else
    let e := main_end wend false (set_exit_code (-1) (final su)) in
    (Some (result e), final e,
     (started_log :: trace su ++ setup_failed_log :: EvExitCode (-1) :: trace e)%list).
Proof.
  cbv zeta. unfold main_body, assign_exit_code, syslog, bind, emit, modify, ret.
  destruct (setup_axparameter w0 s) as [[ok s1] t1]. cbn [result final trace fst snd].
  destruct ok; cbn [negb].
  - destruct (read_settings_and_start_dockerd w0 s1) as [[ok s2] t2].
    cbn [result final trace fst snd]. destruct ok; cbn [negb].
    + destruct (g_main_loop_run events s2) as [[ok s3] t3].
      cbn [result final trace fst snd]. destruct ok.
      * destruct (main_end wend true s3) as [[c s4] t4]. cbn.
        rewrite !app_nil_r. reflexivity.
      * cbn. rewrite !app_nil_r. reflexivity.
    + unfold set_exit_code.
      match goal with |- context [main_end wend true ?x] =>
        destruct (main_end wend true x) as [[c s4] t4] end.
      cbn. rewrite !app_nil_r. reflexivity.
  - unfold set_exit_code.
    match goal with |- context [main_end wend false ?x] =>
      destruct (main_end wend false x) as [[c s4] t4] end.
    cbn. rewrite !app_nil_r. reflexivity.
Qed.

Lemma main_run (w0 : World) (events : list LoopEvent) (wend : World) (s : State) :
  main w0 events wend s =
  let b := main_body w0 events wend (set_exit_code 0 s) in
  (result b, final b, EvExitCode 0 :: trace b).
Proof.
  cbv zeta. unfold main, assign_exit_code, bind, emit, modify.
  cbn [fst snd app]. fold (set_exit_code 0 s).
  destruct (main_body w0 events wend (set_exit_code 0 s)) as [[c s1] t1].
  reflexivity.
Qed.

Lemma unregister_callbacks_run (keys : list string) (s : State) :
  unregister_callbacks keys s =
  (tt, s, map (fun k => EvUnregisterCallback (parameter_path k)) keys).
Proof.
  induction keys as [|k keys IH]; [reflexivity|].
  cbn [unregister_callbacks map]. unfold bind, emit at 1. rewrite IH. reflexivity.
Qed.

Lemma main_end_run (w : World) (b : bool) (s : State) :
  main_end w b s =
  let st := stop_dockerd w s in
  (exit_code s, final st,
   (trace st ++ shutdown_log (result st)
      :: (if b then map (fun k => EvUnregisterCallback (parameter_path k)) ax_parameters
          else []))%list).
Proof.
  cbv zeta. unfold main_end, bind at 1.
  destruct (stop_dockerd_never_quits w s) as (_ & _ & _ & He).
  destruct (stop_dockerd w s) as [[ok s1] t1]. cbn [result final trace fst snd] in *.
  unfold when, syslog, bind, emit, get, ret. rewrite <- He.
  destruct ok, b; cbn [shutdown_log]; rewrite ?unregister_callbacks_run;
    cbn [fst snd app]; rewrite ?app_nil_r; reflexivity.
Qed.

#[local] Instance setup_rule_closed : Closed setup_rule.
Proof.
  split.
  - intro s. split; reflexivity.
  - intros s t1 s1 t2 s2 [-> H1] [-> H2]. split; [reflexivity|].
    rewrite forallb_app, H1, H2. reflexivity.
Qed.

Lemma register_callbacks_setup (w : World) (keys : list string) :
  respects setup_rule (register_callbacks w keys).
Proof.
  induction keys as [|k keys IH]; cbn [register_callbacks]; unfold syslog;
    respects_with ltac:(first [apply IH|intro; split; reflexivity]).
Qed.

Lemma setup_axparameter_setup (w : World) : respects setup_rule (setup_axparameter w).
Proof.
  unfold setup_axparameter, syslog.
  respects_with ltac:(first [apply register_callbacks_setup
                            |intro; split; reflexivity]).
Qed.

Lemma register_callbacks_result (w : World) (keys : list string) (s : State) :
  result (register_callbacks w keys s) =
  forallb (fun k => ax_parameter_register_callback w (parameter_path k)) keys.
Proof.
  revert s. induction keys as [|k keys IH]; intro s; [reflexivity|].
  cbn [register_callbacks forallb]. cbv zeta. fold (parameter_path k).
  rewrite result_bind.
  destruct (ax_parameter_register_callback w (parameter_path k));
    [apply IH|reflexivity].
Qed.

Lemma setup_axparameter_result (w : World) (s : State) :
  result (setup_axparameter w s) =
  ax_parameter_new_ok w &&
  forallb (fun k => ax_parameter_register_callback w (parameter_path k)) ax_parameters.
Proof.
  unfold setup_axparameter.
  destruct (ax_parameter_new_ok w); [apply register_callbacks_result|reflexivity].
Qed.

Lemma setup_events_lack (p : Event -> bool) (t : list Event) :
  (forall e, is_setup_event e = true -> p e = false) ->
  forallb is_setup_event t = true -> existsb p t = false.
Proof.
  intro Hp. induction t as [|e t IH]; [reflexivity|]. cbn [forallb existsb].
  intro H. apply andb_true_iff in H. destruct H as [He Ht].
  rewrite (IH Ht), (Hp e He). reflexivity.
Qed.

Lemma setup_events_unregister_nothing (t : list Event) :
  forallb is_setup_event t = true -> unregistered t = [].
Proof.
  induction t as [|e t IH]; [reflexivity|]. cbn [forallb]. intro H.
  apply andb_true_iff in H. destruct H as [He Ht].
  unfold unregistered in *. cbn [flat_map]. rewrite (IH Ht).
  destruct e; try discriminate He; reflexivity.
Qed.


(** ** Computations that ignore the globals *)

Lemma state_blind_ret {A : Type} (a : A) : state_blind (ret a).
Proof. intro s. reflexivity. Qed.

Lemma state_blind_emit (e : Event) : state_blind (emit e).
Proof. intro s. reflexivity. Qed.

Lemma state_blind_bind {A B : Type} (m : M A) (f : A -> M B) :
  state_blind m -> (forall a, state_blind (f a)) -> state_blind (bind m f).
Proof.
  intros Hm Hf s. unfold bind.
  rewrite (Hm s), (Hm initial_state). cbn [result trace fst snd].
  rewrite (Hf _ s), (Hf _ initial_state). reflexivity.
Qed.

Lemma state_blind_when (b : bool) (m : M unit) :
  state_blind m -> state_blind (when b m).
Proof. intro Hm. destruct b; [exact Hm|apply state_blind_ret]. Qed.

Ltac state_blind_with base :=
  repeat first
    [ solve [base]
    | apply state_blind_ret
    | apply state_blind_emit
    | apply state_blind_bind; [|intro]
    | apply state_blind_when
    | match goal with
      | |- state_blind (if ?b then _ else _) => destruct b
      | |- state_blind (match ?x with _ => _ end) => destruct x
      | |- state_blind (let _ := _ in _) => cbv zeta
      end ].

Lemma is_parameter_yes_blind (w : World) (name : string) :
  state_blind (is_parameter_yes w name).
Proof.
  unfold is_parameter_yes, get_parameter_value, syslog.
  state_blind_with fail.
Qed.

Lemma setup_sdcard_blind (w : World) (d : string) : state_blind (setup_sdcard w d).
Proof.
  unfold setup_sdcard, get_filesystem_of_path, syslog.
  state_blind_with fail.
Qed.

Lemma read_settings_blind (w : World) (st : settings) :
  state_blind (read_settings w st).
Proof.
  unfold read_settings, get_and_verify_sd_card_selection,
    get_and_verify_tls_selection, get_ipc_socket_selection, syslog.
  state_blind_with ltac:(first [apply is_parameter_yes_blind
                               |apply setup_sdcard_blind]).
Qed.

Lemma register_callbacks_blind (w : World) (keys : list string) :
  state_blind (register_callbacks w keys).
Proof.
  induction keys as [|k keys IH]; cbn [register_callbacks]; unfold syslog;
    state_blind_with ltac:(apply IH).
Qed.

Lemma setup_axparameter_blind (w : World) : state_blind (setup_axparameter w).
Proof.
  unfold setup_axparameter, syslog.
  state_blind_with ltac:(apply register_callbacks_blind).
Qed.

(** Whether a launch succeeds does not depend on the globals. *)
Lemma launch_result_state_free (w : World) (s s' : State) :
  result (read_settings_and_start_dockerd w s)
  = result (read_settings_and_start_dockerd w s').
Proof.
  pose proof (read_settings_and_start_run w s) as H.
  pose proof (read_settings_and_start_run w s') as H'.
  cbv zeta in H, H'. rewrite H, H'.
  rewrite (read_settings_blind w _ s), (read_settings_blind w _ s').
  cbn [result fst snd].
  destruct (fst (result (read_settings w _ initial_state))); [|reflexivity].
  cbn [result fst]. rewrite !start_dockerd_run.
  destruct (dockerd_argv _) as [argv|]; [|reflexivity].
  unfold spawn_outcome.
  destruct (g_spawn_async w argv) as [pid|]; [|reflexivity].
  destruct ((waitpid_WNOHANG w pid =? -1) || (waitpid_WNOHANG w pid =? pid));
    reflexivity.
Qed.

(** ** Registrations *)

Lemma registered_app (t1 t2 : list Event) :
  registered (t1 ++ t2) = (registered t1 ++ registered t2)%list.
Proof. apply flat_map_app. Qed.

Lemma unregistered_app (t1 t2 : list Event) :
  unregistered (t1 ++ t2) = (unregistered t1 ++ unregistered t2)%list.
Proof. apply flat_map_app. Qed.

Lemma registered_skip (e : Event) (t : list Event) :
  is_registration e = false -> registered (e :: t) = registered t.
Proof. destruct e; try discriminate; reflexivity. Qed.

Lemma unregistered_skip (e : Event) (t : list Event) :
  is_registration e = false -> unregistered (e :: t) = unregistered t.
Proof. destruct e; try discriminate; reflexivity. Qed.

#[local] Instance registration_rule_closed : Closed registration_rule.
Proof.
  split.
  - intro s. split; reflexivity.
  - intros s t1 s1 t2 s2 [R1 U1] [R2 U2]. split.
    + rewrite registered_app, R1, R2. reflexivity.
    + rewrite unregistered_app, U1, U2. reflexivity.
Qed.

Ltac registration_base := intro; split; reflexivity.

Lemma stop_dockerd_registers_nothing (w : World) :
  respects registration_rule (stop_dockerd w).
Proof.
  unfold stop_dockerd, sleep, kill_ok, syslog.
  respects_with registration_base.
Qed.

Lemma read_settings_registers_nothing (w : World) (st : settings) :
  respects registration_rule (read_settings w st).
Proof.
  unfold read_settings, get_and_verify_sd_card_selection,
    get_and_verify_tls_selection, get_ipc_socket_selection, setup_sdcard,
    get_filesystem_of_path, is_parameter_yes, get_parameter_value, syslog.
  respects_with registration_base.
Qed.

Lemma launch_registers_nothing (w : World) :
  respects registration_rule (read_settings_and_start_dockerd w).
Proof.
  unfold read_settings_and_start_dockerd, start_dockerd, is_process_alive,
    assign_exit_code, g_main_loop_quit, syslog.
  respects_with ltac:(first [apply read_settings_registers_nothing
                            |registration_base]).
Qed.

Lemma mark_restart_registers_nothing (parname value : string) (keys : list string) :
  respects registration_rule (mark_restart parname value keys).
Proof.
  induction keys as [|k keys IH]; cbn [mark_restart]; unfold syslog;
    respects_with ltac:(first [apply IH|registration_base]).
Qed.

Lemma dispatch_registers_nothing (e : LoopEvent) :
  respects registration_rule (dispatch e).
Proof.
  destruct e; cbn [dispatch];
    unfold handle_signals, dockerd_process_exited_callback,
      parameter_changed_callback, assign_exit_code, g_main_loop_quit, syslog;
    respects_with ltac:(first [apply launch_registers_nothing
                              |apply mark_restart_registers_nothing
                              |apply stop_dockerd_registers_nothing
                              |registration_base]).
Qed.

Lemma serve_registers_nothing (events : list LoopEvent) :
  respects registration_rule (serve events).
Proof.
  induction events as [|e events IH]; cbn [serve];
    respects_with ltac:(first [apply IH|apply dispatch_registers_nothing
                              |registration_base]).
Qed.

Lemma main_loop_registers_nothing (events : list LoopEvent) :
  respects registration_rule (g_main_loop_run events).
Proof.
  unfold g_main_loop_run.
  respects_with ltac:(first [apply serve_registers_nothing|registration_base]).
Qed.

Lemma unregister_events (keys : list string) :
  registered (map (fun k => EvUnregisterCallback (parameter_path k)) keys) = [] /\
  unregistered (map (fun k => EvUnregisterCallback (parameter_path k)) keys)
  = map parameter_path keys.
Proof.
  induction keys as [|k keys [IR IU]]; [split; reflexivity|].
  split; [exact IR|]. unfold unregistered in *. cbn [map flat_map app].
  rewrite IU. reflexivity.
Qed.

Lemma main_end_registrations (w : World) (b : bool) (s : State) :
  registered (trace (main_end w b s)) = [] /\
  unregistered (trace (main_end w b s))
  = if b then map parameter_path ax_parameters else [].
Proof.
  rewrite main_end_run. cbv zeta. cbn [trace snd].
  destruct (stop_dockerd_registers_nothing w s) as [R U].
  rewrite registered_app, unregistered_app, R, U.
  destruct (unregister_events ax_parameters) as [R' U'].
  destruct b, (result (stop_dockerd w s)); cbn [shutdown_log app];
    split; first [exact R'|exact U'|reflexivity].
Qed.

(** Where the registration loop gives up: every key before the refused one
    was accepted, and the refused one is the last that was tried. *)
Lemma register_callbacks_refused (w : World) (keys : list string) (s : State) :
  result (register_callbacks w keys s) = false ->
  exists pre k post,
    keys = (pre ++ k :: post)%list /\
    (forall p, In p pre ->
               ax_parameter_register_callback w (parameter_path p) = true) /\
    ax_parameter_register_callback w (parameter_path k) = false /\
    registered (trace (register_callbacks w keys s))
    = map parameter_path (pre ++ [k]).
Proof.
  revert s. induction keys as [|k keys IH]; intro s; [discriminate|].
  cbn [register_callbacks]. cbv zeta. fold (parameter_path k).
  rewrite result_bind, trace_bind.
  change (final (emit (EvRegisterCallback (parameter_path k)) s)) with s.
  change (trace (emit (EvRegisterCallback (parameter_path k)) s))
    with [EvRegisterCallback (parameter_path k)].
  destruct (ax_parameter_register_callback w (parameter_path k)) eqn:Hk.
  - intro H. destruct (IH s H) as (pre & k' & post & Hkeys & Hpre & Hk' & Hreg).
    exists (k :: pre), k', post. split; [rewrite Hkeys; reflexivity|].
    split; [|split; [exact Hk'|]].
    + intros p [<-|Hp]; [exact Hk|apply Hpre, Hp].
    + cbn [app registered flat_map map]. f_equal. exact Hreg.
  - intros _. exists [], k, keys. split; [reflexivity|].
    split; [intros p []|]. split; [exact Hk|reflexivity].
Qed.

(** X12.  Whenever [main] returns after [setup_axparameter] succeeded, it has
    registered the three callbacks, in the order of [ax_parameters], and has
    unregistered the same three paths in that order.  When
    [setup_axparameter] failed, [main] unregisters nothing: without a handle
    no registration was tried; with a handle the registrations were tried up
    to and including the first one refused, so the callbacks accepted before
    it are not unregistered.  Nothing else in a run registers or
    unregisters. *)
Theorem main_callback_registrations :
  forall (w0 : World) (events : list LoopEvent) (wend : World) (s : State) (code : Z),
    let r := main w0 events wend s in
    result r = Some code ->
    (result (setup_axparameter w0 s) = true ->
     registered (trace r) = map parameter_path ax_parameters /\
     unregistered (trace r) = map parameter_path ax_parameters) /\
    (result (setup_axparameter w0 s) = false ->
     unregistered (trace r) = [] /\
     (ax_parameter_new_ok w0 = false -> registered (trace r) = []) /\
     (ax_parameter_new_ok w0 = true ->
      exists pre k post,
        ax_parameters = (pre ++ k :: post)%list /\
        (forall p, In p pre ->
                   ax_parameter_register_callback w0 (parameter_path p) = true) /\
        ax_parameter_register_callback w0 (parameter_path k) = false /\
        registered (trace r) = map parameter_path (pre ++ [k]))).
Proof.
  intros w0 events wend s code r Hret. subst r.
  rewrite main_run in *. cbv zeta in *. cbn [result trace fst snd] in *.
  rewrite main_body_run in *. cbv zeta in *.
  set (s0 := set_exit_code 0 s) in *.
  rewrite (setup_axparameter_result w0 s).
  rewrite <- (setup_axparameter_result w0 s0).
  destruct (setup_axparameter_setup w0 s0) as [Hfin Hev].
  pose proof (setup_events_unregister_nothing _ Hev) as Hu.
  destruct (result (setup_axparameter w0 s0)) eqn:Hsu.
  - split; [intros _|discriminate].
    pose proof (register_callbacks_registered w0 ax_parameters s0) as Hreg.
    assert (Hr : registered (trace (setup_axparameter w0 s0))
                 = map parameter_path ax_parameters).
    { unfold setup_axparameter in *.
      destruct (ax_parameter_new_ok w0); [apply Hreg, Hsu|discriminate]. }
    destruct (launch_registers_nothing w0 (final (setup_axparameter w0 s0)))
      as [R1 U1].
    destruct (result (read_settings_and_start_dockerd w0 _)).
    + destruct (main_loop_registers_nothing events
                  (final (read_settings_and_start_dockerd w0
                            (final (setup_axparameter w0 s0))))) as [R2 U2].
      destruct (result (g_main_loop_run events _)); [|discriminate].
      cbn [trace snd].
      match goal with |- context [main_end wend true ?x] =>
        destruct (main_end_registrations wend true x) as [R3 U3] end.
      rewrite !registered_skip, !unregistered_skip by reflexivity.
      rewrite !registered_app, !unregistered_app, Hr, Hu, R1, U1, R2, U2, R3, U3.
      cbn [app]. rewrite ?app_nil_r. split; reflexivity.
    + cbn [trace snd].
      match goal with |- context [main_end wend true ?x] =>
        destruct (main_end_registrations wend true x) as [R3 U3] end.
      rewrite !registered_skip, !unregistered_skip by reflexivity.
      rewrite !registered_app, !unregistered_app, Hr, Hu, R1, U1.
      rewrite !registered_skip, !unregistered_skip by reflexivity.
      rewrite R3, U3. cbn [app]. rewrite ?app_nil_r. split; reflexivity.
  - split; [discriminate|intros _].
    cbn [trace snd].
    match goal with |- context [main_end wend false ?x] =>
      destruct (main_end_registrations wend false x) as [R3 U3] end.
    assert (Hregs : registered
                      (EvExitCode 0 :: started_log
                         :: trace (setup_axparameter w0 s0)
                         ++ setup_failed_log :: EvExitCode (-1)
                         :: trace (main_end wend false
                                     (set_exit_code (-1)
                                        (final (setup_axparameter w0 s0)))))%list
                    = registered (trace (setup_axparameter w0 s0))).
    { rewrite !registered_skip by reflexivity.
      rewrite registered_app.
      rewrite !registered_skip by reflexivity.
      rewrite R3, app_nil_r. reflexivity. }
    split; [|split].
    + rewrite !unregistered_skip by reflexivity.
      rewrite !unregistered_app, Hu.
      rewrite !unregistered_skip by reflexivity.
      rewrite U3. reflexivity.
    + intro Hnew. rewrite Hregs. unfold setup_axparameter. rewrite Hnew.
      reflexivity.
    + intro Hnew. rewrite Hregs. unfold setup_axparameter in *.
      rewrite Hnew in *. apply register_callbacks_refused. exact Hsu.
Qed.

(** The second registration is refused. *)
Lemma main_callback_registrations_witness :
  let w0 := mkWorld true (fun _ => Some "no")
              (fun path => (path =? parameter_path "IPCSocket")%string)
              (fun _ => 0) (fun _ => None) None (fun _ => true) (fun _ => true)
              (fun _ => Some 4712) (fun _ => 0) (fun _ _ => true) None in
  let r := main w0 [] barren initial_state in
  (result (setup_axparameter w0 initial_state) = true ->
   registered (trace r) = map parameter_path ax_parameters /\
   unregistered (trace r) = map parameter_path ax_parameters) /\
  (result (setup_axparameter w0 initial_state) = false ->
   unregistered (trace r) = [] /\
   (ax_parameter_new_ok w0 = false -> registered (trace r) = []) /\
   (ax_parameter_new_ok w0 = true ->
    exists pre k post,
      ax_parameters = (pre ++ k :: post)%list /\
      (forall p, In p pre ->
                 ax_parameter_register_callback w0 (parameter_path p) = true) /\
      ax_parameter_register_callback w0 (parameter_path k) = false /\
      registered (trace r) = map parameter_path (pre ++ [k]))).
Proof.
  cbv zeta.
  apply (main_callback_registrations
           (mkWorld true (fun _ => Some "no")
              (fun path => (path =? parameter_path "IPCSocket")%string)
              (fun _ => 0) (fun _ => None) None (fun _ => true) (fun _ => true)
              (fun _ => Some 4712) (fun _ => 0) (fun _ _ => true) None)
           [] barren initial_state (-1)).
  vm_compute. reflexivity.
Defined.

(** A run in which the first registration is accepted and the second refused:
    [main] returns -1 having called [ax_parameter_register_callback] twice and
    [ax_parameter_unregister_callback] never. *)
Example run_second_registration_refused :
  let w0 := mkWorld true (fun _ => Some "no")
              (fun path => (path =? parameter_path "IPCSocket")%string)
              (fun _ => 0) (fun _ => None) None (fun _ => true) (fun _ => true)
              (fun _ => Some 4712) (fun _ => 0) (fun _ _ => true) None in
  let r := main w0 [] barren initial_state in
  result r = Some (-1) /\
  registered (trace r)
  = [parameter_path "IPCSocket"; parameter_path "SDCardSupport"] /\
  unregistered (trace r) = [].
Proof. vm_compute. repeat split. Qed.

(** ** Start-up failures *)

Lemma main_end_idle (w : World) (b : bool) (s : State) :
  dockerd_process_pid s = -1 ->
  main_end w b s =
  (exit_code s, s,
   shutdown_log true
     :: (if b then map (fun k => EvUnregisterCallback (parameter_path k)) ax_parameters
         else [])).
Proof.
  intro Hpid. rewrite main_end_run. cbv zeta.
  rewrite stop_dockerd_run. cbv zeta. rewrite Hpid. reflexivity.
Qed.

(** X13.  When [setup_axparameter] fails at start-up, with no pid tracked,
    [main] returns -1 whatever events and shut-down answers would follow: it
    logs the failure, spawns nothing, sends no signal, and leaves the globals
    as they were but for the exit code. *)
Theorem main_without_parameter_handle :
  forall (w0 : World) (events : list LoopEvent) (wend : World) (s : State),
    dockerd_process_pid s = -1 ->
    result (setup_axparameter w0 s) = false ->
    let r := main w0 events wend s in
    result r = Some (-1) /\
    final r = set_exit_code (-1) s /\
    In setup_failed_log (trace r) /\
    count_spawns (trace r) = 0%nat /\
    existsb is_kill (trace r) = false /\
    forall events' wend', main w0 events' wend' s = r.
Proof.
  intros w0 events wend s Hpid Hsu r.
  assert (Hrun : forall ev we,
             main w0 ev we s =
             (Some (-1), set_exit_code (-1) s,
              (EvExitCode 0 :: started_log
                 :: trace (setup_axparameter w0 initial_state)
                 ++ [setup_failed_log; EvExitCode (-1); shutdown_log true])%list)).
  { intros ev we. rewrite main_run. cbv zeta. rewrite main_body_run. cbv zeta.
    rewrite (setup_axparameter_blind w0 s) in Hsu. cbn [result fst] in Hsu.
    rewrite (setup_axparameter_blind w0 (set_exit_code 0 s)).
    cbn [result final trace fst snd]. rewrite Hsu.
    rewrite main_end_idle by exact Hpid. reflexivity. }
  subst r. rewrite Hrun. cbn [result final trace fst snd].
  destruct (setup_axparameter_setup w0 initial_state) as [_ Hev].
  split; [reflexivity|]. split; [reflexivity|]. split; [|split; [|split]].
  - right. right. apply in_or_app. right. left. reflexivity.
  - apply count_spawns_zero. cbn [existsb is_spawn orb]. rewrite existsb_app.
    rewrite (setup_events_lack is_spawn _
               (fun e He => ltac:(destruct e; try discriminate; reflexivity)) Hev).
    reflexivity.
  - cbn [existsb is_kill orb]. rewrite existsb_app.
    rewrite (setup_events_lack is_kill _
               (fun e He => ltac:(destruct e; try discriminate; reflexivity)) Hev).
    reflexivity.
  - intros ev we. apply Hrun.
Qed.

(** A world whose parameter handle cannot be created. *)
Lemma main_without_parameter_handle_witness :
  let w0 := mkWorld false (fun _ => None) (fun _ => true) (fun _ => 1)
              (fun _ => None) None (fun _ => false) (fun _ => false)
              (fun _ => None) (fun _ => -1) (fun _ _ => false) None in
  let r := main w0 [] barren initial_state in
  result r = Some (-1) /\
  final r = set_exit_code (-1) initial_state /\
  In setup_failed_log (trace r) /\
  count_spawns (trace r) = 0%nat /\
  existsb is_kill (trace r) = false /\
  forall events' wend', main w0 events' wend' initial_state = r.
Proof.
  cbv zeta.
  apply (main_without_parameter_handle
           (mkWorld false (fun _ => None) (fun _ => true) (fun _ => 1)
              (fun _ => None) None (fun _ => false) (fun _ => false)
              (fun _ => None) (fun _ => -1) (fun _ _ => false) None)
           [] barren initial_state).
  - reflexivity.
  - reflexivity.
Defined.

Lemma launch_spawns_at_most_once (w : World) (s : State) :
  (count_spawns (trace (read_settings_and_start_dockerd w s)) <= 1)%nat.
Proof.
  pose proof (read_settings_and_start_run w s) as H. cbv zeta in H. rewrite H.
  destruct (read_settings_no_spawn w (mkSettings None false false) s) as [Hn _].
  destruct (fst (result (read_settings w _ s))); cbn [trace snd].
  - rewrite count_spawns_app, Hn, start_dockerd_run.
    destruct (dockerd_argv _) as [argv|]; [|cbn; lia].
    unfold spawn_outcome.
    destruct (g_spawn_async w argv) as [pid|];
      [destruct ((waitpid_WNOHANG w pid =? -1) || (waitpid_WNOHANG w pid =? pid))|];
      cbn; lia.
  - rewrite Hn. lia.
Qed.

(** X14.  When the callbacks are registered but the first launch fails, [main]
    returns -1 without serving a single event of the loop: the run is the
    same whatever events would follow, and at most one process was
    spawned. *)
Theorem main_when_first_launch_fails :
  forall (w0 : World) (events : list LoopEvent) (wend : World) (s : State),
    result (setup_axparameter w0 s) = true ->
    result (read_settings_and_start_dockerd w0 s) = false ->
    let r := main w0 events wend s in
    result r = Some (-1) /\
    In (EvExitCode (-1)) (trace r) /\
    (count_spawns (trace r) <= 1)%nat /\
    forall events', main w0 events' wend s = r.
Proof.
  intros w0 events wend s Hsu Hla r.
  set (s0 := set_exit_code 0 s).
  assert (Hsu0 : setup_axparameter w0 s0
                 = (true, s0, trace (setup_axparameter w0 initial_state))).
  { rewrite (setup_axparameter_blind w0 s) in Hsu. cbn [result fst] in Hsu.
    rewrite (setup_axparameter_blind w0 s0), Hsu. reflexivity. }
  assert (Hla0 : result (read_settings_and_start_dockerd w0 s0) = false).
  { rewrite (launch_result_state_free w0 s0 s). exact Hla. }
  assert (Hrun : forall ev,
             main w0 ev wend s =
             let st := read_settings_and_start_dockerd w0 s0 in
             let e := main_end wend true (set_exit_code (-1) (final st)) in
             (Some (-1), final e,
              (EvExitCode 0 :: started_log
                 :: trace (setup_axparameter w0 initial_state)
                 ++ trace st ++ EvExitCode (-1) :: trace e)%list)).
  { intro ev. rewrite main_run. cbv zeta. rewrite main_body_run. cbv zeta.
    fold s0. rewrite Hsu0. cbn [result final trace fst snd]. rewrite Hla0.
    rewrite main_end_run. reflexivity. }
  subst r. rewrite Hrun. cbv zeta. cbn [result trace fst snd].
  split; [reflexivity|]. split; [|split].
  - right. right. apply in_or_app. right. apply in_or_app. right.
    left. reflexivity.
  - change (count_spawns (EvExitCode 0 :: started_log :: ?t)) with (count_spawns t).
    rewrite !count_spawns_app.
    destruct (setup_axparameter_no_spawn w0 initial_state) as [H1 _].
    pose proof (launch_spawns_at_most_once w0 s0) as H2.
    match goal with |- context [main_end wend true ?x] =>
      destruct (main_end_no_spawn wend true x) as [H3 _] end.
    change (count_spawns (EvExitCode (-1) :: ?t)) with (count_spawns t).
    rewrite H1, H3. lia.
  - intro ev. rewrite Hrun. reflexivity.
Qed.

Lemma main_when_first_launch_fails_witness :
  let r := main tls_without_key [Signal OnSIGTERM] barren initial_state in
  result r = Some (-1) /\
  In (EvExitCode (-1)) (trace r) /\
  (count_spawns (trace r) <= 1)%nat /\
  forall events', main tls_without_key events' barren initial_state = r.
Proof.
  apply (main_when_first_launch_fails tls_without_key [Signal OnSIGTERM] barren
           initial_state).
  - reflexivity.
  - reflexivity.
Defined.

(** X15.  A child that the liveness probe finds dead right after the spawn
    stays tracked: [main] gives up with -1, and its final [stop_dockerd]
    still sends SIGTERM to that pid, goes through the wait and sends
    SIGKILL. *)
Theorem dead_child_is_signalled_at_shutdown :
  forall (w0 : World) (events : list LoopEvent) (wend : World) (s : State) (pid : Z)
         (argv : list string),
    let rs := read_settings w0 (mkSettings None false false) s in
    result (setup_axparameter w0 s) = true ->
    fst (result rs) = true ->
    dockerd_argv (snd (result rs)) = Some argv ->
    g_spawn_async w0 argv = Some pid ->
    pid <> -1 ->
    waitpid_WNOHANG w0 pid = -1 \/ waitpid_WNOHANG w0 pid = pid ->
    let r := main w0 events wend s in
    result r = Some (-1) /\
    In died_log (trace r) /\
    In (EvKill pid SIGTERM) (trace r) /\
    In (EvSleep 10 (wait_length wend 10)) (trace r) /\
    In (EvKill pid SIGKILL) (trace r).
Proof.
  intros w0 events wend s pid argv rs Hsu Hrs Hargv Hsp Hpid Hdead r.
  set (s0 := set_exit_code 0 s).
  assert (Hsu0 : setup_axparameter w0 s0
                 = (true, s0, trace (setup_axparameter w0 initial_state))).
  { rewrite (setup_axparameter_blind w0 s) in Hsu. cbn [result fst] in Hsu.
    rewrite (setup_axparameter_blind w0 s0), Hsu. reflexivity. }
  assert (Hrs0 : read_settings w0 (mkSettings None false false) s0
                 = (result rs, s0, trace rs)).
  { subst rs. rewrite (read_settings_blind w0 _ s0), (read_settings_blind w0 _ s).
    reflexivity. }
  assert (Hprobe : (waitpid_WNOHANG w0 pid =? -1) || (waitpid_WNOHANG w0 pid =? pid)
                   = true).
  { destruct Hdead as [-> | ->]; [reflexivity|].
    rewrite Z.eqb_refl. apply orb_true_r. }
  pose proof (read_settings_and_start_run w0 s0) as Hla. cbv zeta in Hla.
  rewrite Hrs0 in Hla. cbn [result trace fst snd] in Hla.
  rewrite Hrs, start_dockerd_run, Hargv in Hla. unfold spawn_outcome in Hla.
  rewrite Hsp, Hprobe in Hla. cbn [result final trace fst snd] in Hla.
  subst r. rewrite main_run. cbv zeta. rewrite main_body_run. cbv zeta.
  fold s0. rewrite Hsu0. cbn [result final trace fst snd].
  rewrite Hla. cbn [result final trace fst snd].
  rewrite main_end_run. cbv zeta. cbn [result final trace fst snd].
  rewrite stop_dockerd_run. cbv zeta.
  cbn [set_exit_code set_loop_quit set_pid dockerd_process_pid].
  apply Z.eqb_neq in Hpid. rewrite Hpid.
  split; [reflexivity|].
  assert (Hin : forall e (a b c d : list Event),
             In e c -> In e (EvExitCode 0 :: started_log :: a ++ (b ++ c) ++ d)%list).
  { intros e a b c d H. right. right. apply in_or_app. right.
    apply in_or_app. left. apply in_or_app. right. exact H. }
  assert (Hin' : forall e (a b d : list Event),
             In e d -> In e (EvExitCode 0 :: started_log :: a ++ b ++ EvExitCode (-1) :: d)%list).
  { intros e a b d H. right. right. apply in_or_app. right.
    apply in_or_app. right. right. exact H. }
  split; [|split; [|split]].
  - apply Hin. cbn. auto 8.
  - apply Hin'. cbn [trace snd]. apply in_or_app. left. left. reflexivity.
  - apply Hin'. cbn [trace snd]. apply in_or_app. left. right.
    apply in_or_app. right. left. reflexivity.
  - apply Hin'. cbn [trace snd]. apply in_or_app. left. right.
    apply in_or_app. right. right. left. reflexivity.
Qed.

(** dockerd is spawned as process 4712 and reaped by the probe at once. *)
Lemma dead_child_is_signalled_at_shutdown_witness :
  let w0 := mkWorld true (fun _ => Some "no") (fun _ => true) (fun _ => 0)
              (fun _ => None) None (fun _ => true) (fun _ => true)
              (fun _ => Some 4712) (fun p => p) (fun _ _ => true) None in
  let r := main w0 [] barren initial_state in
  result r = Some (-1) /\
  In died_log (trace r) /\
  In (EvKill 4712 SIGTERM) (trace r) /\
  In (EvSleep 10 (wait_length barren 10)) (trace r) /\
  In (EvKill 4712 SIGKILL) (trace r).
Proof.
  cbv zeta.
  apply (dead_child_is_signalled_at_shutdown
           (mkWorld true (fun _ => Some "no") (fun _ => true) (fun _ => 0)
              (fun _ => None) None (fun _ => true) (fun _ => true)
              (fun _ => Some 4712) (fun p => p) (fun _ _ => true) None)
           [] barren initial_state 4712
           (argv_by_parts (mkSettings None false false))).
  - reflexivity.
  - reflexivity.
  - reflexivity.
  - reflexivity.
  - vm_compute. lia.
  - right. reflexivity.
Defined.

(** ** Serving events *)

Lemma serve_nil (s : State) : serve [] s = (loop_quit s, s, []).
Proof. cbn [serve]. unfold bind, get, ret. destruct (loop_quit s); reflexivity. Qed.

Lemma serve_cons (e : LoopEvent) (rest : list LoopEvent) (s : State) :
  serve (e :: rest) s =
  if loop_quit s then (true, s, [])
  else
    let d := dispatch e s in
    let r := serve rest (final d) in
    (result r, final r, (trace d ++ trace r)%list).
Proof.
  cbn [serve]. unfold bind at 1, get. cbn [fst snd].
  destruct (loop_quit s); [reflexivity|].
  cbv zeta. unfold bind.
  destruct (dispatch e s) as [[u s1] t1]. cbn [final trace fst snd].
  destruct (serve rest s1) as [[b s2] t2]. reflexivity.
Qed.

Lemma main_loop_run (events : list LoopEvent) (s : State) :
  g_main_loop_run events s = serve events (set_loop_quit false s).
Proof.
  unfold g_main_loop_run, bind, modify. cbn [fst snd].
  destruct (serve events (set_loop_quit false s)) as [[b s1] t1]. reflexivity.
Qed.

(** The child-exit callback spawns at most once, and only on a pending
    restart, which it uses up. *)
Lemma exited_callback_budget (w : World) (pid status : Z) (s : State) :
  (count_spawns (trace (dockerd_process_exited_callback w pid status s))
   <= pending s)%nat /\
  restart_dockerd (final (dockerd_process_exited_callback w pid status s)) = false.
Proof.
  rewrite exited_callback_run. cbv zeta. unfold pending.
  destruct (restart_dockerd s) eqn:Hr.
  - match goal with |- context [read_settings_and_start_dockerd w ?x] =>
      pose proof (launch_spawns_at_most_once w x) as Hn;
      pose proof (read_settings_and_start_restart_flag w x) as Hf;
      destruct (read_settings_and_start_dockerd w x) as [[ok s1] t1] end.
    cbn [result final trace fst snd set_restart restart_dockerd] in *.
    destruct ok; cbn [final trace fst snd set_loop_quit set_exit_code restart_dockerd];
      rewrite !count_spawns_app; (split; [|exact Hf]);
      destruct (g_spawn_check_exit_status status); cbn; lia.
  - cbn [final trace fst snd set_loop_quit restart_dockerd].
    split; [|reflexivity].
    destruct (g_spawn_check_exit_status status); cbn; lia.
Qed.

Lemma dispatch_budget (e : LoopEvent) (s : State) :
  (count_spawns (trace (dispatch e s)) + pending (final (dispatch e s))
   <= pending s + (if is_watched_change e then 1 else 0))%nat.
Proof.
  destruct e as [n|w pid status|w name value]; cbn [dispatch is_watched_change].
  - destruct (handle_signals_no_spawn (signal_number n) s) as [Hn Hf].
    unfold pending. rewrite Hn, Hf. lia.
  - destruct (exited_callback_budget w pid status s) as [Hn Hf].
    unfold pending in *. rewrite Hf. lia.
  - destruct (parameter_changed_marks w name value s) as [Hn Hf].
    unfold pending. rewrite Hn, Hf.
    destruct (restart_dockerd s), (existsb _ ax_parameters); cbn; lia.
Qed.

Lemma serve_budget (events : list LoopEvent) (s : State) :
  (count_spawns (trace (serve events s)) <= pending s + watched_changes events)%nat.
Proof.
  revert s. induction events as [|e events IH]; intro s.
  - rewrite serve_nil. cbn. lia.
  - rewrite serve_cons. destruct (loop_quit s); [cbn; lia|].
    cbv zeta. cbn [trace snd]. rewrite count_spawns_app.
    pose proof (dispatch_budget e s) as Hd.
    pose proof (IH (final (dispatch e s))) as Hr.
    unfold watched_changes in *. cbn [filter].
    destruct (is_watched_change e); cbn [List.length]; lia.
Qed.

(** X16.  Started with the restart flag unset, [main] spawns dockerd at most
    once at start-up and then at most once per notification for a watched
    key among the events it is given; child exits, signals and notifications
    for other names never add a spawn. *)
Theorem relaunches_need_a_watched_change :
  forall (w0 : World) (events : list LoopEvent) (wend : World) (s : State),
    restart_dockerd s = false ->
    (count_spawns (trace (main w0 events wend s)) <= 1 + watched_changes events)%nat.
Proof.
  intros w0 events wend s Hr.
  rewrite main_run. cbv zeta. cbn [trace snd].
  change (count_spawns (EvExitCode 0 :: ?t)) with (count_spawns t).
  rewrite main_body_run. cbv zeta.
  set (s0 := set_exit_code 0 s).
  destruct (setup_axparameter_no_spawn w0 s0) as [H1 F1].
  pose proof (launch_spawns_at_most_once w0 (final (setup_axparameter w0 s0))) as H2.
  pose proof (read_settings_and_start_restart_flag w0
                (final (setup_axparameter w0 s0))) as F2.
  destruct (result (setup_axparameter w0 s0)).
  - destruct (result (read_settings_and_start_dockerd w0 _)).
    + rewrite main_loop_run.
      set (s2 := set_loop_quit false _).
      pose proof (serve_budget events s2) as H3.
      assert (Hp : pending s2 = 0%nat).
      { unfold pending. subst s2. cbn [set_loop_quit restart_dockerd].
        rewrite F2, F1. subst s0. cbn [set_exit_code restart_dockerd].
        rewrite Hr. reflexivity. }
      destruct (result (serve events s2)); cbn [trace snd];
        change (count_spawns (started_log :: ?t)) with (count_spawns t);
        rewrite !count_spawns_app, H1.
      * destruct (main_end_no_spawn wend true (final (serve events s2))) as [H4 _].
        rewrite H4. lia.
      * lia.
    + cbn [trace snd].
      change (count_spawns (started_log :: ?t)) with (count_spawns t).
      rewrite !count_spawns_app, H1.
      change (count_spawns (EvExitCode (-1) :: ?t)) with (count_spawns t).
      match goal with |- context [main_end wend true ?x] =>
        destruct (main_end_no_spawn wend true x) as [H4 _] end.
      rewrite H4. lia.
  - cbn [trace snd].
    change (count_spawns (started_log :: ?t)) with (count_spawns t).
    rewrite !count_spawns_app, H1.
    change (count_spawns (setup_failed_log :: EvExitCode (-1) :: ?t))
      with (count_spawns t).
    match goal with |- context [main_end wend false ?x] =>
      destruct (main_end_no_spawn wend false x) as [H4 _] end.
    rewrite H4. lia.
Qed.

Lemma relaunches_need_a_watched_change_witness :
  (count_spawns
     (trace (main unsecured
               [ParameterChanged unsecured use_tls_changed "yes";
                ChildExited all_selected 4712 0;
                ChildExited all_selected 4712 0;
                Signal OnSIGTERM]
               unsecured initial_state))
   <= 1 + watched_changes
            [ParameterChanged unsecured use_tls_changed "yes";
             ChildExited all_selected 4712 0;
             ChildExited all_selected 4712 0;
             Signal OnSIGTERM])%nat.
Proof.
  apply (relaunches_need_a_watched_change unsecured
           [ParameterChanged unsecured use_tls_changed "yes";
            ChildExited all_selected 4712 0;
            ChildExited all_selected 4712 0;
            Signal OnSIGTERM]
           unsecured initial_state).
  reflexivity.
Defined.


(** ** Missing certificates *)

Lemma is_parameter_yes_silent (w : World) (name : string) (s : State) :
  result (is_parameter_yes w name s) = true -> trace (is_parameter_yes w name s) = [].
Proof.
  unfold is_parameter_yes, get_parameter_value, syslog, bind, emit, ret.
  destruct (ax_parameter_new_ok w); [|discriminate].
  destruct (ax_parameter_get w name); [reflexivity|discriminate].
Qed.

(** X18.  With TLS selected, [get_and_verify_tls_selection] logs one line per
    missing certificate and for no certificate that is there, so the log
    names exactly the files that are absent; it fails exactly when a file is
    absent and then leaves [*use_tls_ret] as it was. *)
Theorem tls_log_names_the_missing_files :
  forall (w : World) (b : bool) (s : State),
    result (is_parameter_yes w "UseTLS" s) = true ->
    let r := get_and_verify_tls_selection w b s in
    (In ca_missing_log (trace r) <->
     access_F_OK w "/usr/local/packages/dockerdwrapperwithcompose/ca.pem" = false) /\
    (In cert_missing_log (trace r) <->
     access_F_OK w "/usr/local/packages/dockerdwrapperwithcompose/server-cert.pem" = false) /\
    (In key_missing_log (trace r) <->
     access_F_OK w "/usr/local/packages/dockerdwrapperwithcompose/server-key.pem" = false) /\
    (fst (result r) = false <-> In tls_missing_log (trace r)) /\
    (fst (result r) = false -> snd (result r) = b) /\
    (fst (result r) = true -> snd (result r) = true).
Proof.
  intros w b s Hyes r. subst r.
  rewrite tls_selection_run. cbv zeta.
  rewrite Hyes, (is_parameter_yes_silent w "UseTLS" s Hyes).
  change ca_path with "/usr/local/packages/dockerdwrapperwithcompose/ca.pem".
  change cert_path
    with "/usr/local/packages/dockerdwrapperwithcompose/server-cert.pem".
  change key_path
    with "/usr/local/packages/dockerdwrapperwithcompose/server-key.pem".
  unfold ca_missing_log, cert_missing_log, key_missing_log, tls_missing_log.
  destruct (access_F_OK w "/usr/local/packages/dockerdwrapperwithcompose/ca.pem"),
    (access_F_OK w "/usr/local/packages/dockerdwrapperwithcompose/server-cert.pem"),
    (access_F_OK w "/usr/local/packages/dockerdwrapperwithcompose/server-key.pem");
    cbn [andb result trace fst snd app In];
    repeat split; intros; try discriminate; try reflexivity; auto;
    repeat match goal with
           | H : _ \/ _ |- _ => destruct H
           | H : False |- _ => contradiction
           | H : EvSyslog _ _ _ = EvSyslog _ _ _ |- _ => discriminate H
           end.
Qed.

Lemma tls_log_names_the_missing_files_witness :
  let r := get_and_verify_tls_selection tls_without_key false initial_state in
  (In ca_missing_log (trace r) <->
   access_F_OK tls_without_key
     "/usr/local/packages/dockerdwrapperwithcompose/ca.pem" = false) /\
  (In cert_missing_log (trace r) <->
   access_F_OK tls_without_key
     "/usr/local/packages/dockerdwrapperwithcompose/server-cert.pem" = false) /\
  (In key_missing_log (trace r) <->
   access_F_OK tls_without_key
     "/usr/local/packages/dockerdwrapperwithcompose/server-key.pem" = false) /\
  (fst (result r) = false <-> In tls_missing_log (trace r)) /\
  (fst (result r) = false -> snd (result r) = false) /\
  (fst (result r) = true -> snd (result r) = true).
Proof.
  apply (tls_log_names_the_missing_files tls_without_key false initial_state).
  reflexivity.
Defined.


(** ** Relaunching *)

(** What a launch spawns is decided by the parameters read at that moment. *)
Lemma launch_spawned (w : World) (s : State) :
  spawned (trace (read_settings_and_start_dockerd w s)) =
  let rs := read_settings w (mkSettings None false false) initial_state in
  if fst (result rs) then [argv_by_parts (snd (result rs))] else [].
Proof.
  rewrite launch_run. cbv zeta.
  destruct (read_settings_resolver w (mkSettings None false false) initial_state)
    as [_ Hev].
  rewrite (read_settings_blind w _ s). cbn [result trace fst snd].
  destruct (fst (result (read_settings w _ initial_state))).
  - unfold spawn_outcome.
    destruct (g_spawn_async w _) as [pid|];
      [destruct ((waitpid_WNOHANG w pid =? -1) || (waitpid_WNOHANG w pid =? pid))|];
      cbn [trace snd]; rewrite spawned_app, (resolver_events_spawn_nothing _ Hev);
      reflexivity.
  - apply resolver_events_spawn_nothing, Hev.
Qed.

#[local] Instance cleanup_rule_closed : Closed cleanup_rule.
Proof.
  split.
  - intro s. reflexivity.
  - intros s t1 s1 t2 s2 H1 H2. unfold cleanup_rule in *.
    rewrite existsb_app, H1, H2. reflexivity.
Qed.

Lemma launch_cleans_nothing (w : World) :
  respects cleanup_rule (read_settings_and_start_dockerd w).
Proof.
  unfold read_settings_and_start_dockerd, start_dockerd, is_process_alive,
    assign_exit_code, g_main_loop_quit, read_settings,
    get_and_verify_sd_card_selection, get_and_verify_tls_selection,
    get_ipc_socket_selection, setup_sdcard, get_filesystem_of_path,
    is_parameter_yes, get_parameter_value, syslog.
  respects_with ltac:(intro; reflexivity).
Qed.

(** X19.  On every child-exit notification the callback closes the notified
    pid and removes /var/run/docker.pid exactly once, and does so before
    anything is spawned: whatever comes before is at most the log line and
    the exit code for an abnormal exit. *)
Theorem child_exit_cleans_up_before_relaunch :
  forall (w : World) (pid status : Z) (s : State),
    let r := dockerd_process_exited_callback w pid status s in
    exists pre post,
      trace r = (pre ++ EvSpawnClosePid pid :: EvRemove "/var/run/docker.pid"
                   :: post)%list /\
      pre = (if g_spawn_check_exit_status status then []
             else [exited_log status; EvExitCode (-1)]) /\
      existsb is_cleanup post = false.
Proof.
  intros w pid status s r. subst r. rewrite exited_callback_run. cbv zeta.
  exists (if g_spawn_check_exit_status status then []
          else [exited_log status; EvExitCode (-1)]).
  destruct (restart_dockerd s).
  - match goal with |- context [read_settings_and_start_dockerd w ?x] =>
      pose proof (launch_cleans_nothing w x) as Hc;
      destruct (read_settings_and_start_dockerd w x) as [[ok s1] t1] end.
    unfold cleanup_rule in Hc. cbn [result final trace fst snd] in *.
    destruct ok; cbn [trace snd].
    + exists t1. split; [|split; [reflexivity|exact Hc]].
      destruct (g_spawn_check_exit_status status); reflexivity.
    + exists (t1 ++ [EvExitCode (-1); EvMainLoopQuit])%list.
      split; [|split; [reflexivity|]].
      * destruct (g_spawn_check_exit_status status); reflexivity.
      * rewrite existsb_app, Hc. reflexivity.
  - cbn [trace snd]. exists [EvMainLoopQuit].
    split; [|split; reflexivity].
    destruct (g_spawn_check_exit_status status); reflexivity.
Qed.

(** X20.  After a notification for one of the three keys, the next child-exit
    notification relaunches dockerd with the settings read from the
    parameters at that moment: the value carried by the notification is only
    logged, and nothing is spawned when those settings do not validate.  The
    flag is used up. *)
Theorem relaunch_reads_the_settings_afresh :
  forall (w w' : World) (k value : string) (pid status : Z) (s : State),
    In k ax_parameters ->
    let s1 := final (parameter_changed_callback w (parameter_path k) value s) in
    let r := dockerd_process_exited_callback w' pid status s1 in
    let rs := read_settings w' (mkSettings None false false) initial_state in
    spawned (trace r)
    = (if fst (result rs) then [argv_by_parts (snd (result rs))] else []) /\
    (fst (result rs) = true ->
     dockerd_argv (snd (result rs)) = Some (argv_by_parts (snd (result rs)))) /\
    restart_dockerd (final r) = false.
Proof.
  intros w w' k value pid status s Hk s1 r rs.
  assert (Hflag : restart_dockerd s1 = true).
  { subst s1. destruct (parameter_changed_marks w (parameter_path k) value s) as [_ H].
    rewrite H, strip_prefix_path.
    assert (Hw : existsb (String.eqb k) ax_parameters = true).
    { apply existsb_exists. exists k. split; [exact Hk|apply String.eqb_refl]. }
    rewrite Hw. apply orb_true_r. }
  split; [|split; [|apply exited_callback_budget]];
    [|intro Hrs; apply (validated_argv w' initial_state);
      subst rs; destruct (result (read_settings w' _ initial_state)) as [ok st];
      cbn [fst snd] in *; rewrite Hrs; reflexivity].
  subst r. rewrite exited_callback_run. cbv zeta. rewrite Hflag.
  match goal with |- context [read_settings_and_start_dockerd w' ?x] =>
    pose proof (launch_spawned w' x) as Hsp;
    destruct (read_settings_and_start_dockerd w' x) as [[ok s2] t2] end.
  cbv zeta in Hsp. cbn [result final trace fst snd] in *. fold rs in Hsp.
  destruct ok; cbn [trace snd]; rewrite !spawned_app, Hsp;
    destruct (g_spawn_check_exit_status status); cbn [negb spawned flat_map app];
    rewrite ?app_nil_r; reflexivity.
Qed.

Lemma relaunch_reads_the_settings_afresh_witness :
  let s1 := final (parameter_changed_callback unsecured (parameter_path "UseTLS")
                     "yes" running) in
  let r := dockerd_process_exited_callback all_selected 4711 0 s1 in
  let rs := read_settings all_selected (mkSettings None false false) initial_state in
  spawned (trace r)
  = (if fst (result rs) then [argv_by_parts (snd (result rs))] else []) /\
  (fst (result rs) = true ->
   dockerd_argv (snd (result rs)) = Some (argv_by_parts (snd (result rs)))) /\
  restart_dockerd (final r) = false.
Proof.
  apply (relaunch_reads_the_settings_afresh unsecured all_selected "UseTLS" "yes"
           4711 0 running).
  right. right. left. reflexivity.
Defined.


(** ** What a whole run can spawn *)

#[local] Instance sound_rule_closed : Closed sound_rule.
Proof.
  split.
  - intro s. constructor.
  - intros s t1 s1 t2 s2 H1 H2. apply Forall_app. split; assumption.
Qed.

Ltac sound_base := intro; repeat constructor.

Lemma resolver_events_sound (t : list Event) :
  forallb is_resolver_event t = true -> Forall sound_event t.
Proof.
  intro H. apply Forall_forall. intros e He.
  rewrite forallb_forall in H. specialize (H e He).
  destruct e; try discriminate H; exact I.
Qed.

Lemma validated_vector_known (w : World) (s : State) :
  fst (result (read_settings w (mkSettings None false false) s)) = true ->
  known_vector
    (argv_by_parts (snd (result (read_settings w (mkSettings None false false) s)))).
Proof.
  intro Hy.
  destruct (result (read_settings w (mkSettings None false false) s))
    as [ok st] eqn:Hrs.
  cbn [fst snd] in *. subst ok.
  pose proof (validated_argv w s st Hrs) as Hargv.
  pose proof (validated_data_root w s st Hrs) as Hd.
  destruct st as [dr tls ipc]. cbn [data_root] in Hd.
  destruct Hd as [-> | ->].
  - exists false, tls, ipc. split; [reflexivity|exact Hargv].
  - exists true, tls, ipc. split; [reflexivity|exact Hargv].
Qed.

Lemma launch_sound (w : World) :
  respects sound_rule (read_settings_and_start_dockerd w).
Proof.
  intro s. unfold sound_rule. rewrite launch_run. cbv zeta.
  destruct (read_settings_resolver w (mkSettings None false false) s) as [_ Hev].
  pose proof (resolver_events_sound _ Hev) as Hr.
  pose proof (validated_vector_known w s) as Hk.
  destruct (fst (result (read_settings w _ s))); cbn [trace snd]; [|exact Hr].
  specialize (Hk eq_refl).
  apply Forall_app. split; [exact Hr|].
  unfold spawn_outcome.
  destruct (g_spawn_async w _) as [pid|];
    [destruct ((waitpid_WNOHANG w pid =? -1) || (waitpid_WNOHANG w pid =? pid))|];
    cbn [trace snd app]; repeat constructor; exact Hk.
Qed.

Lemma stop_dockerd_sound (w : World) : respects sound_rule (stop_dockerd w).
Proof.
  unfold stop_dockerd, sleep, kill_ok, syslog.
  respects_with sound_base.
Qed.

Lemma mark_restart_sound (parname value : string) (keys : list string) :
  respects sound_rule (mark_restart parname value keys).
Proof.
  induction keys as [|k keys IH]; cbn [mark_restart]; unfold syslog;
    respects_with ltac:(first [apply IH|sound_base]).
Qed.

Lemma dispatch_sound (e : LoopEvent) : respects sound_rule (dispatch e).
Proof.
  destruct e; cbn [dispatch];
    unfold handle_signals, dockerd_process_exited_callback,
      parameter_changed_callback, assign_exit_code, g_main_loop_quit, syslog;
    respects_with ltac:(first [apply launch_sound
                              |apply mark_restart_sound
                              |apply stop_dockerd_sound
                              |sound_base]).
Qed.

Lemma serve_sound (events : list LoopEvent) : respects sound_rule (serve events).
Proof.
  induction events as [|e events IH]; cbn [serve];
    respects_with ltac:(first [apply IH|apply dispatch_sound|sound_base]).
Qed.

Lemma register_callbacks_sound (w : World) (keys : list string) :
  respects sound_rule (register_callbacks w keys).
Proof.
  induction keys as [|k keys IH]; cbn [register_callbacks]; unfold syslog;
    respects_with ltac:(first [apply IH|sound_base]).
Qed.

Lemma unregister_callbacks_sound (keys : list string) :
  respects sound_rule (unregister_callbacks keys).
Proof.
  induction keys as [|k keys IH]; cbn [unregister_callbacks];
    respects_with ltac:(first [apply IH|sound_base]).
Qed.

Lemma main_sound (w0 : World) (events : list LoopEvent) (wend : World) :
  respects sound_rule (main w0 events wend).
Proof.
  unfold main, main_body, main_end, setup_axparameter, g_main_loop_run,
    assign_exit_code, syslog.
  respects_with ltac:(first [apply register_callbacks_sound
                            |apply launch_sound
                            |apply serve_sound
                            |apply stop_dockerd_sound
                            |apply unregister_callbacks_sound
                            |sound_base]).
Qed.

(** X21.  In every run of [main], whatever the platform answers and whatever
    events arrive, no store of [start_dockerd] lies outside [args], and every
    vector handed to [g_spawn_async] is one of the eight that three yes-or-no
    selections give: the command and the config-file flag, the TLS or plain
    block, [--data-root] with the fixed path on the SD card or nothing, and
    the unix-socket bind or nothing. *)
Theorem main_spawns_only_known_vectors :
  forall (w0 : World) (events : list LoopEvent) (wend : World) (s : State),
    let r := main w0 events wend s in
    ~ In EvUndefined (trace r) /\
    forall argv,
      In (EvSpawn argv) (trace r) ->
      exists sd tls ipc,
        let st := mkSettings
                    (if sd : bool
                     then Some "/var/spool/storage/SD_DISK/dockerd/data"
                     else None) tls ipc in
        argv = argv_by_parts st /\ dockerd_argv st = Some argv.
Proof.
  intros w0 events wend s r.
  pose proof (main_sound w0 events wend s) as H. fold r in H.
  unfold sound_rule in H. rewrite Forall_forall in H.
  split.
  - intro Hin. apply (H _ Hin).
  - intros argv Hin. apply (H _ Hin).
Qed.
